(** * SceneManager: texture and material registries, shader state bridge

    A shallow embedding of [Source/SceneManager.cpp].  The class keeps a
    fixed array of texture entries, a vector of materials and a pointer to
    a shader manager; its methods are modelled as state transformers over
    a record holding those members, in an error monad whose failures are
    the undefined behaviours the C++ code can reach (null dereference,
    access outside the texture array). *)

From Stdlib Require Import ZArith Lia Bool.
From Stdlib Require Import Floats.SpecFloat.
From stdpp Require Import base list strings.

Local Open Scope string_scope.
Local Open Scope Z_scope.

(** ** Single-precision floats

    [float] of the C++ code is IEEE-754 binary32: 24 bits of precision,
    exponents below 128.  Arithmetic is the correctly rounded arithmetic
    of [SpecFloat]. *)

Module F32.

Definition float : Type := spec_float.

Definition prec : Z := 24.
Definition emax : Z := 128.

Definition add : float -> float -> float := SFadd prec emax.
Definition sub : float -> float -> float := SFsub prec emax.
Definition mul : float -> float -> float := SFmul prec emax.
Definition div : float -> float -> float := SFdiv prec emax.
Definition sqrt : float -> float := SFsqrt prec emax.

(** The float nearest to the integer [n]. *)
Definition of_Z (n : Z) : float := binary_normalize prec emax n 0 false.

(** A decimal literal with suffix [f], given as the fraction [num/den]
    of two integers below [2^24]: the division is correctly rounded, so
    the result is the float nearest to the decimal. *)
Definition lit (num den : Z) : float := div (of_Z num) (of_Z den).

(** A decimal literal without suffix is a [double]; stored into a float
    it is rounded a second time. *)
Definition of_double_lit (num den : Z) : float :=
  match SFdiv 53 1024 (binary_normalize 53 1024 num 0 false)
                      (binary_normalize 53 1024 den 0 false) with
  | S754_finite s m e => binary_normalize prec emax (cond_Zopp s (Zpos m)) e s
  | other => other
  end.

Definition zero : float := S754_zero false.
Definition one : float := of_Z 1.

End F32.

Abbreviation float := F32.float.

Declare Scope f32_scope.
Delimit Scope f32_scope with f32.
Infix "+" := F32.add : f32_scope.
Infix "-" := F32.sub : f32_scope.
Infix "*" := F32.mul : f32_scope.
Infix "/" := F32.div : f32_scope.

(** ** GLM vectors and matrices

    GLM is a header library the program includes; the parts of it that
    [SetTransformations] calls are written out here after
    [glm/detail/type_vec*.inl], [glm/detail/type_mat4x4.inl],
    [glm/ext/matrix_transform.inl] and [glm/gtx/transform.inl]
    (GLM 0.9.9, scalar code path).  Matrices are column-major. *)

Module glm.

Record vec2 : Type := Vec2 { x2 : float; y2 : float }.
Record vec3 : Type := Vec3 { x3 : float; y3 : float; z3 : float }.
Record vec4 : Type := Vec4 { x4 : float; y4 : float; z4 : float; w4 : float }.
Record mat4 : Type := Mat4 { col0 : vec4; col1 : vec4; col2 : vec4; col3 : vec4 }.

(** [vec4 * scalar] and [vec4 + vec4], componentwise. *)
Definition vscale (v : vec4) (s : float) : vec4 :=
  Vec4 (x4 v * s)%f32 (y4 v * s)%f32 (z4 v * s)%f32 (w4 v * s)%f32.

Definition vadd (a b : vec4) : vec4 :=
  Vec4 (x4 a + x4 b)%f32 (y4 a + y4 b)%f32 (z4 a + z4 b)%f32 (w4 a + w4 b)%f32.

(** [mat4(1.0f)]: the diagonal matrix of ones. *)
Definition mat4_diag (d : float) : mat4 :=
  Mat4 (Vec4 d F32.zero F32.zero F32.zero)
       (Vec4 F32.zero d F32.zero F32.zero)
       (Vec4 F32.zero F32.zero d F32.zero)
       (Vec4 F32.zero F32.zero F32.zero d).

Definition identity : mat4 := mat4_diag F32.one.

(** [operator*(mat4, mat4)]: column [j] of the product is
    [A0 * B_j[0] + A1 * B_j[1] + A2 * B_j[2] + A3 * B_j[3]],
    summed from the left. *)
Definition mul_col (a : mat4) (b : vec4) : vec4 :=
  vadd (vadd (vadd (vscale (col0 a) (x4 b)) (vscale (col1 a) (y4 b)))
             (vscale (col2 a) (z4 b)))
       (vscale (col3 a) (w4 b)).

Definition mul (a b : mat4) : mat4 :=
  Mat4 (mul_col a (col0 b)) (mul_col a (col1 b))
       (mul_col a (col2 b)) (mul_col a (col3 b)).

(** [glm::scale(v)] is [scale(mat4(1), v)]. *)
Definition scale_m (m : mat4) (v : vec3) : mat4 :=
  Mat4 (vscale (col0 m) (x3 v)) (vscale (col1 m) (y3 v))
       (vscale (col2 m) (z3 v)) (col3 m).

Definition scale (v : vec3) : mat4 := scale_m identity v.

(** [glm::translate(v)] is [translate(mat4(1), v)]: only the last column
    changes, to [m[0]*v[0] + m[1]*v[1] + m[2]*v[2] + m[3]]. *)
Definition translate_m (m : mat4) (v : vec3) : mat4 :=
  Mat4 (col0 m) (col1 m) (col2 m)
       (vadd (vadd (vadd (vscale (col0 m) (x3 v)) (vscale (col1 m) (y3 v)))
                   (vscale (col2 m) (z3 v)))
             (col3 m)).

Definition translate (v : vec3) : mat4 := translate_m identity v.

(** [glm::radians]: degrees times the float nearest to pi/180
    (0x3C8EFA35). *)
Definition deg2rad : float := S754_finite false 9370165 (-29).

Definition radians (degrees : float) : float := (degrees * deg2rad)%f32.

(** [dot], [inversesqrt] and [normalize] on [vec3]. *)
Definition dot (a b : vec3) : float :=
  ((x3 a * x3 b) + (y3 a * y3 b) + (z3 a * z3 b))%f32.

Definition inversesqrt (x : float) : float := (F32.one / F32.sqrt x)%f32.

Definition normalize (v : vec3) : vec3 :=
  let k := inversesqrt (dot v v) in
  Vec3 (x3 v * k)%f32 (y3 v * k)%f32 (z3 v * k)%f32.

Section Rotate.

(** The C library's [cos] and [sin] on floats are not part of the
    program; they are taken as given. *)
Variables cosf sinf : float -> float.

(** [glm::rotate(angle, v)] is [rotate(mat4(1), angle, v)]. *)
Definition rotate_m (m : mat4) (angle : float) (v : vec3) : mat4 :=
  let a := angle in
  let c := cosf a in
  let s := sinf a in
  let axis := normalize v in
  let temp := Vec3 ((F32.one - c) * x3 axis)%f32 ((F32.one - c) * y3 axis)%f32
                   ((F32.one - c) * z3 axis)%f32 in
  let r00 := (c + x3 temp * x3 axis)%f32 in
  let r01 := (x3 temp * y3 axis + s * z3 axis)%f32 in
  let r02 := (x3 temp * z3 axis - s * y3 axis)%f32 in
  let r10 := (y3 temp * x3 axis - s * z3 axis)%f32 in
  let r11 := (c + y3 temp * y3 axis)%f32 in
  let r12 := (y3 temp * z3 axis + s * x3 axis)%f32 in
  let r20 := (z3 temp * x3 axis + s * y3 axis)%f32 in
  let r21 := (z3 temp * y3 axis - s * x3 axis)%f32 in
  let r22 := (c + z3 temp * z3 axis)%f32 in
  let lin a0 a1 a2 :=
    vadd (vadd (vscale (col0 m) a0) (vscale (col1 m) a1)) (vscale (col2 m) a2) in
  Mat4 (lin r00 r01 r02) (lin r10 r11 r12) (lin r20 r21 r22) (col3 m).

Definition rotate (angle : float) (v : vec3) : mat4 := rotate_m identity angle v.

End Rotate.

End glm.


(** ** Outcomes

    A method either returns, or runs into undefined behaviour of the C++
    program.  [OutOfFuel] belongs to the model only: loops are run with a
    bound on their number of iterations, and the bounds used are shown to
    be large enough. *)

Inductive Fault : Type :=
| NullDereference
| OutOfBounds
| OutOfFuel.

Inductive result (A : Type) : Type :=
| Ok (a : A)
| Crash (f : Fault).

Arguments Ok {A} a.
Arguments Crash {A} f.

(** ** The OpenGL context

    Only texture names matter to the registry: the context keeps the
    names in use and the calls it received, newest first. *)

Definition GLuint : Type := Z.

Definition GL_TEXTURE_2D : Z := 0x0DE1.
Definition GL_TEXTURE_WRAP_S : Z := 0x2802.
Definition GL_TEXTURE_WRAP_T : Z := 0x2803.
Definition GL_TEXTURE_MIN_FILTER : Z := 0x2801.
Definition GL_TEXTURE_MAG_FILTER : Z := 0x2800.
Definition GL_REPEAT : Z := 0x2901.
Definition GL_LINEAR : Z := 0x2601.
Definition GL_RGB : Z := 0x1907.
Definition GL_RGBA : Z := 0x1908.
Definition GL_RGB8 : Z := 0x8051.
Definition GL_RGBA8 : Z := 0x8058.
Definition GL_UNSIGNED_BYTE : Z := 0x1401.
Definition GL_TEXTURE0 : Z := 0x84C0.

Inductive GLcall : Type :=
| GenTextures (name : GLuint)
| DeleteTextures (name : GLuint)
| BindTexture (target : Z) (texture : GLuint)
| ActiveTexture (texture : Z)
| TexParameteri (target pname param : Z)
| TexImage2D (target level internalformat width height border format type : Z)
             (pixels : list Z)
| GenerateMipmap (target : Z).

Record GLContext : Type := MkGL {
  gl_names : list GLuint;
  gl_calls : list GLcall
}.

Definition gl_record (c : GLcall) (g : GLContext) : GLContext :=
  MkGL (gl_names g) (c :: gl_calls g).

(** [glDeleteTextures(1, &name)] gives a name back to the driver.  No
    method of the file makes this call. *)
Definition glDeleteTextures1 (name : GLuint) (g : GLContext) : GLContext :=
  MkGL (filter (fun n => n <> name) (gl_names g)) (DeleteTextures name :: gl_calls g).

(** Conversion of a [GLuint] to [int], as in [textureID = ....ID]. *)
Definition int_of_GLuint (n : GLuint) : Z :=
  if n <? 2 ^ 31 then n else n - 2 ^ 32.

(** ** The image decoder

    What [stbi_load] hands back for a file it could decode: the size, the
    number of channels of the file (the call asks for no conversion), and
    the bytes, already flipped as [stbi_set_flip_vertically_on_load]
    asks. *)

Record Image : Type := MkImage {
  width : Z;
  height : Z;
  colorChannels : Z;
  pixels : list Z
}.

(** ** The shader manager *)

(** Modelled from the spec: the class [ShaderManager] and its setters are
    declared outside this file.  Each setter writes one named uniform of
    the active program, and the last write to a name is the value the
    next draw sees.  The object is the list of the writes it received,
    newest first; [UniformValue] is what a setter can write. *)
Inductive UniformValue : Type :=
| UInt (v : Z)
| UBool (b : bool)
| UFloat (f : float)
| UVec2 (v : glm.vec2)
| UVec3 (v : glm.vec3)
| UVec4 (v : glm.vec4)
| UMat4 (m : glm.mat4)
| USampler2D (slot : Z).

Definition ShaderManager : Type := list (string * UniformValue).

(** Modelled from the spec: the setters of [ShaderManager], one per
    overload this file calls; each records the write. *)
Definition setIntValue (name : string) (v : Z) (sh : ShaderManager) : ShaderManager :=
  (name, UInt v) :: sh.
Definition setBoolValue (name : string) (b : bool) (sh : ShaderManager) : ShaderManager :=
  (name, UBool b) :: sh.
Definition setFloatValue (name : string) (f : float) (sh : ShaderManager) : ShaderManager :=
  (name, UFloat f) :: sh.
Definition setVec2Value (name : string) (v : glm.vec2) (sh : ShaderManager) : ShaderManager :=
  (name, UVec2 v) :: sh.
Definition setVec3Value (name : string) (v : glm.vec3) (sh : ShaderManager) : ShaderManager :=
  (name, UVec3 v) :: sh.
Definition setVec3Value_xyz (name : string) (x y z : float) (sh : ShaderManager)
  : ShaderManager :=
  (name, UVec3 (glm.Vec3 x y z)) :: sh.
Definition setVec4Value (name : string) (v : glm.vec4) (sh : ShaderManager) : ShaderManager :=
  (name, UVec4 v) :: sh.
Definition setMat4Value (name : string) (m : glm.mat4) (sh : ShaderManager) : ShaderManager :=
  (name, UMat4 m) :: sh.
Definition setSampler2DValue (name : string) (slot : Z) (sh : ShaderManager) : ShaderManager :=
  (name, USampler2D slot) :: sh.

(** The value a uniform holds: the newest write to its name. *)
Fixpoint uniform (name : string) (sh : ShaderManager) : option UniformValue :=
  match sh with
  | [] => None
  | (n, v) :: rest => if String.eqb n name then Some v else uniform name rest
  end.

(** ** The mesh provider *)

(** Modelled from the spec: the class [ShapeMeshes] is declared outside
    this file; it loads and draws four kinds of primitive.  The object
    remembers what was loaded and what was drawn, newest first. *)
Inductive Mesh : Type := BoxMesh | PlaneMesh | CylinderMesh | TorusMesh.

Record ShapeMeshes : Type := MkMeshes {
  loaded : list Mesh;
  drawn : list Mesh
}.

(** ** Registry entries

    The two structs are declared in [SceneManager.h], which is not among
    the sources; their fields are the ones this file reads and writes.
    [glGenTextures] is handed [&m_textureIDs[i].ID], so [ID] is a
    [GLuint]. *)

Module Tex.
Record TEXTURE_INFO : Type := Make {
  ID : GLuint;
  tag : string
}.
End Tex.

Module Mat.
Record OBJECT_MATERIAL : Type := Make {
  diffuseColor : glm.vec3;
  specularColor : glm.vec3;
  shininess : float;
  tag : string
}.
End Mat.

Abbreviation TEXTURE_INFO := Tex.TEXTURE_INFO.
Abbreviation OBJECT_MATERIAL := Mat.OBJECT_MATERIAL.

(** Modelled from the spec: the header declaring [m_textureIDs] is not
    among the sources; the table is "bounded by a fixed capacity (16
    slots)", as the comment of [BindGLTextures] also says. *)
Definition MAX_TEXTURES : Z := 16.

(** ** The scene manager

    The members of the class, the shader manager its pointer refers to
    ([None] for [NULL]) and the OpenGL context of the process. *)

Record SceneManager : Type := MkScene {
  m_pShaderManager : option ShaderManager;
  m_basicMeshes : ShapeMeshes;
  m_loadedTextures : Z;
  m_textureIDs : list TEXTURE_INFO;
  m_objectMaterials : list OBJECT_MATERIAL;
  gl : GLContext
}.

Definition with_shader (sh : option ShaderManager) (st : SceneManager) : SceneManager :=
  MkScene sh (m_basicMeshes st) (m_loadedTextures st) (m_textureIDs st)
          (m_objectMaterials st) (gl st).
Definition with_meshes (ms : ShapeMeshes) (st : SceneManager) : SceneManager :=
  MkScene (m_pShaderManager st) ms (m_loadedTextures st) (m_textureIDs st)
          (m_objectMaterials st) (gl st).
Definition with_loaded (n : Z) (st : SceneManager) : SceneManager :=
  MkScene (m_pShaderManager st) (m_basicMeshes st) n (m_textureIDs st)
          (m_objectMaterials st) (gl st).
Definition with_textures (ts : list TEXTURE_INFO) (st : SceneManager) : SceneManager :=
  MkScene (m_pShaderManager st) (m_basicMeshes st) (m_loadedTextures st) ts
          (m_objectMaterials st) (gl st).
Definition with_materials (ms : list OBJECT_MATERIAL) (st : SceneManager) : SceneManager :=
  MkScene (m_pShaderManager st) (m_basicMeshes st) (m_loadedTextures st)
          (m_textureIDs st) ms (gl st).
Definition with_gl (g : GLContext) (st : SceneManager) : SceneManager :=
  MkScene (m_pShaderManager st) (m_basicMeshes st) (m_loadedTextures st)
          (m_textureIDs st) (m_objectMaterials st) g.

(** ** Methods as state transformers *)

Definition M (A : Type) : Type := SceneManager -> result (A * SceneManager).

Definition ret {A : Type} (a : A) : M A := fun st => Ok (a, st).

Definition bind {A B : Type} (c : M A) (k : A -> M B) : M B :=
  fun st =>
    match c st with
    | Ok (a, st') => k a st'
    | Crash f => Crash f
    end.

Declare Scope method_scope.
Delimit Scope method_scope with method.
Notation "x <- c ;; k" := (bind c (fun x => k))
  (at level 100, c at next level, k at level 200, right associativity) : method_scope.
Notation "c ;; k" := (bind c (fun _ => k))
  (at level 100, k at level 200, right associativity) : method_scope.
Local Open Scope method_scope.

Definition get {A : Type} (f : SceneManager -> A) : M A := fun st => Ok (f st, st).
Definition modify (f : SceneManager -> SceneManager) : M unit := fun st => Ok (tt, f st).

(** [while (cond) body] over the locals [l], for at most [fuel] rounds. *)
Fixpoint while {L : Type} (fuel : nat) (cond : L -> SceneManager -> bool)
    (body : L -> M L) (l : L) : M L :=
  fun st =>
    if cond l st then
      match fuel with
      | O => Crash OutOfFuel
      | S fuel' =>
          match body l st with
          | Ok (l', st') => while fuel' cond body l' st'
          | Crash f => Crash f
          end
      end
    else Ok (l, st).

(** [if (c) body] without an else branch. *)
Definition when (c : SceneManager -> bool) (body : M unit) : M unit :=
  fun st => if c st then body st else Ok (tt, st).

(** [NULL != m_pShaderManager] *)
Definition shader_not_null (st : SceneManager) : bool :=
  match m_pShaderManager st with Some _ => true | None => false end.

(** [m_pShaderManager->setter(...)]: the pointer is dereferenced. *)
Definition shader_call (setter : ShaderManager -> ShaderManager) : M unit :=
  fun st =>
    match m_pShaderManager st with
    | Some sh => Ok (tt, with_shader (Some (setter sh)) st)
    | None => Crash NullDereference
    end.

(** A call into OpenGL. *)
Definition gl_call (c : GLcall) : M unit :=
  modify (fun st => with_gl (gl_record c (gl st)) st).

(** [m_textureIDs[i]] as an rvalue and as an lvalue: outside the 16
    slots the access is undefined. *)
Definition texture_at (i : Z) : M TEXTURE_INFO :=
  fun st =>
    if (0 <=? i) && (i <? MAX_TEXTURES) then
      match m_textureIDs st !! Z.to_nat i with
      | Some e => Ok (e, st)
      | None => Crash OutOfBounds
      end
    else Crash OutOfBounds.

Definition set_texture_at (i : Z) (f : TEXTURE_INFO -> TEXTURE_INFO) : M unit :=
  e <- texture_at i ;;
  modify (fun st => with_textures (<[Z.to_nat i := f e]> (m_textureIDs st)) st).

(** [m_objectMaterials[i]] *)
Definition material_at (i : Z) : M OBJECT_MATERIAL :=
  fun st =>
    if 0 <=? i then
      match m_objectMaterials st !! Z.to_nat i with
      | Some e => Ok (e, st)
      | None => Crash OutOfBounds
      end
    else Crash OutOfBounds.

(** [std::string::compare]: negative, zero or positive. *)
Definition compare (a b : string) : Z :=
  match String.compare a b with
  | Eq => 0
  | Lt => -1
  | Gt => 1
  end.

(** ** A concrete environment

    One environment the abstract one can be: a driver that hands out the
    name after the largest in use, polynomial [cos] and [sin], and a
    file system with four images.  It serves the examples below. *)

Definition next_name (used : list GLuint) : GLuint :=
  1 + fold_right Z.max 0 used.

Definition cos_poly (a : float) : float :=
  (F32.one - (a * a) / F32.of_Z 2 + (a * a * a * a) / F32.of_Z 24)%f32.

Definition sin_poly (a : float) : float :=
  (a - (a * a * a) / F32.of_Z 6)%f32.

Definition sample_files (filename : string) : option Image :=
  if String.eqb filename "textures/leather1.jpg" then Some (MkImage 1 1 3 [10; 20; 30])
  else if String.eqb filename "textures/tesla_screen.jpg" then Some (MkImage 1 1 4 [1; 2; 3; 255])
  else if String.eqb filename "textures/gray.png" then Some (MkImage 1 1 1 [128])
  else if String.eqb filename "textures/gray_alpha.png" then Some (MkImage 1 1 2 [128; 255])
  else None.

(** A scene manager before [PrepareScene]: no texture loaded into the
    16 slots, no materials, nothing loaded or drawn. *)
Definition new_scene (sh : option ShaderManager) : SceneManager :=
  MkScene sh (MkMeshes [] []) 0 (replicate 16 (Tex.Make 0 EmptyString)) [] (MkGL [] []).

(** The same with two textures registered under one tag. *)
Definition twice_tagged : SceneManager :=
  MkScene (Some []) (MkMeshes [] []) 2
          (Tex.Make 7 "dash" :: Tex.Make 9 "dash" :: replicate 14 (Tex.Make 0 EmptyString))
          [] (MkGL [9; 7] [GenTextures 9; GenTextures 7]).

(** A material, a scene manager that holds only it, and a value for the
    local that [SetShaderMaterial] leaves uninitialised. *)
Definition paint : OBJECT_MATERIAL :=
  Mat.Make (glm.Vec3 F32.one F32.zero F32.zero) (glm.Vec3 F32.zero F32.one F32.zero)
           (F32.of_Z 8) "paint".

Definition painted (sh : option ShaderManager) : SceneManager :=
  MkScene sh (MkMeshes [] []) 0 (replicate 16 (Tex.Make 0 EmptyString)) [paint]
          (MkGL [] []).

Definition stale : OBJECT_MATERIAL :=
  Mat.Make (glm.Vec3 F32.zero F32.zero F32.zero) (glm.Vec3 F32.zero F32.zero F32.zero)
           F32.zero EmptyString.

(** Names of the uniforms, as in the anonymous namespace of the file. *)
Definition g_ModelName : string := "model".
Definition g_ColorValueName : string := "objectColor".
Definition g_TextureValueName : string := "objectTexture".
Definition g_UseTextureName : string := "bUseTexture".
Definition g_UseLightingName : string := "bUseLighting".

Section Methods.

(** What the program takes from its environment: the C library's
    [cosf] and [sinf], the name the OpenGL driver hands out given the
    names in use, and the image [stbi_load] decodes from each file
    ([None] when it returns [NULL]). *)
Variables cosf sinf : float -> float.
Variable glGenName : list GLuint -> GLuint.
Variable stbi_load : string -> option Image.

(** [glGenTextures(1, &name)] *)
Definition glGenTextures1 : M GLuint :=
  fun st =>
    let name := glGenName (gl_names (gl st)) in
    Ok (name, with_gl (MkGL (name :: gl_names (gl st))
                            (GenTextures name :: gl_calls (gl st))) st).

(** *** CreateGLTexture *)
Definition CreateGLTexture (filename : string) (tag : string) : M bool :=
  match stbi_load filename with
  | Some image =>
      textureID <- glGenTextures1 ;;
      gl_call (BindTexture GL_TEXTURE_2D textureID) ;;
      gl_call (TexParameteri GL_TEXTURE_2D GL_TEXTURE_WRAP_S GL_REPEAT) ;;
      gl_call (TexParameteri GL_TEXTURE_2D GL_TEXTURE_WRAP_T GL_REPEAT) ;;
      gl_call (TexParameteri GL_TEXTURE_2D GL_TEXTURE_MIN_FILTER GL_LINEAR) ;;
      gl_call (TexParameteri GL_TEXTURE_2D GL_TEXTURE_MAG_FILTER GL_LINEAR) ;;
      let upload internalformat format :=
        gl_call (TexImage2D GL_TEXTURE_2D 0 internalformat (width image) (height image)
                            0 format GL_UNSIGNED_BYTE (pixels image)) in
      let register :=
        gl_call (GenerateMipmap GL_TEXTURE_2D) ;;
        gl_call (BindTexture GL_TEXTURE_2D 0) ;;
        n <- get m_loadedTextures ;;
        set_texture_at n (fun e => Tex.Make textureID (Tex.tag e)) ;;
        n <- get m_loadedTextures ;;
        set_texture_at n (fun e => Tex.Make (Tex.ID e) tag) ;;
        modify (fun st => with_loaded (m_loadedTextures st + 1) st) ;;
        ret true in
      if colorChannels image =? 3 then
        upload GL_RGB8 GL_RGB ;; register
      else if colorChannels image =? 4 then
        upload GL_RGBA8 GL_RGBA ;; register
      else
        ret false
  | None => ret false
  end.

(** *** BindGLTextures *)
Definition BindGLTextures : M unit :=
  fuel <- get (fun st => Z.to_nat (m_loadedTextures st)) ;;
  while fuel (fun i st => i <? m_loadedTextures st)
    (fun i =>
       gl_call (ActiveTexture (GL_TEXTURE0 + i)) ;;
       e <- texture_at i ;;
       gl_call (BindTexture GL_TEXTURE_2D (Tex.ID e)) ;;
       ret (i + 1))
    0 ;;
  ret tt.

(** *** DestroyGLTextures *)
Definition DestroyGLTextures : M unit :=
  fuel <- get (fun st => Z.to_nat (m_loadedTextures st)) ;;
  while fuel (fun i st => i <? m_loadedTextures st)
    (fun i =>
       texture_at i ;;
       name <- glGenTextures1 ;;
       set_texture_at i (fun e => Tex.Make name (Tex.tag e)) ;;
       ret (i + 1))
    0 ;;
  ret tt.

(** *** FindTextureID

    The locals of the loop are [(textureID, index, bFound)]. *)
Definition FindTextureID (tag : string) : M Z :=
  fuel <- get (fun st => Z.to_nat (m_loadedTextures st)) ;;
  l <- while fuel
         (fun '(textureID, index, bFound) st =>
            (index <? m_loadedTextures st) && Bool.eqb bFound false)
         (fun '(textureID, index, bFound) =>
            e <- texture_at index ;;
            if compare (Tex.tag e) tag =? 0
            then ret (int_of_GLuint (Tex.ID e), index, true)
            else ret (textureID, index + 1, bFound))
         (-1, 0, false) ;;
  let '(textureID, _, _) := l in
  ret textureID.

(** *** FindTextureSlot

    The locals of the loop are [(textureSlot, index, bFound)]. *)
Definition FindTextureSlot (tag : string) : M Z :=
  fuel <- get (fun st => Z.to_nat (m_loadedTextures st)) ;;
  l <- while fuel
         (fun '(textureSlot, index, bFound) st =>
            (index <? m_loadedTextures st) && Bool.eqb bFound false)
         (fun '(textureSlot, index, bFound) =>
            e <- texture_at index ;;
            if compare (Tex.tag e) tag =? 0
            then ret (index, index, true)
            else ret (textureSlot, index + 1, bFound))
         (-1, 0, false) ;;
  let '(textureSlot, _, _) := l in
  ret textureSlot.

(** *** FindMaterial

    The reference parameter [material] is passed in and handed back with
    the return value.  The locals of the loop are
    [(material, index, bFound)]. *)
Definition FindMaterial (tag : string) (material : OBJECT_MATERIAL)
  : M (bool * OBJECT_MATERIAL) :=
  size <- get (fun st => Z.of_nat (length (m_objectMaterials st))) ;;
  if size =? 0 then ret (false, material)
  else
    fuel <- get (fun st => length (m_objectMaterials st)) ;;
    l <- while fuel
           (fun '(material, index, bFound) st =>
              (index <? Z.of_nat (length (m_objectMaterials st)))
              && Bool.eqb bFound false)
           (fun '(material, index, bFound) =>
              e <- material_at index ;;
              if compare (Mat.tag e) tag =? 0
              then ret (Mat.Make (Mat.diffuseColor e) (Mat.specularColor e)
                                 (Mat.shininess e) (Mat.tag material),
                        index, true)
              else ret (material, index + 1, bFound))
           (material, 0, false) ;;
    let '(material, _, _) := l in
    ret (true, material).

(** *** SetTransformations *)
Definition modelView (scaleXYZ : glm.vec3)
    (XrotationDegrees YrotationDegrees ZrotationDegrees : float)
    (positionXYZ : glm.vec3) : glm.mat4 :=
  let scale := glm.scale scaleXYZ in
  let rotationX := glm.rotate cosf sinf (glm.radians XrotationDegrees)
                     (glm.Vec3 F32.one F32.zero F32.zero) in
  let rotationY := glm.rotate cosf sinf (glm.radians YrotationDegrees)
                     (glm.Vec3 F32.zero F32.one F32.zero) in
  let rotationZ := glm.rotate cosf sinf (glm.radians ZrotationDegrees)
                     (glm.Vec3 F32.zero F32.zero F32.one) in
  let translation := glm.translate positionXYZ in
  glm.mul (glm.mul (glm.mul (glm.mul translation rotationZ) rotationY) rotationX) scale.

Definition SetTransformations (scaleXYZ : glm.vec3)
    (XrotationDegrees YrotationDegrees ZrotationDegrees : float)
    (positionXYZ : glm.vec3) : M unit :=
  let modelView :=
    modelView scaleXYZ XrotationDegrees YrotationDegrees ZrotationDegrees positionXYZ in
  when shader_not_null
    (shader_call (setMat4Value g_ModelName modelView)).

(** *** SetShaderColor *)
Definition SetShaderColor (redColorValue greenColorValue blueColorValue alphaValue : float)
  : M unit :=
  let currentColor := glm.Vec4 redColorValue greenColorValue blueColorValue alphaValue in
  when shader_not_null
    (shader_call (setIntValue g_UseTextureName (Z.b2z false)) ;;
     shader_call (setVec4Value g_ColorValueName currentColor)).

(** *** SetShaderTexture *)
Definition SetShaderTexture (textureTag : string) : M unit :=
  when shader_not_null
    (shader_call (setIntValue g_UseTextureName (Z.b2z true)) ;;
     textureID <- FindTextureSlot textureTag ;;
     shader_call (setSampler2DValue g_TextureValueName textureID)).

(** *** SetTextureUVScale *)
Definition SetTextureUVScale (u v : float) : M unit :=
  when shader_not_null
    (shader_call (setVec2Value "UVscale" (glm.Vec2 u v))).

(** *** SetShaderMaterial

    The local [material] is declared without an initialiser: [material]
    stands for what the variable holds before [FindMaterial] is called. *)
Definition SetShaderMaterial (materialTag : string) (material : OBJECT_MATERIAL) : M unit :=
  when (fun st => Z.of_nat (length (m_objectMaterials st)) >? 0)
    (r <- FindMaterial materialTag material ;;
     let '(bReturn, material) := r in
     if Bool.eqb bReturn true then
       shader_call (setVec3Value "material.diffuseColor" (Mat.diffuseColor material)) ;;
       shader_call (setVec3Value "material.specularColor" (Mat.specularColor material)) ;;
       shader_call (setFloatValue "material.shininess" (Mat.shininess material))
     else ret tt).

(** *** The scene script *)

Definition LoadSceneTextures : M unit :=
  CreateGLTexture "textures/leather1.jpg" "dash" ;;
  CreateGLTexture "textures/tesla_screen.jpg" "screen" ;;
  CreateGLTexture "textures/leatherwhite.jpg" "base" ;;
  CreateGLTexture "textures/metalgrid.jpg" "ground" ;;
  CreateGLTexture "textures/grayleather.jpg" "dashText" ;;
  CreateGLTexture "textures/black_plastic.jpg" "plastic" ;;
  CreateGLTexture "textures/steering_wheel.jpg" "wheel" ;;
  BindGLTextures.

(** [m_objectMaterials.push_back(m)] *)
Definition push_back (m : OBJECT_MATERIAL) : M unit :=
  modify (fun st => with_materials (m_objectMaterials st ++ [m]) st).

Definition vec3_lit (x y z : float) : glm.vec3 := glm.Vec3 x y z.

Definition DefineObjectMaterials : M unit :=
  let matteBlack :=
    Mat.Make (vec3_lit (F32.lit 1 10) (F32.lit 1 10) (F32.lit 1 10))
             (vec3_lit (F32.lit 1 10) (F32.lit 1 10) (F32.lit 1 10))
             (F32.of_Z 8) "matteblack" in
  push_back matteBlack ;;
  let polishWhite :=
    Mat.Make (vec3_lit (F32.lit 95 100) (F32.lit 95 100) (F32.lit 95 100))
             (vec3_lit (F32.lit 5 10) (F32.lit 5 10) (F32.lit 5 10))
             (F32.of_Z 32) "polishwhite" in
  push_back polishWhite ;;
  let glassScreen :=
    Mat.Make (vec3_lit (F32.lit 1 10) (F32.lit 1 10) (F32.lit 1 10))
             (vec3_lit (F32.lit 9 10) (F32.lit 9 10) (F32.lit 9 10))
             (F32.of_Z 128) "glassscreen" in
  push_back glassScreen ;;
  let greyLeather :=
    Mat.Make (vec3_lit (F32.lit 3 10) (F32.lit 3 10) (F32.lit 3 10))
             (vec3_lit (F32.lit 1 10) (F32.lit 1 10) (F32.lit 1 10))
             (F32.of_Z 4) "dashmat" in
  push_back greyLeather ;;
  let plastic :=
    Mat.Make (vec3_lit (F32.lit 15 100) (F32.lit 15 100) (F32.lit 15 100))
             (vec3_lit (F32.lit 3 10) (F32.lit 3 10) (F32.lit 3 10))
             (F32.of_Z 16) "plastic" in
  push_back plastic.

Definition SetupSceneLights : M unit :=
  shader_call (setBoolValue g_UseLightingName true) ;;
  shader_call (setVec3Value_xyz "directionalLight.direction"
                 (F32.lit 2 10) (F32.lit (-2) 10) (F32.lit (-5) 10)) ;;
  shader_call (setVec3Value_xyz "directionalLight.ambient"
                 (F32.lit 1 10) F32.zero (F32.lit 1 10)) ;;
  shader_call (setVec3Value_xyz "directionalLight.diffuse"
                 (F32.lit 8 10) (F32.lit 8 10) (F32.lit 8 10)) ;;
  shader_call (setVec3Value_xyz "directionalLight.specular"
                 (F32.lit 2 10) (F32.lit 2 10) (F32.lit 2 10)) ;;
  shader_call (setBoolValue "directionalLight.bActive" true) ;;
  shader_call (setVec3Value_xyz "pointLights[0].position"
                 F32.zero (F32.lit 25 10) (F32.of_Z (-2))) ;;
  shader_call (setVec3Value_xyz "pointLights[0].ambient"
                 (F32.lit 5 100) (F32.lit 5 100) (F32.lit 5 100)) ;;
  shader_call (setVec3Value_xyz "pointLights[0].diffuse"
                 F32.one F32.one F32.one) ;;
  shader_call (setVec3Value_xyz "pointLights[0].specular"
                 (F32.lit 2 10) (F32.lit 2 10) (F32.lit 2 10)) ;;
  shader_call (setBoolValue "pointLights[0].bActive" true).

(** [m_basicMeshes->Load...Mesh()] and [m_basicMeshes->Draw...Mesh()] *)
Definition LoadMesh (m : Mesh) : M unit :=
  modify (fun st => with_meshes (MkMeshes (m :: loaded (m_basicMeshes st))
                                          (drawn (m_basicMeshes st))) st).
Definition DrawMesh (m : Mesh) : M unit :=
  modify (fun st => with_meshes (MkMeshes (loaded (m_basicMeshes st))
                                          (m :: drawn (m_basicMeshes st))) st).

Definition PrepareScene : M unit :=
  DefineObjectMaterials ;;
  LoadSceneTextures ;;
  SetupSceneLights ;;
  LoadMesh BoxMesh ;;
  LoadMesh PlaneMesh ;;
  LoadMesh CylinderMesh ;;
  LoadMesh TorusMesh.

(** [RenderScene]: twelve draw commands.  [indeterminate k] is what the
    uninitialised local of the [k]-th call of [SetShaderMaterial]
    holds. *)
Definition RenderScene (indeterminate : nat -> OBJECT_MATERIAL) : M unit :=
  (* ground plane *)
  SetTransformations (vec3_lit (F32.of_Z 20) F32.one (F32.of_Z 10))
    F32.zero F32.zero F32.zero (vec3_lit F32.zero F32.zero F32.zero) ;;
  SetShaderMaterial "dashmat" (indeterminate 0%nat) ;;
  SetShaderTexture "ground" ;;
  DrawMesh PlaneMesh ;;
  (* main dashboard body *)
  SetTransformations (vec3_lit (F32.lit 28 10) (F32.lit 12 100) (F32.lit 6 10))
    (F32.of_Z 20) F32.zero F32.zero
    (vec3_lit F32.zero (F32.lit 8 10) (F32.lit (-15) 10)) ;;
  SetShaderMaterial "dashmat" (indeterminate 1%nat) ;;
  SetShaderTexture "dash" ;;
  SetTextureUVScale (F32.of_Z 3) F32.one ;;
  DrawMesh CylinderMesh ;;
  (* dashboard top surface *)
  SetTransformations (vec3_lit (F32.lit 28 10) (F32.lit 2 100) (F32.lit 2 10))
    (F32.of_Z 5) F32.zero F32.zero
    (vec3_lit F32.zero (F32.lit 95 100) (F32.lit (-14) 10)) ;;
  SetShaderMaterial "metal" (indeterminate 2%nat) ;;
  SetShaderColor (F32.lit 15 100) (F32.lit 15 100) (F32.lit 15 100) F32.one ;;
  DrawMesh BoxMesh ;;
  (* screen frame *)
  SetTransformations (vec3_lit (F32.lit 49 100) (F32.lit 65 100) (F32.lit 4 100))
    (F32.of_Z 5) F32.zero F32.zero
    (vec3_lit F32.zero (F32.lit 9 10) (F32.lit (-85) 100)) ;;
  SetShaderMaterial "plastic" (indeterminate 3%nat) ;;
  SetShaderColor (F32.lit 5 100) (F32.lit 5 100) (F32.lit 5 100) F32.one ;;
  DrawMesh BoxMesh ;;
  (* display surface *)
  SetTransformations (vec3_lit (F32.lit 47 100) (F32.lit 63 100) (F32.lit 2 100))
    (F32.of_Z 5) F32.zero F32.zero
    (vec3_lit F32.zero (F32.lit 9 10) (F32.lit (-83) 100)) ;;
  SetShaderMaterial "glassscreen" (indeterminate 4%nat) ;;
  SetShaderTexture "screen" ;;
  SetTextureUVScale F32.one F32.one ;;
  DrawMesh BoxMesh ;;
  (* steering wheel ring *)
  SetTransformations (vec3_lit (F32.lit 26 100) (F32.lit 26 100) (F32.lit 5 100))
    (F32.of_Z 20) F32.zero F32.zero
    (vec3_lit (F32.lit (-65) 100) (F32.lit 85 100) (F32.lit (-7) 10)) ;;
  SetShaderMaterial "plastic" (indeterminate 5%nat) ;;
  SetShaderTexture "wheel" ;;
  DrawMesh TorusMesh ;;
  (* steering column *)
  SetTransformations (vec3_lit (F32.lit 4 100) (F32.lit 41 100) (F32.lit 4 100))
    (F32.of_Z (-90)) F32.zero F32.zero
    (vec3_lit (F32.lit (-65) 100) (F32.lit 85 100) (F32.lit (-7) 10)) ;;
  SetShaderMaterial "matteblack" (indeterminate 6%nat) ;;
  DrawMesh CylinderMesh ;;
  (* steering wheel centre *)
  SetTransformations (vec3_lit (F32.lit 12 100) (F32.lit 12 100) (F32.lit 5 100))
    (F32.of_Z 20) F32.zero F32.zero
    (vec3_lit (F32.lit (-65) 100) (F32.lit 85 100) (F32.lit (-7) 10)) ;;
  SetShaderMaterial "plastic" (indeterminate 7%nat) ;;
  SetShaderColor (F32.lit 2 10) (F32.lit 2 10) (F32.lit 2 10) F32.one ;;
  DrawMesh BoxMesh ;;
  (* seat base *)
  SetTransformations (vec3_lit (F32.lit 5 10) (F32.lit 1 10) (F32.lit 5 10))
    F32.zero F32.zero F32.zero
    (vec3_lit (F32.lit (-7) 10) (F32.lit 1 10) F32.zero) ;;
  SetShaderMaterial "dashmat" (indeterminate 8%nat) ;;
  SetShaderTexture "dash" ;;
  DrawMesh BoxMesh ;;
  (* seat back *)
  SetTransformations (vec3_lit (F32.lit 5 10) (F32.lit 7 10) (F32.lit 1 10))
    (F32.of_Z 15) F32.zero F32.zero
    (vec3_lit (F32.lit (-699) 1000) (F32.lit 5 10) (F32.of_double_lit 35 100)) ;;
  SetShaderMaterial "dashmat" (indeterminate 9%nat) ;;
  SetShaderTexture "dash" ;;
  DrawMesh BoxMesh ;;
  (* centre console *)
  SetTransformations (vec3_lit (F32.lit 3 10) (F32.lit 25 100) (F32.lit 18 10))
    F32.zero F32.zero F32.zero
    (vec3_lit F32.zero (F32.lit 2 10) (F32.lit (-2) 10)) ;;
  SetShaderMaterial "plastic" (indeterminate 10%nat) ;;
  SetShaderColor (F32.lit 1 10) (F32.lit 1 10) (F32.lit 1 10) F32.one ;;
  DrawMesh BoxMesh ;;
  (* cup holders *)
  SetTransformations (vec3_lit (F32.lit 2 10) (F32.lit 1 10) (F32.lit 2 10))
    F32.zero F32.zero F32.zero
    (vec3_lit F32.zero (F32.lit 3 10) (F32.lit 4 10)) ;;
  SetShaderMaterial "matteblack" (indeterminate 11%nat) ;;
  DrawMesh BoxMesh.

(** ** Well-formed registries

    The table has its 16 slots and the count of loaded textures points
    into it. *)
Definition registry_ok (st : SceneManager) : Prop :=
  Z.of_nat (length (m_textureIDs st)) = MAX_TEXTURES /\
  0 <= m_loadedTextures st <= MAX_TEXTURES.

(** ** Reading the registries without the loops

    What the three scanning loops compute, by recursion on the table:
    the first entry bearing the tag, with its index. *)

Fixpoint first_tagged (tag : string) (entries : list TEXTURE_INFO) (index : Z)
  : option (Z * TEXTURE_INFO) :=
  match entries with
  | [] => None
  | e :: rest =>
      if String.eqb (Tex.tag e) tag then Some (index, e)
      else first_tagged tag rest (index + 1)
  end.

Fixpoint first_material (tag : string) (entries : list OBJECT_MATERIAL)
  : option OBJECT_MATERIAL :=
  match entries with
  | [] => None
  | e :: rest =>
      if String.eqb (Mat.tag e) tag then Some e else first_material tag rest
  end.

(** The entries in use: the first [m_loadedTextures] slots. *)
Definition loaded_entries (st : SceneManager) : list TEXTURE_INFO :=
  take (Z.to_nat (m_loadedTextures st)) (m_textureIDs st).

(** The three uniforms [SetShaderMaterial] writes for a material. *)
Definition material_writes (m : OBJECT_MATERIAL) : ShaderManager :=
  [("material.shininess", UFloat (Mat.shininess m));
   ("material.specularColor", UVec3 (Mat.specularColor m));
   ("material.diffuseColor", UVec3 (Mat.diffuseColor m))].

(** The five tags the scene defines, to be compared with what
    [DefineObjectMaterials] appends. *)
Definition defined_tags : list string :=
  ["matteblack"; "polishwhite"; "glassscreen"; "dashmat"; "plastic"].

(** ** Notions used in the statements *)

(** [FindTextureID] and [FindTextureSlot] run the same loop and differ
    in what they keep of the entry found: [val index e]. *)
Definition scan_cond : Z * Z * bool -> SceneManager -> bool :=
  fun '(_, index, bFound) st =>
    (index <? m_loadedTextures st) && Bool.eqb bFound false.

Definition scan_body (tag : string) (val : Z -> TEXTURE_INFO -> Z)
  : Z * Z * bool -> M (Z * Z * bool) :=
  fun '(r, index, bFound) =>
    e <- texture_at index ;;
    if compare (Tex.tag e) tag =? 0
    then ret (val index e, index, true)
    else ret (r, index + 1, bFound).

Definition scan_result (tag : string) (val : Z -> TEXTURE_INFO -> Z)
    (st : SceneManager) (r index : Z) : Z * Z * bool :=
  match first_tagged tag (drop (Z.to_nat index) (loaded_entries st)) index with
  | Some (i, e) => (val i e, i, true)
  | None => (r, m_loadedTextures st, false)
  end.

(** What a call of [CreateGLTexture] leaves behind, by its outcome. *)
Definition load_outcome (tag : string) (st : SceneManager)
    (r : result (bool * SceneManager)) : Prop :=
  match r with
  | Ok (true, st') =>
      m_loadedTextures st < MAX_TEXTURES /\
      m_loadedTextures st' = m_loadedTextures st + 1 /\
      m_textureIDs st'
      = <[Z.to_nat (m_loadedTextures st) := Tex.Make (glGenName (gl_names (gl st))) tag]>
          (m_textureIDs st) /\
      m_objectMaterials st' = m_objectMaterials st /\
      m_pShaderManager st' = m_pShaderManager st /\
      m_basicMeshes st' = m_basicMeshes st
  | Ok (false, st') =>
      m_loadedTextures st' = m_loadedTextures st /\
      m_textureIDs st' = m_textureIDs st /\
      m_objectMaterials st' = m_objectMaterials st /\
      m_pShaderManager st' = m_pShaderManager st /\
      m_basicMeshes st' = m_basicMeshes st
  | Crash f => f = OutOfBounds /\ m_loadedTextures st = MAX_TEXTURES
  end.

(** The calls that only generate a name. *)
Definition is_GenTextures (c : GLcall) : Prop := exists name, c = GenTextures name.

(** The state [s'] reached from [s] by the rounds [i], [i+1], ... of the
    loop of [DestroyGLTextures]. *)
Definition regenerated_from (i : Z) (s s' : SceneManager) : Prop :=
  m_loadedTextures s' = m_loadedTextures s /\
  map Tex.tag (m_textureIDs s') = map Tex.tag (m_textureIDs s) /\
  m_objectMaterials s' = m_objectMaterials s /\
  m_pShaderManager s' = m_pShaderManager s /\
  m_basicMeshes s' = m_basicMeshes s /\
  (forall name, name ∈ gl_names (gl s) -> name ∈ gl_names (gl s')) /\
  (exists calls, gl_calls (gl s') = (calls ++ gl_calls (gl s))%list /\
                 Forall is_GenTextures calls) /\
  (forall (j : nat) e', (Z.to_nat i <= j < Z.to_nat (m_loadedTextures s))%nat ->
     m_textureIDs s' !! j = Some e' ->
     (Tex.ID e' ∉ gl_names (gl s)) /\ (Tex.ID e' ∈ gl_names (gl s'))) /\
  (forall j : nat, (j < Z.to_nat i \/ Z.to_nat (m_loadedTextures s) <= j)%nat ->
     m_textureIDs s' !! j = m_textureIDs s !! j).

(** The three assignments of [FindMaterial] on a match: the tag of the
    parameter is kept. *)
Definition copy_fields (e material : OBJECT_MATERIAL) : OBJECT_MATERIAL :=
  Mat.Make (Mat.diffuseColor e) (Mat.specularColor e) (Mat.shininess e) (Mat.tag material).

(** What [FindMaterial] leaves in its reference parameter. *)
Definition resolved (tag : string) (entries : list OBJECT_MATERIAL)
    (material : OBJECT_MATERIAL) : OBJECT_MATERIAL :=
  match first_material tag entries with
  | Some e => copy_fields e material
  | None => material
  end.

(** The materials [DefineObjectMaterials] appends. *)
Definition defined_materials : list OBJECT_MATERIAL :=
  match DefineObjectMaterials (new_scene None) with
  | Ok (_, st) => m_objectMaterials st
  | Crash _ => []
  end.

(** Methods that leave the materials and the shader manager alone and
    the registry well-formed. *)
Definition preserves {A : Type} (c : M A) : Prop :=
  forall (st st' : SceneManager) (a : A),
    registry_ok st -> c st = Ok (a, st') ->
    registry_ok st' /\
    m_objectMaterials st' = m_objectMaterials st /\
    m_pShaderManager st' = m_pShaderManager st.

(** The states the script runs in: a well-formed registry, the materials
    of [DefineObjectMaterials], and a shader manager that has received
    the writes [sh]. *)
Definition scripted (st : SceneManager) (sh : ShaderManager) : Prop :=
  registry_ok st /\
  m_objectMaterials st = defined_materials /\
  m_pShaderManager st = Some sh.

(** A step of the script returns and only adds uniform writes; a step
    [emits] the writes [ws] when they are among those it adds. *)
Definition extends (c : M unit) : Prop :=
  forall st sh, scripted st sh ->
    exists st' new, c st = Ok (tt, st') /\ scripted st' (new ++ sh)%list.

Definition emits (ws : ShaderManager) (c : M unit) : Prop :=
  forall st sh, scripted st sh ->
    exists st' after before,
      c st = Ok (tt, st') /\ scripted st' (after ++ ws ++ before ++ sh)%list.

(** ** Texture units

    What the calls a context received leave bound: [glActiveTexture]
    selects a unit (unit 0 at the start), [glBindTexture] on the target
    [GL_TEXTURE_2D] binds a name to the selected unit (name 0 at the
    start), and deleting a bound name puts 0 back.  The calls are read
    newest first. *)
Fixpoint active_unit (calls : list GLcall) : Z :=
  match calls with
  | [] => GL_TEXTURE0
  | ActiveTexture texture :: _ => texture
  | _ :: rest => active_unit rest
  end.

Fixpoint bound_2D (calls : list GLcall) (unit : Z) : GLuint :=
  match calls with
  | [] => 0
  | BindTexture target texture :: rest =>
      if (target =? GL_TEXTURE_2D) && (active_unit rest =? unit) then texture
      else bound_2D rest unit
  | DeleteTextures name :: rest =>
      if bound_2D rest unit =? name then 0 else bound_2D rest unit
  | _ :: rest => bound_2D rest unit
  end.

(** The identifiers of the slots in use are pairwise distinct and are
    names in use in the context. *)
Definition handles_ok (st : SceneManager) : Prop :=
  NoDup (map Tex.ID (loaded_entries st)) /\
  Forall (fun e => Tex.ID e ∈ gl_names (gl st)) (loaded_entries st).

(** Two states with the same registries and the same context. *)
Definition same_registries (st st' : SceneManager) : Prop :=
  m_loadedTextures st' = m_loadedTextures st /\
  m_textureIDs st' = m_textureIDs st /\
  m_objectMaterials st' = m_objectMaterials st /\
  gl st' = gl st.

(** Methods that, when they return, have changed neither the
    registries nor the context, and have drawn [meshes] (newest first)
    and loaded none. *)
Definition only_draws {A : Type} (meshes : list Mesh) (c : M A) : Prop :=
  forall (st st' : SceneManager) (a : A),
    c st = Ok (a, st') ->
    same_registries st st' /\
    loaded (m_basicMeshes st') = loaded (m_basicMeshes st) /\
    drawn (m_basicMeshes st') = (meshes ++ drawn (m_basicMeshes st))%list.

(** The files [CreateGLTexture] accepts: decoded, with 3 or 4 channels. *)
Definition decodes (filename : string) : bool :=
  match stbi_load filename with
  | Some image => (colorChannels image =? 3) || (colorChannels image =? 4)
  | None => false
  end.

(** The files and tags of [LoadSceneTextures], in its order. *)
Definition scene_textures : list (string * string) :=
  [("textures/leather1.jpg", "dash");
   ("textures/tesla_screen.jpg", "screen");
   ("textures/leatherwhite.jpg", "base");
   ("textures/metalgrid.jpg", "ground");
   ("textures/grayleather.jpg", "dashText");
   ("textures/black_plastic.jpg", "plastic");
   ("textures/steering_wheel.jpg", "wheel")].

(** The meshes [RenderScene] draws, newest first. *)
Definition scene_draws : list Mesh :=
  [BoxMesh; BoxMesh; BoxMesh; BoxMesh; BoxMesh; CylinderMesh;
   TorusMesh; BoxMesh; BoxMesh; BoxMesh; CylinderMesh; PlaneMesh].

(** The calls [CreateGLTexture] makes, newest first, up to the test of
    the channel count, and from there to the end of a load that
    registers the texture. *)
Definition setup_calls (name : GLuint) : list GLcall :=
  [TexParameteri GL_TEXTURE_2D GL_TEXTURE_MAG_FILTER GL_LINEAR;
   TexParameteri GL_TEXTURE_2D GL_TEXTURE_MIN_FILTER GL_LINEAR;
   TexParameteri GL_TEXTURE_2D GL_TEXTURE_WRAP_T GL_REPEAT;
   TexParameteri GL_TEXTURE_2D GL_TEXTURE_WRAP_S GL_REPEAT;
   BindTexture GL_TEXTURE_2D name;
   GenTextures name].

Definition upload_calls (image : Image) : list GLcall :=
  [BindTexture GL_TEXTURE_2D 0;
   GenerateMipmap GL_TEXTURE_2D;
   TexImage2D GL_TEXTURE_2D 0
     (if colorChannels image =? 3 then GL_RGB8 else GL_RGBA8)
     (width image) (height image) 0
     (if colorChannels image =? 3 then GL_RGB else GL_RGBA)
     GL_UNSIGNED_BYTE (pixels image)].

(** The state a load that registers [image] under [tag] ends in, and the
    state a load that rejects the image ends in. *)
Definition registered (image : Image) (tag : string) (st : SceneManager) : SceneManager :=
  let name := glGenName (gl_names (gl st)) in
  with_loaded (m_loadedTextures st + 1)
    (with_textures
       (<[Z.to_nat (m_loadedTextures st) := Tex.Make name tag]> (m_textureIDs st))
       (with_gl (MkGL (name :: gl_names (gl st))
                      (upload_calls image ++ setup_calls name ++ gl_calls (gl st))%list)
                st)).

Definition rejected (st : SceneManager) : SceneManager :=
  let name := glGenName (gl_names (gl st)) in
  with_gl (MkGL (name :: gl_names (gl st)) (setup_calls name ++ gl_calls (gl st))%list) st.

(** The uniform writes of [SetupSceneLights], newest first. *)
Definition light_writes : ShaderManager :=
  match SetupSceneLights (new_scene (Some [])) with
  | Ok (_, st) => default [] (m_pShaderManager st)
  | Crash _ => []
  end.

(** Whether a file of the scene is registered by [CreateGLTexture]. *)
Definition registers (entry : string * string) : bool := decodes (fst entry).

(** ** What is assumed of the environment *)

(** The driver hands out a name that is not in use. *)
Hypothesis glGenName_fresh : forall used : list GLuint, glGenName used ∉ used.

(** The C library returns exactly 1 for the cosine and 0 for the sine of
    a zero argument (C11 annex F.10.1). *)
Hypothesis cosf_zero : cosf F32.zero = F32.one.
Hypothesis sinf_zero : sinf F32.zero = F32.zero.

(** * Properties *)

(** ** Strings *)

Lemma ascii_compare_refl (c : Ascii.ascii) : Ascii.compare c c = Eq.
Proof. unfold Ascii.compare. apply N.compare_refl. Qed.

Lemma string_compare_refl (s : string) : String.compare s s = Eq.
Proof.
  induction s as [|c s IH]; simpl; [reflexivity|].
  now rewrite ascii_compare_refl.
Qed.

Lemma compare_zero (a b : string) : (compare a b =? 0) = String.eqb a b.
Proof.
  unfold compare. destruct (String.eqb_spec a b) as [->|Hne].
  - now rewrite string_compare_refl.
  - destruct (String.compare a b) eqn:Hc; try reflexivity.
    apply String.compare_eq_iff in Hc. contradiction.
Qed.

(** ** The monad *)

Lemma bind_ok {A B : Type} (c : M A) (k : A -> M B) (st st' : SceneManager) (a : A) :
  c st = Ok (a, st') -> bind c k st = k a st'.
Proof. unfold bind. now intros ->. Qed.

Lemma bind_inv {A B : Type} (c : M A) (k : A -> M B) (st st2 : SceneManager) (b : B) :
  bind c k st = Ok (b, st2) ->
  exists a st1, c st = Ok (a, st1) /\ k a st1 = Ok (b, st2).
Proof.
  unfold bind. destruct (c st) as [[a st1]|f]; [eauto|discriminate].
Qed.

(** ** Slots of the table *)

Lemma texture_at_ok (st : SceneManager) (i : Z) :
  registry_ok st -> 0 <= i < m_loadedTextures st ->
  exists e, m_textureIDs st !! Z.to_nat i = Some e /\ texture_at i st = Ok (e, st).
Proof.
  intros [Hlen Hn] Hi. unfold texture_at, MAX_TEXTURES in *.
  destruct (lookup_lt_is_Some_2 (m_textureIDs st) (Z.to_nat i)) as [e He]; [lia|].
  exists e. split; [exact He|].
  replace ((0 <=? i) && (i <? 16)) with true
    by (symmetry; apply andb_true_iff; split; [apply Z.leb_le|apply Z.ltb_lt]; lia).
  now rewrite He.
Qed.

Lemma loaded_entries_drop (st : SceneManager) (i : Z) (e : TEXTURE_INFO) :
  0 <= i < m_loadedTextures st ->
  m_textureIDs st !! Z.to_nat i = Some e ->
  drop (Z.to_nat i) (loaded_entries st)
  = e :: drop (Z.to_nat (i + 1)) (loaded_entries st).
Proof.
  intros Hi He. unfold loaded_entries.
  replace (Z.to_nat (i + 1)) with (S (Z.to_nat i)) by lia.
  apply drop_S. rewrite lookup_take_lt by lia. exact He.
Qed.

Lemma loaded_entries_drop_all (st : SceneManager) (i : Z) :
  m_loadedTextures st <= i -> drop (Z.to_nat i) (loaded_entries st) = [].
Proof.
  intros Hi. apply drop_ge. unfold loaded_entries. rewrite length_take. lia.
Qed.

(** ** The scanning loops of the texture table *)

Lemma scan_loop (tag : string) (val : Z -> TEXTURE_INFO -> Z) (st : SceneManager) :
  registry_ok st ->
  forall (fuel : nat) (index r : Z),
    0 <= index <= m_loadedTextures st ->
    (Z.to_nat (m_loadedTextures st - index) <= fuel)%nat ->
    while fuel scan_cond (scan_body tag val) (r, index, false) st
    = Ok (scan_result tag val st r index, st).
Proof.
  intros Hok. induction fuel as [|fuel IH]; intros index r Hi Hfuel.
  - assert (index = m_loadedTextures st) as -> by lia.
    unfold scan_result. rewrite loaded_entries_drop_all by lia.
    simpl. now rewrite Z.ltb_irrefl.
  - destruct (Z.eq_dec index (m_loadedTextures st)) as [->|Hne].
    + unfold scan_result. rewrite loaded_entries_drop_all by lia.
      simpl. now rewrite Z.ltb_irrefl.
    + destruct (texture_at_ok st index Hok) as (e & He & Hat); [lia|].
      unfold scan_result. rewrite (loaded_entries_drop st index e) by (lia || exact He).
      cbn [while scan_cond first_tagged].
      replace (index <? m_loadedTextures st) with true by (symmetry; apply Z.ltb_lt; lia).
      cbn [andb Bool.eqb scan_body].
      rewrite (bind_ok _ _ _ _ _ Hat), compare_zero.
      destruct (String.eqb (Tex.tag e) tag).
      * cbn [ret]. destruct fuel; cbn [while scan_cond];
          now rewrite andb_false_r.
      * cbn [ret]. rewrite IH by lia. reflexivity.
Qed.

Lemma FindTextureID_scan (tag : string) (st : SceneManager) :
  registry_ok st ->
  FindTextureID tag st
  = Ok (match first_tagged tag (loaded_entries st) 0 with
        | Some (_, e) => int_of_GLuint (Tex.ID e)
        | None => -1
        end, st).
Proof.
  intros Hok. unfold FindTextureID, get. cbn [bind].
  pose proof (scan_loop tag (fun _ e => int_of_GLuint (Tex.ID e)) st Hok
                (Z.to_nat (m_loadedTextures st)) 0 (-1)) as H.
  destruct Hok as [_ Hn].
  specialize (H ltac:(lia) ltac:(lia)).
  unfold scan_cond, scan_body in H.
  rewrite (bind_ok _ _ _ _ _ H).
  unfold scan_result.
  change (drop (Z.to_nat 0) (loaded_entries st)) with (loaded_entries st).
  now destruct (first_tagged tag (loaded_entries st) 0) as [[i e]|].
Qed.

Lemma FindTextureSlot_scan (tag : string) (st : SceneManager) :
  registry_ok st ->
  FindTextureSlot tag st
  = Ok (match first_tagged tag (loaded_entries st) 0 with
        | Some (i, _) => i
        | None => -1
        end, st).
Proof.
  intros Hok. unfold FindTextureSlot, get. cbn [bind].
  pose proof (scan_loop tag (fun i _ => i) st Hok
                (Z.to_nat (m_loadedTextures st)) 0 (-1)) as H.
  destruct Hok as [_ Hn].
  specialize (H ltac:(lia) ltac:(lia)).
  unfold scan_cond, scan_body in H.
  rewrite (bind_ok _ _ _ _ _ H).
  unfold scan_result.
  change (drop (Z.to_nat 0) (loaded_entries st)) with (loaded_entries st).
  now destruct (first_tagged tag (loaded_entries st) 0) as [[i e]|].
Qed.

(** ** First match *)

Lemma first_tagged_none (tag : string) (l : list TEXTURE_INFO) (base : Z) :
  Forall (fun e => Tex.tag e <> tag) l -> first_tagged tag l base = None.
Proof.
  intros H. revert base. induction H as [|e l He _ IH]; intros base; simpl.
  - reflexivity.
  - destruct (String.eqb_spec (Tex.tag e) tag); [contradiction|apply IH].
Qed.

Lemma first_tagged_app (tag : string) (l1 l2 : list TEXTURE_INFO) (base : Z) :
  Forall (fun e => Tex.tag e <> tag) l1 ->
  first_tagged tag (l1 ++ l2) base = first_tagged tag l2 (base + Z.of_nat (length l1)).
Proof.
  intros H. revert base. induction H as [|e l He _ IH]; intros base; simpl length.
  - simpl. f_equal. lia.
  - cbn [app first_tagged].
    destruct (String.eqb_spec (Tex.tag e) tag); [contradiction|].
    rewrite IH. f_equal. lia.
Qed.

Lemma first_tagged_at (tag : string) (l : list TEXTURE_INFO) (i : nat) (e : TEXTURE_INFO) :
  l !! i = Some e -> Tex.tag e = tag ->
  (forall j e', (j < i)%nat -> l !! j = Some e' -> Tex.tag e' <> tag) ->
  forall base, first_tagged tag l base = Some (base + Z.of_nat i, e).
Proof.
  revert i. induction l as [|a l IH]; intros i Hi He Hbefore base.
  - discriminate.
  - destruct i as [|i]; simpl in Hi.
    + injection Hi as ->. simpl. rewrite He, String.eqb_refl. do 2 f_equal. lia.
    + simpl. destruct (String.eqb_spec (Tex.tag a) tag) as [Heq|_].
      * exfalso. apply (Hbefore 0%nat a); [lia|reflexivity|exact Heq].
      * rewrite (IH i Hi He); [do 2 f_equal; lia|].
        intros j e' Hj Hl. apply (Hbefore (S j) e'); [lia|exact Hl].
Qed.

(** ** C4: a duplicated tag resolves to its first entry *)

(** C4.  In a registry whose table holds the tag at slot [i] and at no
    slot before it, [FindTextureID] returns the identifier stored in slot
    [i] (as the [int] the method returns) and [FindTextureSlot] returns
    [i]; whatever later slot [k] bears the same tag, the lookup does not
    answer [k]. *)
Theorem duplicate_tag_resolves_to_first
    (st : SceneManager) (tag : string) (i : nat) (e : TEXTURE_INFO) :
  registry_ok st ->
  (i < Z.to_nat (m_loadedTextures st))%nat ->
  m_textureIDs st !! i = Some e ->
  Tex.tag e = tag ->
  (forall j e', (j < i)%nat -> m_textureIDs st !! j = Some e' -> Tex.tag e' <> tag) ->
  FindTextureID tag st = Ok (int_of_GLuint (Tex.ID e), st) /\
  FindTextureSlot tag st = Ok (Z.of_nat i, st) /\
  (forall k e2, (i < k)%nat -> m_textureIDs st !! k = Some e2 -> Tex.tag e2 = tag ->
                FindTextureSlot tag st <> Ok (Z.of_nat k, st)).
Proof.
  intros Hok Hi He Htag Hbefore.
  assert (first_tagged tag (loaded_entries st) 0 = Some (Z.of_nat i, e)) as Hfirst.
  { rewrite (first_tagged_at tag (loaded_entries st) i e); [reflexivity| |exact Htag|].
    - unfold loaded_entries. rewrite lookup_take_lt by lia. exact He.
    - intros j e' Hj Hl. apply (Hbefore j e' Hj).
      unfold loaded_entries in Hl. rewrite lookup_take_lt in Hl by lia. exact Hl. }
  rewrite FindTextureID_scan, FindTextureSlot_scan by exact Hok.
  rewrite Hfirst. repeat split.
  intros k e2 Hk _ _ Heq. injection Heq as Heq. lia.
Qed.

(** ** Loading a texture *)

Lemma set_texture_at_eval (i : Z) (f : TEXTURE_INFO -> TEXTURE_INFO) (st : SceneManager) :
  set_texture_at i f st
  = if (0 <=? i) && (i <? MAX_TEXTURES) then
      match m_textureIDs st !! Z.to_nat i with
      | Some e => Ok (tt, with_textures (<[Z.to_nat i := f e]> (m_textureIDs st)) st)
      | None => Crash OutOfBounds
      end
    else Crash OutOfBounds.
Proof.
  unfold set_texture_at, bind, texture_at, modify.
  destruct ((0 <=? i) && (i <? MAX_TEXTURES)); [|reflexivity].
  now destruct (m_textureIDs st !! Z.to_nat i).
Qed.

Lemma CreateGLTexture_outcome (filename tag : string) (st : SceneManager) :
  registry_ok st ->
  load_outcome tag st (CreateGLTexture filename tag st).
Proof.
  destruct st as [sh ms n ts mats g]. unfold registry_ok, MAX_TEXTURES.
  cbn [m_textureIDs m_loadedTextures]. intros [Hlen Hn].
  unfold CreateGLTexture.
  destruct (stbi_load filename) as [image|]; [|now cbn].
  assert (forall internalformat format,
    load_outcome tag (MkScene sh ms n ts mats g)
      ((textureID <- glGenTextures1 ;;
        gl_call (BindTexture GL_TEXTURE_2D textureID) ;;
        gl_call (TexParameteri GL_TEXTURE_2D GL_TEXTURE_WRAP_S GL_REPEAT) ;;
        gl_call (TexParameteri GL_TEXTURE_2D GL_TEXTURE_WRAP_T GL_REPEAT) ;;
        gl_call (TexParameteri GL_TEXTURE_2D GL_TEXTURE_MIN_FILTER GL_LINEAR) ;;
        gl_call (TexParameteri GL_TEXTURE_2D GL_TEXTURE_MAG_FILTER GL_LINEAR) ;;
        gl_call (TexImage2D GL_TEXTURE_2D 0 internalformat (width image) (height image)
                            0 format GL_UNSIGNED_BYTE (pixels image)) ;;
        gl_call (GenerateMipmap GL_TEXTURE_2D) ;;
        gl_call (BindTexture GL_TEXTURE_2D 0) ;;
        n <- get m_loadedTextures ;;
        set_texture_at n (fun e => Tex.Make textureID (Tex.tag e)) ;;
        n <- get m_loadedTextures ;;
        set_texture_at n (fun e => Tex.Make (Tex.ID e) tag) ;;
        modify (fun st => with_loaded (m_loadedTextures st + 1) st) ;;
        ret true) (MkScene sh ms n ts mats g))) as Hregister.
  { intros internalformat format.
    cbv beta iota zeta delta
      [bind glGenTextures1 gl_call modify get ret set_texture_at texture_at
       with_gl with_textures with_loaded gl_record m_pShaderManager m_basicMeshes
       m_loadedTextures m_textureIDs m_objectMaterials gl gl_names gl_calls MAX_TEXTURES].
    destruct (Z.lt_ge_cases n 16) as [Hlt|Hge].
    - assert ((0 <=? n) && (n <? 16) = true) as Hin
        by (apply andb_true_iff; split; [apply Z.leb_le|apply Z.ltb_lt]; lia).
      destruct (lookup_lt_is_Some_2 ts (Z.to_nat n)) as [e He]; [lia|].
      rewrite Hin, He. cbv beta iota. rewrite Hin, list_lookup_insert_eq by lia.
      cbn [load_outcome m_loadedTextures m_textureIDs m_objectMaterials
           m_pShaderManager m_basicMeshes gl gl_names Tex.ID Tex.tag].
      rewrite list_insert_insert_eq. unfold MAX_TEXTURES. repeat split; lia.
    - replace (n <? 16) with false by (symmetry; apply Z.ltb_ge; lia).
      rewrite andb_false_r. cbn. unfold MAX_TEXTURES. split; [reflexivity|lia]. }
  destruct (colorChannels image =? 3).
  - apply Hregister.
  - destruct (colorChannels image =? 4).
    + apply Hregister.
    + cbn. repeat split.
Qed.

Lemma registry_ok_after_load (tag : string) (st st' : SceneManager) :
  registry_ok st -> load_outcome tag st (Ok (true, st')) -> registry_ok st'.
Proof.
  intros [Hlen Hn] (Hlt & Hcount & Htable & _). unfold registry_ok.
  rewrite Hcount, Htable, length_insert. lia.
Qed.

Lemma loaded_entries_after_load (tag : string) (st st' : SceneManager) :
  registry_ok st -> load_outcome tag st (Ok (true, st')) ->
  loaded_entries st'
  = (loaded_entries st ++ [Tex.Make (glGenName (gl_names (gl st))) tag])%list.
Proof.
  intros [Hlen Hn] (Hlt & Hcount & Htable & _). unfold loaded_entries, MAX_TEXTURES in *.
  rewrite Hcount, Htable.
  replace (Z.to_nat (m_loadedTextures st + 1)) with (S (Z.to_nat (m_loadedTextures st)))
    by lia.
  rewrite (take_S_r _ _ (Tex.Make (glGenName (gl_names (gl st))) tag))
    by (apply list_lookup_insert_eq; lia).
  now rewrite take_insert_ge by lia.
Qed.

(** ** C2: an image with an unsupported number of channels *)

(** C2.  When the decoded image has neither 3 nor 4 channels,
    [CreateGLTexture] returns [false], and the table of entries and the
    count of loaded textures are what they were before the call. *)
Theorem unsupported_channels_leave_registry
    (filename tag : string) (image : Image) (st : SceneManager) :
  stbi_load filename = Some image ->
  colorChannels image <> 3 ->
  colorChannels image <> 4 ->
  exists st',
    CreateGLTexture filename tag st = Ok (false, st') /\
    m_textureIDs st' = m_textureIDs st /\
    m_loadedTextures st' = m_loadedTextures st.
Proof.
  intros Himg H3 H4. unfold CreateGLTexture. rewrite Himg.
  apply Z.eqb_neq in H3, H4. rewrite H3, H4.
  eexists. split; [reflexivity|]. split; reflexivity.
Qed.

Lemma CreateGLTexture_true_inv (filename tag : string) (st st' : SceneManager) :
  CreateGLTexture filename tag st = Ok (true, st') ->
  exists image, stbi_load filename = Some image /\
                (colorChannels image = 3 \/ colorChannels image = 4).
Proof.
  unfold CreateGLTexture. destruct (stbi_load filename) as [image|]; [|discriminate].
  intros H. exists image. split; [reflexivity|].
  destruct (Z.eqb_spec (colorChannels image) 3); [now left|].
  destruct (Z.eqb_spec (colorChannels image) 4); [now right|discriminate].
Qed.

Lemma CreateGLTexture_succeeds (filename tag : string) (image : Image) (st : SceneManager) :
  registry_ok st ->
  stbi_load filename = Some image ->
  colorChannels image = 3 \/ colorChannels image = 4 ->
  m_loadedTextures st < MAX_TEXTURES ->
  exists st', CreateGLTexture filename tag st = Ok (true, st').
Proof.
  intros Hok Himg Hch Hfree.
  pose proof (CreateGLTexture_outcome filename tag st Hok) as Hout.
  destruct (CreateGLTexture filename tag st) as [[[|] st']|f] eqn:Hrun.
  - now exists st'.
  - exfalso. revert Hrun. unfold CreateGLTexture. rewrite Himg.
    destruct Hch as [-> | ->]; cbn [Z.eqb Pos.eqb];
      unfold bind, glGenTextures1, gl_call, modify, get, ret;
      cbv beta iota;
      repeat match goal with
             | |- context [set_texture_at ?i ?f ?s] => destruct (set_texture_at i f s) as [[[] ?]|?]
             end; discriminate.
  - destruct Hout as [_ Hfull]. lia.
Qed.

(** ** C5: a load followed by a lookup *)

(** C5 (amended).  After a load under a tag that no entry in use bears
    has returned [true] (which it does only for an image of 3 or 4
    channels), the new entry sits in the slot the count pointed at,
    [FindTextureID] with that tag returns the identifier just generated
    (as the [int] the method returns) and [FindTextureSlot] returns that
    slot. *)
Theorem load_then_find_fresh_tag
    (filename tag : string) (st st' : SceneManager) :
  registry_ok st ->
  Forall (fun e => Tex.tag e <> tag) (loaded_entries st) ->
  CreateGLTexture filename tag st = Ok (true, st') ->
  (exists image, stbi_load filename = Some image /\
                 (colorChannels image = 3 \/ colorChannels image = 4)) /\
  m_textureIDs st' !! Z.to_nat (m_loadedTextures st)
  = Some (Tex.Make (glGenName (gl_names (gl st))) tag) /\
  FindTextureID tag st' = Ok (int_of_GLuint (glGenName (gl_names (gl st))), st') /\
  FindTextureSlot tag st' = Ok (m_loadedTextures st, st').
Proof.
  intros Hok Hfresh Hrun.
  pose proof (CreateGLTexture_outcome filename tag st Hok) as Hout.
  rewrite Hrun in Hout.
  pose proof (registry_ok_after_load tag st st' Hok Hout) as Hok'.
  pose proof (loaded_entries_after_load tag st st' Hok Hout) as Hentries.
  destruct Hok as [Hlen Hn]. destruct Hout as (Hlt & _ & Htable & _).
  unfold MAX_TEXTURES in *.
  split; [exact (CreateGLTexture_true_inv _ _ _ _ Hrun)|].
  split; [rewrite Htable; apply list_lookup_insert_eq; lia|].
  rewrite FindTextureID_scan, FindTextureSlot_scan by exact Hok'.
  rewrite Hentries, first_tagged_app by exact Hfresh.
  cbn [first_tagged Tex.tag Tex.ID]. rewrite String.eqb_refl.
  unfold loaded_entries. rewrite length_take_le by lia.
  replace (0 + Z.of_nat (Z.to_nat (m_loadedTextures st))) with (m_loadedTextures st) by lia.
  split; reflexivity.
Qed.

(** ** Releasing the textures *)

Lemma destroy_loop (fuel : nat) :
  forall (i : Z) (s : SceneManager),
    registry_ok s ->
    0 <= i <= m_loadedTextures s ->
    (Z.to_nat (m_loadedTextures s - i) <= fuel)%nat ->
    exists s',
      while fuel (fun i st => i <? m_loadedTextures st)
        (fun i =>
           texture_at i ;;
           name <- glGenTextures1 ;;
           set_texture_at i (fun e => Tex.Make name (Tex.tag e)) ;;
           ret (i + 1))
        i s = Ok (m_loadedTextures s, s') /\
      regenerated_from i s s'.
Proof.
  assert (forall i s, i = m_loadedTextures s -> regenerated_from i s s) as Hstop.
  { intros i s Heq. unfold regenerated_from. repeat split; try tauto; try lia.
    exists []. split; [reflexivity|constructor]. }
  induction fuel as [|fuel IH]; intros i s Hok Hi Hfuel.
  - assert (i = m_loadedTextures s) as Heq by lia.
    exists s. cbn [while]. rewrite Heq at 1. rewrite Z.ltb_irrefl.
    split; [now rewrite Heq|now apply Hstop].
  - destruct (Z.eq_dec i (m_loadedTextures s)) as [Heq|Hne].
    + exists s. cbn [while]. rewrite Heq at 1. rewrite Z.ltb_irrefl.
      split; [now rewrite Heq|now apply Hstop].
    + destruct (texture_at_ok s i Hok) as (e & He & Hat); [lia|].
      destruct Hok as [Hlen Hn]. unfold MAX_TEXTURES in *.
      set (name := glGenName (gl_names (gl s))).
      set (s1 := with_textures (<[Z.to_nat i := Tex.Make name (Tex.tag e)]> (m_textureIDs s))
                   (with_gl (MkGL (name :: gl_names (gl s))
                                  (GenTextures name :: gl_calls (gl s))) s)).
      assert (registry_ok s1) as Hok1.
      { unfold registry_ok, MAX_TEXTURES, s1. cbn. rewrite length_insert. lia. }
      destruct (IH (i + 1) s1 Hok1) as (s' & Hrun & Hreg);
        [unfold s1; cbn; lia|unfold s1; cbn; lia|].
      exists s'. split.
      * cbn [while].
        replace (i <? m_loadedTextures s) with true by (symmetry; apply Z.ltb_lt; lia).
        assert (glGenTextures1 s
                = Ok (name, with_gl (MkGL (name :: gl_names (gl s))
                                          (GenTextures name :: gl_calls (gl s))) s))
          as Hgen by reflexivity.
        assert (set_texture_at i (fun e => Tex.Make name (Tex.tag e))
                  (with_gl (MkGL (name :: gl_names (gl s))
                                 (GenTextures name :: gl_calls (gl s))) s)
                = Ok (tt, s1)) as Hset.
        { rewrite set_texture_at_eval. cbn [with_gl m_textureIDs]. unfold MAX_TEXTURES.
          replace ((0 <=? i) && (i <? 16)) with true
            by (symmetry; apply andb_true_iff; split;
                [apply Z.leb_le|apply Z.ltb_lt]; lia).
          now rewrite He. }
        rewrite (bind_ok _ _ _ _ _ Hat), (bind_ok _ _ _ _ _ Hgen),
          (bind_ok _ _ _ _ _ Hset).
        exact Hrun.
      * destruct Hreg as (Hcount & Htags & Hmats & Hsh & Hms & Hnames & Hcalls & Hnew & Hold).
        unfold s1 in Hcount, Htags, Hmats, Hsh, Hms, Hnames, Hcalls, Hnew, Hold.
        cbn [with_textures with_gl m_loadedTextures m_textureIDs m_objectMaterials
             m_pShaderManager m_basicMeshes gl gl_names gl_calls] in *.
        unfold regenerated_from.
        split; [exact Hcount|]. split; [|split; [exact Hmats|]].
        { rewrite Htags, list_fmap_insert. apply list_insert_id.
          rewrite list_lookup_fmap, He. reflexivity. }
        split; [exact Hsh|]. split; [exact Hms|].
        split; [intros n Hin; apply Hnames; now apply list_elem_of_further|].
        split.
        { destruct Hcalls as (calls & Hcalls & Hgen).
          exists (calls ++ [GenTextures name])%list. split.
          - rewrite Hcalls, <- app_assoc. reflexivity.
          - apply Forall_app. split; [exact Hgen|].
            constructor; [now exists name|constructor]. }
        split.
        { intros j e' Hj Hlookup.
          destruct (Nat.eq_dec j (Z.to_nat i)) as [->|Hne'].
          - rewrite Hold in Hlookup by lia.
            rewrite list_lookup_insert_eq in Hlookup by lia. injection Hlookup as <-.
            split; [apply glGenName_fresh|].
            apply Hnames. apply list_elem_of_here.
          - destruct (Hnew j e') as [Hfresh Hin]; [lia|exact Hlookup|].
            split; [|exact Hin].
            intros Hused. apply Hfresh. now apply list_elem_of_further. }
        intros j Hj. rewrite Hold by lia. apply list_lookup_insert_ne. lia.
Qed.

(** The log of the loop: round [j] asks the driver for one name, given
    the names in use at that moment, and stores it in slot [j]. *)
Lemma destroy_loop_log (names0 : list GLuint) (calls0 : list GLcall) (fuel : nat) :
  forall (i : Z) (s : SceneManager),
    registry_ok s ->
    0 <= i <= m_loadedTextures s ->
    (Z.to_nat (m_loadedTextures s - i) <= fuel)%nat ->
    gl_names (gl s)
    = (rev (map Tex.ID (take (Z.to_nat i) (m_textureIDs s))) ++ names0)%list ->
    gl_calls (gl s)
    = (rev (map (fun e => GenTextures (Tex.ID e)) (take (Z.to_nat i) (m_textureIDs s)))
       ++ calls0)%list ->
    (forall (j : nat) (e' : TEXTURE_INFO),
       (j < Z.to_nat i)%nat -> m_textureIDs s !! j = Some e' ->
       Tex.ID e'
       = glGenName (rev (map Tex.ID (take j (m_textureIDs s))) ++ names0)%list) ->
    exists s',
      while fuel (fun i st => i <? m_loadedTextures st)
        (fun i =>
           texture_at i ;;
           name <- glGenTextures1 ;;
           set_texture_at i (fun e => Tex.Make name (Tex.tag e)) ;;
           ret (i + 1))
        i s = Ok (m_loadedTextures s, s') /\
      gl_names (gl s') = (rev (map Tex.ID (loaded_entries s')) ++ names0)%list /\
      gl_calls (gl s')
      = (rev (map (fun e => GenTextures (Tex.ID e)) (loaded_entries s')) ++ calls0)%list /\
      (forall (j : nat) (e' : TEXTURE_INFO),
         (j < Z.to_nat (m_loadedTextures s))%nat -> m_textureIDs s' !! j = Some e' ->
         Tex.ID e'
         = glGenName (rev (map Tex.ID (take j (m_textureIDs s'))) ++ names0)%list).
Proof.
  induction fuel as [|fuel IH]; intros i s Hok Hi Hfuel Hnames Hcalls Hslots.
  - assert (i = m_loadedTextures s) as Heq by lia.
    exists s. cbn [while]. rewrite Heq at 1. rewrite Z.ltb_irrefl.
    split; [now rewrite Heq|]. subst i. unfold loaded_entries.
    split; [exact Hnames|]. split; [exact Hcalls|exact Hslots].
  - destruct (Z.eq_dec i (m_loadedTextures s)) as [Heq|Hne].
    + exists s. cbn [while]. rewrite Heq at 1. rewrite Z.ltb_irrefl.
      split; [now rewrite Heq|]. subst i. unfold loaded_entries.
      split; [exact Hnames|]. split; [exact Hcalls|exact Hslots].
    + destruct (texture_at_ok s i Hok) as (e & He & Hat); [lia|].
      pose proof Hok as [Hlen Hn]. unfold MAX_TEXTURES in *.
      set (name := glGenName (gl_names (gl s))).
      set (s1 := with_textures (<[Z.to_nat i := Tex.Make name (Tex.tag e)]> (m_textureIDs s))
                   (with_gl (MkGL (name :: gl_names (gl s))
                                  (GenTextures name :: gl_calls (gl s))) s)).
      assert (registry_ok s1) as Hok1.
      { unfold registry_ok, MAX_TEXTURES, s1. cbn. rewrite length_insert. lia. }
      assert (take (Z.to_nat (i + 1)) (m_textureIDs s1)
              = (take (Z.to_nat i) (m_textureIDs s) ++ [Tex.Make name (Tex.tag e)])%list)
        as Htake.
      { unfold s1. cbn [with_textures m_textureIDs].
        replace (Z.to_nat (i + 1)) with (S (Z.to_nat i)) by lia.
        rewrite (take_S_r _ _ (Tex.Make name (Tex.tag e)))
          by (apply list_lookup_insert_eq; lia).
        now rewrite take_insert_ge by lia. }
      destruct (IH (i + 1) s1 Hok1) as (s' & Hrun & Hlog).
      * unfold s1. cbn. lia.
      * unfold s1. cbn. lia.
      * rewrite Htake, map_app. cbn [map Tex.ID]. rewrite rev_unit. cbn [app].
        unfold s1. cbn [with_textures with_gl gl gl_names]. now rewrite Hnames.
      * rewrite Htake, map_app. cbn [map Tex.ID]. rewrite rev_unit. cbn [app].
        unfold s1. cbn [with_textures with_gl gl gl_calls]. now rewrite Hcalls.
      * intros j e' Hj Hlookup.
        unfold s1 in Hlookup |- *. cbn [with_textures with_gl m_textureIDs] in Hlookup |- *.
        rewrite take_insert_ge by lia.
        destruct (Nat.eq_dec j (Z.to_nat i)) as [->|Hne'].
        -- rewrite list_lookup_insert_eq in Hlookup by lia. injection Hlookup as <-.
           cbn [Tex.ID]. unfold name. now rewrite Hnames.
        -- rewrite list_lookup_insert_ne in Hlookup by lia.
           apply Hslots; [lia|exact Hlookup].
      * exists s'. split; [|exact Hlog].
        cbn [while].
        replace (i <? m_loadedTextures s) with true by (symmetry; apply Z.ltb_lt; lia).
        assert (glGenTextures1 s
                = Ok (name, with_gl (MkGL (name :: gl_names (gl s))
                                          (GenTextures name :: gl_calls (gl s))) s))
          as Hgen by reflexivity.
        assert (set_texture_at i (fun e => Tex.Make name (Tex.tag e))
                  (with_gl (MkGL (name :: gl_names (gl s))
                                 (GenTextures name :: gl_calls (gl s))) s)
                = Ok (tt, s1)) as Hset.
        { rewrite set_texture_at_eval. cbn [with_gl m_textureIDs]. unfold MAX_TEXTURES.
          replace ((0 <=? i) && (i <? 16)) with true
            by (symmetry; apply andb_true_iff; split;
                [apply Z.leb_le|apply Z.ltb_lt]; lia).
          now rewrite He. }
        rewrite (bind_ok _ _ _ _ _ Hat), (bind_ok _ _ _ _ _ Hgen),
          (bind_ok _ _ _ _ _ Hset).
        exact Hrun.
Qed.

(** ** C7: releasing the textures generates names and deletes none *)

(** C7.  On a well-formed registry, with a driver that hands out unused
    names, [DestroyGLTextures] returns, and what it did is one
    [glGenTextures] call per slot in use, in the order of the slots, and
    nothing else.  The names in use after the call are the names in use
    before it and, on top of them, the identifiers now stored in the
    slots in use; the calls received are those received before and one
    [glGenTextures] per slot in use, yielding that slot's identifier
    (none deletes a texture).  The identifier of slot [j] is the name
    the driver generated in round [j], given the names in use then; it
    was not in use before the call and is in use after it, and the slot
    keeps its tag.  Every name in use before the call is still in use
    after it; the slots not in use, the count of loaded textures and the
    tags of the whole table are unchanged. *)
Theorem DestroyGLTextures_regenerates (st : SceneManager) :
  registry_ok st ->
  exists st',
    DestroyGLTextures st = Ok (tt, st') /\
    gl_names (gl st')
    = (rev (map Tex.ID (loaded_entries st')) ++ gl_names (gl st))%list /\
    gl_calls (gl st')
    = (rev (map (fun e => GenTextures (Tex.ID e)) (loaded_entries st'))
       ++ gl_calls (gl st))%list /\
    (forall name, name ∈ gl_names (gl st) -> name ∈ gl_names (gl st')) /\
    (exists calls, gl_calls (gl st') = (calls ++ gl_calls (gl st))%list /\
                   Forall is_GenTextures calls) /\
    (forall (j : nat) (e : TEXTURE_INFO),
       (j < Z.to_nat (m_loadedTextures st))%nat ->
       m_textureIDs st !! j = Some e ->
       exists e', m_textureIDs st' !! j = Some e' /\
                  Tex.ID e'
                  = glGenName (rev (map Tex.ID (take j (m_textureIDs st')))
                               ++ gl_names (gl st))%list /\
                  (Tex.ID e' ∉ gl_names (gl st)) /\
                  (Tex.ID e' ∈ gl_names (gl st')) /\
                  Tex.tag e' = Tex.tag e) /\
    (forall j : nat,
       (Z.to_nat (m_loadedTextures st) <= j)%nat ->
       m_textureIDs st' !! j = m_textureIDs st !! j) /\
    m_loadedTextures st' = m_loadedTextures st /\
    map Tex.tag (m_textureIDs st') = map Tex.tag (m_textureIDs st).
Proof.
  intros Hok.
  destruct (destroy_loop (Z.to_nat (m_loadedTextures st)) 0 st Hok) as (st' & Hrun & Hreg);
    [destruct Hok; lia|lia|].
  destruct (destroy_loop_log (gl_names (gl st)) (gl_calls (gl st))
              (Z.to_nat (m_loadedTextures st)) 0 st Hok)
    as (st'' & Hrun' & Hnames' & Hcalls' & Hslots);
    [destruct Hok; lia|lia|reflexivity|reflexivity|intros j e' Hj; lia|].
  rewrite Hrun in Hrun'. injection Hrun' as <-.
  destruct Hreg as (Hcount & Htags & _ & _ & _ & Hnames & Hcalls & Hnew & Hold).
  exists st'. split.
  { unfold DestroyGLTextures, get. cbn [bind].
    rewrite (bind_ok _ _ _ _ _ Hrun). reflexivity. }
  split; [exact Hnames'|]. split; [exact Hcalls'|].
  split; [exact Hnames|]. split; [exact Hcalls|].
  split; [|split; [|split; [exact Hcount|exact Htags]]].
  - intros j e Hj He.
    assert (map Tex.tag (m_textureIDs st') !! j = Some (Tex.tag e)) as Htag
      by (rewrite Htags, list_lookup_fmap, He; reflexivity).
    rewrite list_lookup_fmap in Htag.
    destruct (m_textureIDs st' !! j) as [e'|] eqn:He'; [|discriminate].
    injection Htag as Htag. exists e'. split; [reflexivity|].
    split; [apply (Hslots j e'); [exact Hj|exact He']|].
    destruct (Hnew j e') as [Hfresh Hin]; [lia|exact He'|].
    split; [exact Hfresh|]. split; [exact Hin|exact Htag].
  - intros j Hj. apply Hold. right. exact Hj.
Qed.

(** ** The scanning loop of the materials *)

Lemma material_at_ok (st : SceneManager) (i : Z) :
  0 <= i < Z.of_nat (length (m_objectMaterials st)) ->
  exists e, m_objectMaterials st !! Z.to_nat i = Some e /\ material_at i st = Ok (e, st).
Proof.
  intros Hi. unfold material_at.
  destruct (lookup_lt_is_Some_2 (m_objectMaterials st) (Z.to_nat i)) as [e He]; [lia|].
  exists e. split; [exact He|].
  replace (0 <=? i) with true by (symmetry; apply Z.leb_le; lia).
  now rewrite He.
Qed.

Lemma material_loop (tag : string) (st : SceneManager) (fuel : nat) :
  forall (index : Z) (material : OBJECT_MATERIAL),
    0 <= index <= Z.of_nat (length (m_objectMaterials st)) ->
    (Z.to_nat (Z.of_nat (length (m_objectMaterials st)) - index) <= fuel)%nat ->
    exists index' bFound,
      while fuel
        (fun '(material, index, bFound) st =>
           (index <? Z.of_nat (length (m_objectMaterials st))) && Bool.eqb bFound false)
        (fun '(material, index, bFound) =>
           e <- material_at index ;;
           if compare (Mat.tag e) tag =? 0
           then ret (Mat.Make (Mat.diffuseColor e) (Mat.specularColor e)
                              (Mat.shininess e) (Mat.tag material),
                     index, true)
           else ret (material, index + 1, bFound))
        (material, index, false) st
      = Ok ((resolved tag (drop (Z.to_nat index) (m_objectMaterials st)) material,
             index', bFound), st).
Proof.
  induction fuel as [|fuel IH]; intros index material Hi Hfuel.
  - exists index, false. cbn [while].
    replace (index <? Z.of_nat (length (m_objectMaterials st))) with false
      by (symmetry; apply Z.ltb_ge; lia).
    unfold resolved. rewrite drop_ge by lia. reflexivity.
  - destruct (Z.eq_dec index (Z.of_nat (length (m_objectMaterials st)))) as [Heq|Hne].
    + exists index, false. cbn [while].
      replace (index <? Z.of_nat (length (m_objectMaterials st))) with false
        by (symmetry; apply Z.ltb_ge; lia).
      unfold resolved. rewrite drop_ge by lia. reflexivity.
    + destruct (material_at_ok st index) as (e & He & Hat); [lia|].
      cbn [while].
      replace (index <? Z.of_nat (length (m_objectMaterials st))) with true
        by (symmetry; apply Z.ltb_lt; lia).
      cbn [andb Bool.eqb].
      rewrite (bind_ok _ _ _ _ _ Hat), compare_zero.
      unfold resolved. rewrite (drop_S _ _ _ He). cbn [first_material].
      destruct (String.eqb (Mat.tag e) tag).
      * exists index, true. cbn [ret]. destruct fuel; cbn [while];
          now rewrite andb_false_r.
      * destruct (IH (index + 1) material) as (index' & bFound & Hrun); [lia|lia|].
        exists index', bFound. cbn [ret]. rewrite Hrun. unfold resolved.
        now replace (Z.to_nat (index + 1)) with (S (Z.to_nat index)) by lia.
Qed.

Lemma FindMaterial_empty (tag : string) (material : OBJECT_MATERIAL) (st : SceneManager) :
  m_objectMaterials st = [] ->
  FindMaterial tag material st = Ok ((false, material), st).
Proof. intros H. unfold FindMaterial, get. cbn [bind]. now rewrite H. Qed.

Lemma FindMaterial_scan (tag : string) (material : OBJECT_MATERIAL) (st : SceneManager) :
  m_objectMaterials st <> [] ->
  FindMaterial tag material st
  = Ok ((true, resolved tag (m_objectMaterials st) material), st).
Proof.
  intros Hne. unfold FindMaterial, get. cbn [bind].
  destruct (m_objectMaterials st) as [|e0 rest] eqn:Hmats; [contradiction|].
  replace (Z.of_nat (length (e0 :: rest)) =? 0) with false
    by (symmetry; apply Z.eqb_neq; simpl length; lia).
  cbn [bind]. rewrite <- Hmats.
  destruct (material_loop tag st (length (m_objectMaterials st)) 0 material)
    as (index' & bFound & Hrun); [lia|lia|].
  rewrite (bind_ok _ _ _ _ _ Hrun). reflexivity.
Qed.

Lemma resolved_no_match (tag : string) (entries : list OBJECT_MATERIAL)
    (material : OBJECT_MATERIAL) :
  Forall (fun e => Mat.tag e <> tag) entries -> resolved tag entries material = material.
Proof.
  unfold resolved. intros H.
  induction H as [|e l He _ IH]; cbn [first_material]; [reflexivity|].
  now destruct (String.eqb_spec (Mat.tag e) tag).
Qed.

(** ** C1: what [FindMaterial] reports *)

(** C1.  [FindMaterial] returns [false] on an empty registry and [true]
    on every registry that is not empty; when no entry of such a registry
    bears the tag, the material handed back is the one passed in. *)
Theorem FindMaterial_reports_found
    (st : SceneManager) (tag : string) (material : OBJECT_MATERIAL) :
  (m_objectMaterials st = [] ->
   FindMaterial tag material st = Ok ((false, material), st)) /\
  (m_objectMaterials st <> [] ->
   exists material', FindMaterial tag material st = Ok ((true, material'), st)) /\
  (m_objectMaterials st <> [] ->
   Forall (fun e => Mat.tag e <> tag) (m_objectMaterials st) ->
   FindMaterial tag material st = Ok ((true, material), st)).
Proof.
  split; [apply FindMaterial_empty|]. split.
  - intros Hne. eexists. now apply FindMaterial_scan.
  - intros Hne Hnone. rewrite FindMaterial_scan by exact Hne.
    now rewrite resolved_no_match.
Qed.

(** ** The shader state bridge *)

Lemma when_shader_null (body : M unit) (st : SceneManager) :
  m_pShaderManager st = None -> when shader_not_null body st = Ok (tt, st).
Proof. intros H. unfold when, shader_not_null. now rewrite H. Qed.

Lemma when_shader_bound (body : M unit) (st : SceneManager) (sh : ShaderManager) :
  m_pShaderManager st = Some sh -> when shader_not_null body st = body st.
Proof. intros H. unfold when, shader_not_null. now rewrite H. Qed.

Lemma shader_call_bound (setter : ShaderManager -> ShaderManager)
    (st : SceneManager) (sh : ShaderManager) :
  m_pShaderManager st = Some sh ->
  shader_call setter st = Ok (tt, with_shader (Some (setter sh)) st).
Proof. intros H. unfold shader_call. now rewrite H. Qed.

Lemma SetTransformations_bound (scaleXYZ : glm.vec3) (xr yr zr : float)
    (positionXYZ : glm.vec3) (st : SceneManager) (sh : ShaderManager) :
  m_pShaderManager st = Some sh ->
  SetTransformations scaleXYZ xr yr zr positionXYZ st
  = Ok (tt, with_shader
              (Some ((g_ModelName, UMat4 (modelView scaleXYZ xr yr zr positionXYZ)) :: sh))
              st).
Proof.
  intros H. unfold SetTransformations.
  rewrite (when_shader_bound _ _ _ H). now rewrite (shader_call_bound _ _ _ H).
Qed.

Lemma SetShaderColor_bound (r g b a : float) (st : SceneManager) (sh : ShaderManager) :
  m_pShaderManager st = Some sh ->
  SetShaderColor r g b a st
  = Ok (tt, with_shader
              (Some ((g_ColorValueName, UVec4 (glm.Vec4 r g b a))
                       :: (g_UseTextureName, UInt 0) :: sh))
              st).
Proof.
  intros H. unfold SetShaderColor.
  rewrite (when_shader_bound _ _ _ H).
  rewrite (bind_ok _ _ _ _ _ (shader_call_bound _ _ _ H)).
  now rewrite (shader_call_bound _ (with_shader _ st) _ eq_refl).
Qed.

Lemma SetShaderTexture_bound (textureTag : string) (st : SceneManager) (sh : ShaderManager) :
  registry_ok st ->
  m_pShaderManager st = Some sh ->
  SetShaderTexture textureTag st
  = Ok (tt, with_shader
              (Some ((g_TextureValueName,
                      USampler2D (match first_tagged textureTag (loaded_entries st) 0 with
                                  | Some (i, _) => i
                                  | None => -1
                                  end))
                       :: (g_UseTextureName, UInt 1) :: sh))
              st).
Proof.
  intros Hok H. unfold SetShaderTexture.
  rewrite (when_shader_bound _ _ _ H).
  rewrite (bind_ok _ _ _ _ _ (shader_call_bound _ _ _ H)).
  rewrite (bind_ok _ _ _ _ _ (FindTextureSlot_scan textureTag (with_shader _ st) Hok)).
  now rewrite (shader_call_bound _ (with_shader _ st) _ eq_refl).
Qed.

Lemma SetTextureUVScale_bound (u v : float) (st : SceneManager) (sh : ShaderManager) :
  m_pShaderManager st = Some sh ->
  SetTextureUVScale u v st
  = Ok (tt, with_shader (Some (("UVscale", UVec2 (glm.Vec2 u v)) :: sh)) st).
Proof.
  intros H. unfold SetTextureUVScale.
  rewrite (when_shader_bound _ _ _ H). now rewrite (shader_call_bound _ _ _ H).
Qed.

Lemma SetShaderMaterial_nonempty (materialTag : string) (material : OBJECT_MATERIAL)
    (st : SceneManager) :
  m_objectMaterials st <> [] ->
  SetShaderMaterial materialTag material st
  = match m_pShaderManager st with
    | Some sh =>
        Ok (tt, with_shader
                  (Some (material_writes
                           (resolved materialTag (m_objectMaterials st) material) ++ sh)%list)
                  st)
    | None => Crash NullDereference
    end.
Proof.
  intros Hne. unfold SetShaderMaterial, when.
  replace (Z.of_nat (length (m_objectMaterials st)) >? 0) with true.
  2:{ symmetry. apply Z.gtb_lt. destruct (m_objectMaterials st); [contradiction|].
      simpl length. lia. }
  rewrite (bind_ok _ _ _ _ _ (FindMaterial_scan materialTag material st Hne)).
  cbn [Bool.eqb]. unfold bind, shader_call.
  destruct (m_pShaderManager st) as [sh|]; reflexivity.
Qed.

(** ** C3: the model matrix *)

Lemma rotate_zero_degrees (axis : glm.vec3) :
  axis = glm.Vec3 F32.one F32.zero F32.zero \/
  axis = glm.Vec3 F32.zero F32.one F32.zero \/
  axis = glm.Vec3 F32.zero F32.zero F32.one ->
  glm.rotate cosf sinf (glm.radians F32.zero) axis = glm.identity.
Proof.
  intros Haxis. unfold glm.rotate, glm.rotate_m.
  change (glm.radians F32.zero) with F32.zero.
  rewrite cosf_zero, sinf_zero.
  destruct Haxis as [-> | [-> | ->]]; vm_compute; reflexivity.
Qed.

(** C3.  With a shader manager bound, [SetTransformations] writes one
    uniform, ["model"], and the matrix written is the product
    translate * rotateZ * rotateY * rotateX * scale of the GLM matrices
    of its five arguments, angles converted from degrees: it does not
    depend on the state.  For scale (1,1,1), angles 0 and position
    (0,0,0) the matrix written is the identity. *)
Theorem SetTransformations_model_matrix (st : SceneManager) (sh : ShaderManager) :
  m_pShaderManager st = Some sh ->
  (forall (scaleXYZ : glm.vec3) (xr yr zr : float) (positionXYZ : glm.vec3),
     SetTransformations scaleXYZ xr yr zr positionXYZ st
     = Ok (tt, with_shader
                 (Some (("model",
                         UMat4 (glm.mul
                                  (glm.mul
                                     (glm.mul
                                        (glm.mul (glm.translate positionXYZ)
                                           (glm.rotate cosf sinf (glm.radians zr)
                                              (glm.Vec3 F32.zero F32.zero F32.one)))
                                        (glm.rotate cosf sinf (glm.radians yr)
                                           (glm.Vec3 F32.zero F32.one F32.zero)))
                                     (glm.rotate cosf sinf (glm.radians xr)
                                        (glm.Vec3 F32.one F32.zero F32.zero)))
                                  (glm.scale scaleXYZ))) :: sh))
                 st)) /\
  SetTransformations (glm.Vec3 F32.one F32.one F32.one) F32.zero F32.zero F32.zero
    (glm.Vec3 F32.zero F32.zero F32.zero) st
  = Ok (tt, with_shader (Some (("model", UMat4 glm.identity) :: sh)) st).
Proof.
  intros Hsh. split.
  - intros. now rewrite (SetTransformations_bound _ _ _ _ _ _ _ Hsh).
  - rewrite (SetTransformations_bound _ _ _ _ _ _ _ Hsh).
    unfold modelView. rewrite !rotate_zero_degrees by tauto.
    replace (glm.mul
               (glm.mul (glm.mul (glm.mul (glm.translate (glm.Vec3 F32.zero F32.zero F32.zero))
                                          glm.identity) glm.identity) glm.identity)
               (glm.scale (glm.Vec3 F32.one F32.one F32.one)))
      with glm.identity by (vm_compute; reflexivity).
    reflexivity.
Qed.

(** ** C6: the use-texture flag *)

(** C6.  With a shader manager bound, every call of [SetShaderColor]
    returns with the uniform ["bUseTexture"] holding 0 ([false]), and
    every call of [SetShaderTexture] returns with it holding 1 ([true]):
    after either call exactly one of flat colour and texture sampling is
    selected for the next draw. *)
Theorem use_texture_flag_after_call (st : SceneManager) (sh : ShaderManager) :
  registry_ok st ->
  m_pShaderManager st = Some sh ->
  (forall r g b a : float,
     exists st' sh',
       SetShaderColor r g b a st = Ok (tt, st') /\
       m_pShaderManager st' = Some sh' /\
       uniform "bUseTexture" sh' = Some (UInt (Z.b2z false))) /\
  (forall textureTag : string,
     exists st' sh',
       SetShaderTexture textureTag st = Ok (tt, st') /\
       m_pShaderManager st' = Some sh' /\
       uniform "bUseTexture" sh' = Some (UInt (Z.b2z true))).
Proof.
  intros Hok Hsh. split.
  - intros r g b a. rewrite (SetShaderColor_bound _ _ _ _ _ _ Hsh).
    eexists. eexists. repeat split; reflexivity.
  - intros textureTag. rewrite (SetShaderTexture_bound _ _ _ Hok Hsh).
    eexists. eexists. repeat split; reflexivity.
Qed.

(** ** C8: no materials defined *)

(** C8.  On an empty material registry [SetShaderMaterial] returns, for
    every tag and whether or not a shader manager is bound, and leaves
    the whole state, the uniforms written so far among it, as it was. *)
Theorem SetShaderMaterial_empty_registry
    (st : SceneManager) (materialTag : string) (material : OBJECT_MATERIAL) :
  m_objectMaterials st = [] ->
  SetShaderMaterial materialTag material st = Ok (tt, st).
Proof. intros H. unfold SetShaderMaterial, when. now rewrite H. Qed.

(** ** C9: the missing null check *)

(** C9.  Without a shader manager, [SetTransformations],
    [SetShaderColor], [SetShaderTexture] and [SetTextureUVScale] return
    and change nothing, while [SetShaderMaterial] on a registry that is
    not empty dereferences the null pointer. *)
Theorem SetShaderMaterial_dereferences_null
    (st : SceneManager) (materialTag : string) (material : OBJECT_MATERIAL) :
  m_pShaderManager st = None ->
  (forall scaleXYZ xr yr zr positionXYZ,
     SetTransformations scaleXYZ xr yr zr positionXYZ st = Ok (tt, st)) /\
  (forall r g b a, SetShaderColor r g b a st = Ok (tt, st)) /\
  (forall textureTag, SetShaderTexture textureTag st = Ok (tt, st)) /\
  (forall u v, SetTextureUVScale u v st = Ok (tt, st)) /\
  (m_objectMaterials st <> [] ->
   SetShaderMaterial materialTag material st = Crash NullDereference).
Proof.
  intros Hnull. repeat split; intros.
  - now apply when_shader_null.
  - now apply when_shader_null.
  - now apply when_shader_null.
  - now apply when_shader_null.
  - rewrite SetShaderMaterial_nonempty by assumption. now rewrite Hnull.
Qed.

(** ** Preparing the scene *)

Lemma defined_materials_tags : map Mat.tag defined_materials = defined_tags.
Proof. vm_compute. reflexivity. Qed.

Lemma defined_materials_no_metal :
  Forall (fun e => Mat.tag e <> "metal") defined_materials.
Proof.
  vm_compute. repeat (constructor; [discriminate|]). constructor.
Qed.

Lemma DefineObjectMaterials_appends (st : SceneManager) :
  DefineObjectMaterials st
  = Ok (tt, with_materials (m_objectMaterials st ++ defined_materials) st).
Proof.
  destruct st as [sh ms n ts mats g].
  unfold DefineObjectMaterials, push_back, modify, bind, with_materials.
  cbn [m_pShaderManager m_basicMeshes m_loadedTextures m_textureIDs m_objectMaterials gl].
  rewrite <- !app_assoc. reflexivity.
Qed.

Lemma preserves_bind {A B : Type} (c : M A) (k : A -> M B) :
  preserves c -> (forall a, preserves (k a)) -> preserves (bind c k).
Proof.
  intros Hc Hk st st2 b Hok Hrun.
  apply bind_inv in Hrun as (a & st1 & Hrun1 & Hrun2).
  destruct (Hc st st1 a Hok Hrun1) as (Hok1 & Hmats1 & Hsh1).
  destruct (Hk a st1 st2 b Hok1 Hrun2) as (Hok2 & Hmats2 & Hsh2).
  split; [exact Hok2|]. split; congruence.
Qed.

Lemma CreateGLTexture_preserves (filename tag : string) :
  preserves (CreateGLTexture filename tag).
Proof.
  intros st st' b Hok Hrun.
  pose proof (CreateGLTexture_outcome filename tag st Hok) as Hout.
  rewrite Hrun in Hout. destruct b.
  - pose proof (registry_ok_after_load tag st st' Hok Hout) as Hok'.
    destruct Hout as (_ & _ & _ & Hmats & Hsh & _). now split.
  - destruct Hout as (Hcount & Htable & Hmats & Hsh & _).
    unfold registry_ok. rewrite Hcount, Htable. now split.
Qed.

Lemma bind_textures_loop (fuel : nat) :
  forall (i i' : Z) (s s' : SceneManager),
    while fuel (fun i st => i <? m_loadedTextures st)
      (fun i =>
         gl_call (ActiveTexture (GL_TEXTURE0 + i)) ;;
         e <- texture_at i ;;
         gl_call (BindTexture GL_TEXTURE_2D (Tex.ID e)) ;;
         ret (i + 1))
      i s = Ok (i', s') ->
    exists g', s' = with_gl g' s.
Proof.
  induction fuel as [|fuel IH]; intros i i' s s'; cbn [while];
    destruct (i <? m_loadedTextures s) eqn:Hcond.
  - discriminate.
  - intros [= _ <-]. exists (gl s). now destruct s.
  - unfold bind at 1. unfold gl_call at 1, modify at 1. cbv beta iota.
    unfold bind at 1, texture_at at 1.
    cbn [with_gl m_textureIDs].
    destruct ((0 <=? i) && (i <? MAX_TEXTURES)); [|discriminate].
    destruct (m_textureIDs s !! Z.to_nat i) as [e|]; [|discriminate].
    unfold bind at 1. unfold gl_call at 1, modify at 1, ret at 1. cbv beta iota.
    intros Hrun. destruct (IH _ _ _ _ Hrun) as [g' ->].
    exists g'. now destruct s.
  - intros [= _ <-]. exists (gl s). now destruct s.
Qed.

Lemma BindGLTextures_preserves : preserves BindGLTextures.
Proof.
  intros st st' [] Hok. unfold BindGLTextures, get. cbn [bind].
  intros Hrun. apply bind_inv in Hrun as (i' & s1 & Hloop & Hret).
  injection Hret as <-. apply bind_textures_loop in Hloop as [g' ->].
  now destruct st.
Qed.

Lemma LoadSceneTextures_preserves : preserves LoadSceneTextures.
Proof.
  unfold LoadSceneTextures.
  repeat (apply preserves_bind; [apply CreateGLTexture_preserves|intros _]).
  apply BindGLTextures_preserves.
Qed.

Lemma shader_call_inv (setter : ShaderManager -> ShaderManager) (st st' : SceneManager) :
  shader_call setter st = Ok (tt, st') ->
  exists sh, m_pShaderManager st = Some sh /\ st' = with_shader (Some (setter sh)) st.
Proof.
  unfold shader_call. destruct (m_pShaderManager st) as [sh|]; [|discriminate].
  intros [= <-]. now exists sh.
Qed.

Lemma SetupSceneLights_binds (st st' : SceneManager) :
  registry_ok st -> SetupSceneLights st = Ok (tt, st') ->
  registry_ok st' /\
  m_objectMaterials st' = m_objectMaterials st /\
  exists sh, m_pShaderManager st' = Some sh.
Proof.
  intros Hok. unfold SetupSceneLights. intros Hrun.
  repeat (apply bind_inv in Hrun as ([] & ? & Hcall & Hrun);
          apply shader_call_inv in Hcall as (? & _ & ->)).
  apply shader_call_inv in Hrun as (? & _ & ->).
  split; [exact Hok|]. split; [reflexivity|].
  eexists. reflexivity.
Qed.

Lemma PrepareScene_state (st0 st : SceneManager) :
  registry_ok st0 ->
  PrepareScene st0 = Ok (tt, st) ->
  registry_ok st /\
  m_objectMaterials st = (m_objectMaterials st0 ++ defined_materials)%list /\
  exists sh, m_pShaderManager st = Some sh.
Proof.
  intros Hok0. unfold PrepareScene. intros Hrun.
  rewrite (bind_ok _ _ _ _ _ (DefineObjectMaterials_appends st0)) in Hrun.
  apply bind_inv in Hrun as ([] & st1 & Hload & Hrun).
  apply LoadSceneTextures_preserves in Hload as (Hok1 & Hmats1 & _); [|exact Hok0].
  apply bind_inv in Hrun as ([] & st2 & Hlights & Hrun).
  apply (SetupSceneLights_binds _ _ Hok1) in Hlights as (Hok2 & Hmats2 & sh & Hsh).
  unfold LoadMesh, modify, bind in Hrun. injection Hrun as <-.
  split; [exact Hok2|]. split; [|now exists sh].
  cbn [with_meshes m_objectMaterials]. now rewrite Hmats2, Hmats1.
Qed.

(** [PrepareScene] returns whenever a shader manager is bound and the
    table has room for the seven textures of the scene. *)

Lemma CreateGLTexture_returns (filename tag : string) (st : SceneManager) :
  registry_ok st ->
  m_loadedTextures st < MAX_TEXTURES ->
  exists b st',
    CreateGLTexture filename tag st = Ok (b, st') /\
    registry_ok st' /\
    m_loadedTextures st' <= m_loadedTextures st + 1 /\
    m_pShaderManager st' = m_pShaderManager st.
Proof.
  intros Hok Hroom.
  pose proof (CreateGLTexture_outcome filename tag st Hok) as Hout.
  destruct (CreateGLTexture filename tag st) as [[[|] st']|f] eqn:Hrun.
  - pose proof (registry_ok_after_load tag st st' Hok Hout) as Hok'.
    destruct Hout as (_ & Hcount & _ & _ & Hsh & _).
    exists true, st'. split; [reflexivity|]. split; [exact Hok'|]. split; [lia|exact Hsh].
  - destruct Hout as (Hcount & Htable & _ & Hsh & _).
    exists false, st'. split; [reflexivity|].
    split; [unfold registry_ok; now rewrite Hcount, Htable|]. split; [lia|exact Hsh].
  - destruct Hout as [_ Hfull]. lia.
Qed.

Lemma bind_textures_loop_returns (fuel : nat) :
  forall (i : Z) (s : SceneManager),
    registry_ok s ->
    0 <= i <= m_loadedTextures s ->
    (Z.to_nat (m_loadedTextures s - i) <= fuel)%nat ->
    exists g',
      while fuel (fun i st => i <? m_loadedTextures st)
        (fun i =>
           gl_call (ActiveTexture (GL_TEXTURE0 + i)) ;;
           e <- texture_at i ;;
           gl_call (BindTexture GL_TEXTURE_2D (Tex.ID e)) ;;
           ret (i + 1))
        i s = Ok (m_loadedTextures s, with_gl g' s).
Proof.
  assert (forall s, with_gl (gl s) s = s) as Hsame by now intros [].
  induction fuel as [|fuel IH]; intros i s Hok Hi Hfuel.
  - assert (i = m_loadedTextures s) as -> by lia.
    exists (gl s). cbn [while]. now rewrite Z.ltb_irrefl, Hsame.
  - destruct (Z.eq_dec i (m_loadedTextures s)) as [->|Hne].
    + exists (gl s). cbn [while]. now rewrite Z.ltb_irrefl, Hsame.
    + set (s1 := with_gl (gl_record (ActiveTexture (GL_TEXTURE0 + i)) (gl s)) s).
      assert (registry_ok s1) as Hok1 by exact Hok.
      destruct (texture_at_ok s1 i Hok1) as (e & He & Hat); [exact (ltac:(cbn; lia))|].
      set (s2 := with_gl (gl_record (BindTexture GL_TEXTURE_2D (Tex.ID e)) (gl s1)) s1).
      destruct (IH (i + 1) s2) as (g' & Hrun);
        [exact Hok|cbn; lia|cbn; lia|].
      exists g'. cbn [while].
      replace (i <? m_loadedTextures s) with true by (symmetry; apply Z.ltb_lt; lia).
      unfold bind at 1. unfold gl_call at 1, modify at 1. cbv beta iota.
      fold s1. rewrite (bind_ok _ _ _ _ _ Hat).
      unfold bind at 1. unfold gl_call at 1, modify at 1. cbv beta iota.
      fold s2. unfold ret at 1. rewrite Hrun. now destruct s.
Qed.

Lemma BindGLTextures_returns (st : SceneManager) :
  registry_ok st -> exists g', BindGLTextures st = Ok (tt, with_gl g' st).
Proof.
  intros Hok. unfold BindGLTextures, get. cbn [bind].
  destruct (bind_textures_loop_returns (Z.to_nat (m_loadedTextures st)) 0 st Hok)
    as (g' & Hrun); [destruct Hok; lia|lia|].
  exists g'. now rewrite (bind_ok _ _ _ _ _ Hrun).
Qed.

Ltac load_step Hok :=
  match goal with
  | |- context [bind (CreateGLTexture ?f ?t) _ ?st] =>
      let b := fresh "b" in
      let st' := fresh "st" in
      let Hrun := fresh "Hrun" in
      let Hok' := fresh "Hok" in
      let Hcount := fresh "Hcount" in
      let Hsh := fresh "Hsh" in
      destruct (CreateGLTexture_returns f t st Hok ltac:(unfold MAX_TEXTURES in *; lia))
        as (b & st' & Hrun & Hok' & Hcount & Hsh);
      rewrite (bind_ok _ _ _ _ _ Hrun)
  end.

Lemma LoadSceneTextures_returns (st : SceneManager) :
  registry_ok st ->
  m_loadedTextures st + 7 <= MAX_TEXTURES ->
  exists st',
    LoadSceneTextures st = Ok (tt, st') /\
    registry_ok st' /\
    m_pShaderManager st' = m_pShaderManager st.
Proof.
  intros Hok Hroom. unfold LoadSceneTextures.
  load_step Hok. load_step Hok0. load_step Hok1. load_step Hok2.
  load_step Hok3. load_step Hok4. load_step Hok5.
  destruct (BindGLTextures_returns _ Hok6) as (g' & Hbind).
  eexists. split; [exact Hbind|]. split; [exact Hok6|].
  cbn [with_gl m_pShaderManager]. congruence.
Qed.

Lemma SetupSceneLights_returns (st : SceneManager) (sh : ShaderManager) :
  m_pShaderManager st = Some sh ->
  exists st' sh',
    SetupSceneLights st = Ok (tt, st') /\ st' = with_shader (Some sh') st.
Proof.
  intros Hsh. unfold SetupSceneLights.
  repeat (rewrite (bind_ok _ _ _ _ _ (shader_call_bound _ _ _ Hsh));
          clear Hsh;
          match goal with
          | |- context [with_shader (Some ?sh1) ?s] =>
              assert (m_pShaderManager (with_shader (Some sh1) s) = Some sh1) as Hsh
                by reflexivity
          end).
  rewrite (shader_call_bound _ _ _ Hsh).
  eexists _, _. split; [reflexivity|]. now destruct st.
Qed.

Lemma PrepareScene_returns (st0 : SceneManager) (sh : ShaderManager) :
  registry_ok st0 ->
  m_loadedTextures st0 + 7 <= MAX_TEXTURES ->
  m_pShaderManager st0 = Some sh ->
  exists st, PrepareScene st0 = Ok (tt, st).
Proof.
  intros Hok Hroom Hsh. unfold PrepareScene.
  rewrite (bind_ok _ _ _ _ _ (DefineObjectMaterials_appends st0)).
  destruct (LoadSceneTextures_returns
              (with_materials (m_objectMaterials st0 ++ defined_materials) st0))
    as (st1 & Hload & Hok1 & Hsh1); [exact Hok|exact Hroom|].
  rewrite (bind_ok _ _ _ _ _ Hload).
  destruct (SetupSceneLights_returns st1 sh) as (st2 & sh2 & Hlights & _);
    [now rewrite Hsh1|].
  rewrite (bind_ok _ _ _ _ _ Hlights).
  eexists. reflexivity.
Qed.

(** ** Rendering the scene *)

Lemma scripted_with_shader (st : SceneManager) (sh sh' : ShaderManager) :
  scripted st sh -> scripted (with_shader (Some sh') st) sh'.
Proof.
  intros (Hok & Hmats & _). split; [exact Hok|]. split; [exact Hmats|reflexivity].
Qed.

Lemma extends_bind (c1 c2 : M unit) :
  extends c1 -> extends c2 -> extends (c1 ;; c2).
Proof.
  intros H1 H2 st sh Hst.
  destruct (H1 st sh Hst) as (st1 & new1 & Hrun1 & Hst1).
  destruct (H2 st1 _ Hst1) as (st2 & new2 & Hrun2 & Hst2).
  exists st2, (new2 ++ new1)%list. rewrite (bind_ok _ _ _ _ _ Hrun1).
  split; [exact Hrun2|]. now rewrite <- app_assoc.
Qed.

Lemma emits_later (ws : ShaderManager) (c1 c2 : M unit) :
  extends c1 -> emits ws c2 -> emits ws (c1 ;; c2).
Proof.
  intros H1 H2 st sh Hst.
  destruct (H1 st sh Hst) as (st1 & new1 & Hrun1 & Hst1).
  destruct (H2 st1 _ Hst1) as (st2 & after & before & Hrun2 & Hst2).
  exists st2, after, (before ++ new1)%list. rewrite (bind_ok _ _ _ _ _ Hrun1).
  split; [exact Hrun2|]. now rewrite <- app_assoc.
Qed.

Lemma emits_first (ws : ShaderManager) (c1 c2 : M unit) :
  emits ws c1 -> extends c2 -> emits ws (c1 ;; c2).
Proof.
  intros H1 H2 st sh Hst.
  destruct (H1 st sh Hst) as (st1 & after & before & Hrun1 & Hst1).
  destruct (H2 st1 _ Hst1) as (st2 & new2 & Hrun2 & Hst2).
  exists st2, (new2 ++ after)%list, before. rewrite (bind_ok _ _ _ _ _ Hrun1).
  split; [exact Hrun2|]. now rewrite <- app_assoc.
Qed.

Lemma SetTransformations_extends (scaleXYZ : glm.vec3) (xr yr zr : float)
    (positionXYZ : glm.vec3) :
  extends (SetTransformations scaleXYZ xr yr zr positionXYZ).
Proof.
  intros st sh Hst. pose proof Hst as (_ & _ & Hsh).
  rewrite (SetTransformations_bound _ _ _ _ _ _ _ Hsh).
  eexists _, [_]. split; [reflexivity|]. now apply scripted_with_shader with sh.
Qed.

Lemma SetShaderColor_extends (r g b a : float) : extends (SetShaderColor r g b a).
Proof.
  intros st sh Hst. pose proof Hst as (_ & _ & Hsh).
  rewrite (SetShaderColor_bound _ _ _ _ _ _ Hsh).
  eexists _, [_; _]. split; [reflexivity|]. now apply scripted_with_shader with sh.
Qed.

Lemma SetShaderTexture_extends (textureTag : string) : extends (SetShaderTexture textureTag).
Proof.
  intros st sh Hst. pose proof Hst as (Hok & _ & Hsh).
  rewrite (SetShaderTexture_bound _ _ _ Hok Hsh).
  eexists _, [_; _]. split; [reflexivity|]. now apply scripted_with_shader with sh.
Qed.

Lemma SetTextureUVScale_extends (u v : float) : extends (SetTextureUVScale u v).
Proof.
  intros st sh Hst. pose proof Hst as (_ & _ & Hsh).
  rewrite (SetTextureUVScale_bound _ _ _ _ Hsh).
  eexists _, [_]. split; [reflexivity|]. now apply scripted_with_shader with sh.
Qed.

Lemma DrawMesh_extends (m : Mesh) : extends (DrawMesh m).
Proof.
  intros st sh Hst. eexists. exists []. split; [reflexivity|].
  destruct Hst as (Hok & Hmats & Hsh).
  split; [exact Hok|]. split; [exact Hmats|exact Hsh].
Qed.

Lemma defined_materials_nonempty (st : SceneManager) (sh : ShaderManager) :
  scripted st sh -> m_objectMaterials st <> [].
Proof. intros (_ & -> & _). discriminate. Qed.

Lemma SetShaderMaterial_extends (materialTag : string) (material : OBJECT_MATERIAL) :
  extends (SetShaderMaterial materialTag material).
Proof.
  intros st sh Hst. pose proof Hst as (_ & _ & Hsh).
  rewrite (SetShaderMaterial_nonempty _ _ _ (defined_materials_nonempty _ _ Hst)), Hsh.
  eexists. eexists. split; [reflexivity|]. now apply scripted_with_shader with sh.
Qed.

Lemma SetShaderMaterial_metal_emits (material : OBJECT_MATERIAL) :
  emits (material_writes material) (SetShaderMaterial "metal" material).
Proof.
  intros st sh Hst. pose proof Hst as (_ & Hmats & Hsh).
  rewrite (SetShaderMaterial_nonempty _ _ _ (defined_materials_nonempty _ _ Hst)), Hsh.
  rewrite Hmats, (resolved_no_match _ _ _ defined_materials_no_metal).
  eexists. exists [], []. split; [reflexivity|]. now apply scripted_with_shader with sh.
Qed.

Ltac script_step :=
  first [ apply SetTransformations_extends
        | apply SetShaderMaterial_extends
        | apply SetShaderTexture_extends
        | apply SetShaderColor_extends
        | apply SetTextureUVScale_extends
        | apply DrawMesh_extends ].

Lemma RenderScene_emits_indeterminate (indeterminate : nat -> OBJECT_MATERIAL) :
  emits (material_writes (indeterminate 2%nat)) (RenderScene indeterminate).
Proof.
  unfold RenderScene.
  do 10 (apply emits_later; [script_step|]).
  apply emits_first; [apply SetShaderMaterial_metal_emits|].
  repeat (apply extends_bind; [script_step|]).
  script_step.
Qed.

(** ** C10: the tag the script asks for and nobody defines *)

(** C10.  [PrepareScene], started without materials on a well-formed
    registry, leaves the materials tagged "matteblack", "polishwhite",
    "glassscreen", "dashmat" and "plastic", and no other; "metal" is not
    among them.  In that state [FindMaterial] with the tag "metal"
    returns [true] and hands back the material it was given;
    [SetShaderMaterial] with that tag writes the three material uniforms
    from what its uninitialised local holds; and [RenderScene] runs to
    its end having written the uniforms from the uninitialised local of
    its third call of [SetShaderMaterial], the one that asks for
    "metal". *)
Theorem metal_is_never_defined (st0 st : SceneManager) :
  registry_ok st0 ->
  m_objectMaterials st0 = [] ->
  PrepareScene st0 = Ok (tt, st) ->
  map Mat.tag (m_objectMaterials st) = defined_tags /\
  ("metal" ∉ defined_tags) /\
  (forall material, FindMaterial "metal" material st = Ok ((true, material), st)) /\
  (exists sh,
     m_pShaderManager st = Some sh /\
     forall material,
       SetShaderMaterial "metal" material st
       = Ok (tt, with_shader (Some (material_writes material ++ sh)%list) st)) /\
  (forall indeterminate : nat -> OBJECT_MATERIAL,
     exists st' after before,
       RenderScene indeterminate st = Ok (tt, st') /\
       m_pShaderManager st'
       = Some (after ++ material_writes (indeterminate 2%nat) ++ before)%list).
Proof.
  intros Hok0 Hempty Hrun.
  destruct (PrepareScene_state st0 st Hok0 Hrun) as (Hok & Hmats & sh & Hsh).
  rewrite Hempty in Hmats. cbn [app] in Hmats.
  assert (scripted st sh) as Hst by (split; [exact Hok|split; [exact Hmats|exact Hsh]]).
  pose proof (defined_materials_nonempty st sh Hst) as Hne.
  split; [rewrite Hmats; apply defined_materials_tags|].
  split; [unfold defined_tags; rewrite !not_elem_of_cons; repeat split;
          (discriminate || apply not_elem_of_nil)|].
  split.
  - intros material. rewrite (FindMaterial_scan _ _ _ Hne), Hmats.
    now rewrite (resolved_no_match _ _ _ defined_materials_no_metal).
  - split.
    + exists sh. split; [exact Hsh|]. intros material.
      rewrite (SetShaderMaterial_nonempty _ _ _ Hne), Hsh, Hmats.
      now rewrite (resolved_no_match _ _ _ defined_materials_no_metal).
    + intros indeterminate.
      destruct (RenderScene_emits_indeterminate indeterminate st sh Hst)
        as (st' & after & before & Hrender & _ & _ & Hsh').
      exists st', after, (before ++ sh)%list. split; [exact Hrender|exact Hsh'].
Qed.

(** * Further properties *)

(** ** Lookups in the texture table *)

Lemma first_tagged_some (tag : string) (l : list TEXTURE_INFO) :
  forall (base i : Z) (e : TEXTURE_INFO),
    first_tagged tag l base = Some (i, e) ->
    base <= i < base + Z.of_nat (length l) /\
    l !! Z.to_nat (i - base) = Some e /\
    Tex.tag e = tag.
Proof.
  induction l as [|a l IH]; intros base i e Hfirst; [discriminate|].
  cbn [first_tagged] in Hfirst.
  destruct (String.eqb_spec (Tex.tag a) tag) as [Heq|Hne].
  - injection Hfirst as <- <-. rewrite Z.sub_diag. cbn [length].
    split; [lia|]. split; [reflexivity|exact Heq].
  - apply IH in Hfirst as (Hrange & Hlookup & Htag). cbn [length].
    split; [lia|]. split; [|exact Htag].
    replace (Z.to_nat (i - base)) with (S (Z.to_nat (i - (base + 1)))) by lia.
    exact Hlookup.
Qed.

Lemma first_tagged_none_inv (tag : string) (l : list TEXTURE_INFO) (base : Z) :
  first_tagged tag l base = None -> Forall (fun e => Tex.tag e <> tag) l.
Proof.
  revert base. induction l as [|a l IH]; intros base Hnone; [constructor|].
  cbn [first_tagged] in Hnone.
  destruct (String.eqb_spec (Tex.tag a) tag) as [Heq|Hne]; [discriminate|].
  constructor; [exact Hne|now apply (IH (base + 1))].
Qed.

Lemma loaded_entries_length (st : SceneManager) :
  registry_ok st -> length (loaded_entries st) = Z.to_nat (m_loadedTextures st).
Proof.
  intros [Hlen Hn]. unfold loaded_entries, MAX_TEXTURES in *.
  rewrite length_take_le by lia. reflexivity.
Qed.

(** X1.  On a well-formed registry, a lookup for a tag that no slot in
    use bears answers -1, from [FindTextureID] and from
    [FindTextureSlot] alike (an empty registry included); and
    [FindTextureSlot] answers -1 for no other tag. *)
Theorem lookup_of_unregistered_tag (st : SceneManager) (tag : string) :
  registry_ok st ->
  (Forall (fun e => Tex.tag e <> tag) (loaded_entries st) ->
   FindTextureID tag st = Ok (-1, st)) /\
  (FindTextureSlot tag st = Ok (-1, st) <->
   Forall (fun e => Tex.tag e <> tag) (loaded_entries st)).
Proof.
  intros Hok. rewrite FindTextureID_scan, FindTextureSlot_scan by exact Hok.
  split; [intros Hnone; now rewrite first_tagged_none|]. split.
  - destruct (first_tagged tag (loaded_entries st) 0) as [[i e]|] eqn:Hfirst.
    + apply first_tagged_some in Hfirst as (Hrange & _). intros [= Hi]. lia.
    + intros _. now apply first_tagged_none_inv with 0.
  - intros Hnone. now rewrite first_tagged_none.
Qed.

(** X2.  On a well-formed registry, an answer of [FindTextureSlot]
    other than -1 is the index of a slot in use that bears the tag, and
    [FindTextureID] answers the identifier stored in that very slot. *)
Theorem lookups_name_the_same_slot (st st' : SceneManager) (tag : string) (slot : Z) :
  registry_ok st ->
  FindTextureSlot tag st = Ok (slot, st') ->
  slot <> -1 ->
  0 <= slot < m_loadedTextures st /\
  exists e,
    m_textureIDs st !! Z.to_nat slot = Some e /\
    Tex.tag e = tag /\
    FindTextureID tag st = Ok (int_of_GLuint (Tex.ID e), st).
Proof.
  intros Hok. rewrite FindTextureID_scan, FindTextureSlot_scan by exact Hok.
  destruct (first_tagged tag (loaded_entries st) 0) as [[i e]|] eqn:Hfirst.
  - intros [= <- <-] _.
    apply first_tagged_some in Hfirst as (Hrange & Hlookup & Htag).
    rewrite loaded_entries_length in Hrange by exact Hok.
    rewrite Z.sub_0_r in Hlookup. unfold loaded_entries in Hlookup.
    rewrite lookup_take_lt in Hlookup by lia.
    split; [destruct Hok; lia|]. now exists e.
  - intros [= <- <-] Hslot. contradiction.
Qed.

(** ** Every way a load can end *)

Lemma CreateGLTexture_eval (filename tag : string) (st : SceneManager) :
  registry_ok st ->
  CreateGLTexture filename tag st
  = match stbi_load filename with
    | None => Ok (false, st)
    | Some image =>
        if (colorChannels image =? 3) || (colorChannels image =? 4) then
          if m_loadedTextures st <? MAX_TEXTURES
          then Ok (true, registered image tag st)
          else Crash OutOfBounds
        else Ok (false, rejected st)
    end.
Proof.
  destruct st as [sh ms n ts mats [names calls]]. unfold registry_ok, MAX_TEXTURES.
  cbn [m_textureIDs m_loadedTextures]. intros [Hlen Hn].
  unfold CreateGLTexture.
  destruct (stbi_load filename) as [image|]; [|reflexivity].
  assert (forall internalformat format,
    (textureID <- glGenTextures1 ;;
     gl_call (BindTexture GL_TEXTURE_2D textureID) ;;
     gl_call (TexParameteri GL_TEXTURE_2D GL_TEXTURE_WRAP_S GL_REPEAT) ;;
     gl_call (TexParameteri GL_TEXTURE_2D GL_TEXTURE_WRAP_T GL_REPEAT) ;;
     gl_call (TexParameteri GL_TEXTURE_2D GL_TEXTURE_MIN_FILTER GL_LINEAR) ;;
     gl_call (TexParameteri GL_TEXTURE_2D GL_TEXTURE_MAG_FILTER GL_LINEAR) ;;
     gl_call (TexImage2D GL_TEXTURE_2D 0 internalformat (width image) (height image)
                         0 format GL_UNSIGNED_BYTE (pixels image)) ;;
     gl_call (GenerateMipmap GL_TEXTURE_2D) ;;
     gl_call (BindTexture GL_TEXTURE_2D 0) ;;
     n <- get m_loadedTextures ;;
     set_texture_at n (fun e => Tex.Make textureID (Tex.tag e)) ;;
     n <- get m_loadedTextures ;;
     set_texture_at n (fun e => Tex.Make (Tex.ID e) tag) ;;
     modify (fun st => with_loaded (m_loadedTextures st + 1) st) ;;
     ret true) (MkScene sh ms n ts mats (MkGL names calls))
    = if n <? 16 then
        Ok (true,
            MkScene sh ms (n + 1)
              (<[Z.to_nat n := Tex.Make (glGenName names) tag]> ts) mats
              (MkGL (glGenName names :: names)
                    ([BindTexture GL_TEXTURE_2D 0;
                      GenerateMipmap GL_TEXTURE_2D;
                      TexImage2D GL_TEXTURE_2D 0 internalformat (width image)
                        (height image) 0 format GL_UNSIGNED_BYTE (pixels image)]
                     ++ setup_calls (glGenName names) ++ calls)%list))
      else Crash OutOfBounds) as Hregister.
  { intros internalformat format.
    cbv beta iota zeta delta
      [bind glGenTextures1 gl_call modify get ret set_texture_at texture_at
       with_gl with_textures with_loaded gl_record m_pShaderManager m_basicMeshes
       m_loadedTextures m_textureIDs m_objectMaterials gl gl_names gl_calls MAX_TEXTURES].
    destruct (Z.lt_ge_cases n 16) as [Hlt|Hge].
    - assert ((0 <=? n) && (n <? 16) = true) as Hin
        by (apply andb_true_iff; split; [apply Z.leb_le|apply Z.ltb_lt]; lia).
      destruct (lookup_lt_is_Some_2 ts (Z.to_nat n)) as [e He]; [lia|].
      rewrite Hin, He. cbv beta iota. rewrite Hin, list_lookup_insert_eq by lia.
      cbn [Tex.ID Tex.tag]. rewrite list_insert_insert_eq.
      replace (n <? 16) with true by (symmetry; apply Z.ltb_lt; lia).
      reflexivity.
    - replace (n <? 16) with false by (symmetry; apply Z.ltb_ge; lia).
      now rewrite andb_false_r. }
  unfold registered, rejected, upload_calls.
  cbn [with_gl with_textures with_loaded m_pShaderManager m_basicMeshes
       m_loadedTextures m_textureIDs m_objectMaterials gl gl_names gl_calls].
  destruct (colorChannels image =? 3) eqn:H3; cbn [orb].
  - apply Hregister.
  - destruct (colorChannels image =? 4) eqn:H4.
    + apply Hregister.
    + reflexivity.
Qed.

Lemma decodes_image (filename : string) (image : Image) :
  stbi_load filename = Some image ->
  decodes filename = (colorChannels image =? 3) || (colorChannels image =? 4).
Proof. intros H. unfold decodes. now rewrite H. Qed.

(** X3.  On a well-formed registry [CreateGLTexture] ends in one of three
    ways, told apart by the file and the room left: it returns [true]
    when the file decodes to 3 or 4 channels and a slot is free; it
    returns [false] when the file does not decode so; and it writes
    past the sixteenth slot when the file decodes and the table is
    full. *)
Theorem load_ends_in_three_ways (filename tag : string) (st : SceneManager) :
  registry_ok st ->
  match CreateGLTexture filename tag st with
  | Ok (true, _) => decodes filename = true /\ m_loadedTextures st < MAX_TEXTURES
  | Ok (false, _) => decodes filename = false
  | Crash fault =>
      fault = OutOfBounds /\ decodes filename = true /\
      m_loadedTextures st = MAX_TEXTURES
  end.
Proof.
  intros Hok. rewrite CreateGLTexture_eval by exact Hok. unfold decodes.
  destruct (stbi_load filename) as [image|]; [|reflexivity].
  destruct ((colorChannels image =? 3) || (colorChannels image =? 4)); [|reflexivity].
  destruct (Z.ltb_spec (m_loadedTextures st) MAX_TEXTURES) as [Hlt|Hge].
  - now split.
  - destruct Hok as [_ Hn]. repeat split. lia.
Qed.

Lemma CreateGLTexture_rejects (filename tag : string) (image : Image) (st : SceneManager) :
  stbi_load filename = Some image ->
  colorChannels image <> 3 ->
  colorChannels image <> 4 ->
  CreateGLTexture filename tag st = Ok (false, rejected st).
Proof.
  intros Himg H3 H4. unfold CreateGLTexture. rewrite Himg.
  apply Z.eqb_neq in H3, H4. rewrite H3, H4. now destruct st.
Qed.

Lemma CreateGLTexture_state (filename tag : string) (b : bool) (st st' : SceneManager) :
  registry_ok st ->
  CreateGLTexture filename tag st = Ok (b, st') ->
  (b = false /\ st' = st) \/
  (b = false /\ st' = rejected st) \/
  (b = true /\ m_loadedTextures st < MAX_TEXTURES /\
   exists image, st' = registered image tag st).
Proof.
  intros Hok. rewrite CreateGLTexture_eval by exact Hok.
  destruct (stbi_load filename) as [image|]; [|intros [= <- <-]; now left].
  destruct ((colorChannels image =? 3) || (colorChannels image =? 4)).
  - destruct (Z.ltb_spec (m_loadedTextures st) MAX_TEXTURES) as [Hlt|Hge]; [|discriminate].
    intros [= <- <-]. right. right. split; [reflexivity|]. split; [exact Hlt|].
    now exists image.
  - intros [= <- <-]. right. now left.
Qed.

Lemma loaded_entries_registered (image : Image) (tag : string) (st : SceneManager) :
  registry_ok st ->
  m_loadedTextures st < MAX_TEXTURES ->
  loaded_entries (registered image tag st)
  = (loaded_entries st ++ [Tex.Make (glGenName (gl_names (gl st))) tag])%list.
Proof.
  intros [Hlen Hn] Hlt. unfold loaded_entries, registered, MAX_TEXTURES in *.
  cbn [with_loaded with_textures with_gl m_loadedTextures m_textureIDs].
  replace (Z.to_nat (m_loadedTextures st + 1)) with (S (Z.to_nat (m_loadedTextures st)))
    by lia.
  rewrite (take_S_r _ _ (Tex.Make (glGenName (gl_names (gl st))) tag))
    by (apply list_lookup_insert_eq; lia).
  now rewrite take_insert_ge by lia.
Qed.

Lemma registry_ok_registered (image : Image) (tag : string) (st : SceneManager) :
  registry_ok st -> m_loadedTextures st < MAX_TEXTURES ->
  registry_ok (registered image tag st).
Proof.
  intros [Hlen Hn] Hlt. unfold registry_ok, registered.
  cbn [with_loaded with_textures with_gl m_loadedTextures m_textureIDs].
  rewrite length_insert. lia.
Qed.

Lemma active_unit_setup (name : GLuint) (calls : list GLcall) :
  active_unit (setup_calls name ++ calls) = active_unit calls.
Proof. reflexivity. Qed.

Lemma bound_2D_setup (name : GLuint) (calls : list GLcall) (unit : Z) :
  bound_2D (setup_calls name ++ calls) unit
  = if active_unit calls =? unit then name else bound_2D calls unit.
Proof. reflexivity. Qed.

(** ** Loads that register nothing *)

(** X4.  A load of a file that does not decode changes nothing at all.  A
    load of an image with neither 3 nor 4 channels has already taken a
    name from the driver when it gives up: the name is new, it stays in
    use and stays bound to the selected texture unit, and no slot in use
    of a registry whose identifiers are names in use holds it. *)
Theorem rejected_image_leaves_a_name_bound
    (filename tag : string) (st : SceneManager) :
  (stbi_load filename = None -> CreateGLTexture filename tag st = Ok (false, st)) /\
  (forall image,
     stbi_load filename = Some image ->
     colorChannels image <> 3 ->
     colorChannels image <> 4 ->
     exists st',
       CreateGLTexture filename tag st = Ok (false, st') /\
       (glGenName (gl_names (gl st)) ∉ gl_names (gl st)) /\
       gl_names (gl st') = glGenName (gl_names (gl st)) :: gl_names (gl st) /\
       active_unit (gl_calls (gl st')) = active_unit (gl_calls (gl st)) /\
       bound_2D (gl_calls (gl st')) (active_unit (gl_calls (gl st')))
       = glGenName (gl_names (gl st)) /\
       (handles_ok st ->
        Forall (fun e => Tex.ID e <> glGenName (gl_names (gl st))) (loaded_entries st'))).
Proof.
  split.
  - intros Hnone. unfold CreateGLTexture. now rewrite Hnone.
  - intros image Himg H3 H4. exists (rejected st).
    split; [now apply CreateGLTexture_rejects with image|].
    split; [apply glGenName_fresh|]. split; [reflexivity|].
    unfold rejected. cbn [with_gl gl gl_calls gl_names].
    rewrite active_unit_setup, bound_2D_setup, Z.eqb_refl.
    split; [reflexivity|]. split; [reflexivity|].
    intros [_ Hin]. unfold loaded_entries in *.
    cbn [m_loadedTextures m_textureIDs].
    eapply Forall_impl; [exact Hin|]. cbn beta. intros e He Heq.
    rewrite Heq in He. now apply glGenName_fresh in He.
Qed.

(** ** Loads that register a texture *)

Lemma first_tagged_app_some (tag : string) (l1 l2 : list TEXTURE_INFO) :
  forall (base : Z) (p : Z * TEXTURE_INFO),
    first_tagged tag l1 base = Some p ->
    first_tagged tag (l1 ++ l2) base = Some p.
Proof.
  induction l1 as [|a l1 IH]; intros base p H; [discriminate|].
  cbn [app first_tagged] in *.
  destruct (String.eqb (Tex.tag a) tag); [exact H|now apply IH].
Qed.

Lemma first_tagged_exists (tag : string) (l : list TEXTURE_INFO) (base : Z) :
  Exists (fun e => Tex.tag e = tag) l ->
  exists p, first_tagged tag l base = Some p.
Proof.
  intros H. destruct (first_tagged tag l base) as [p|] eqn:Hfirst; [now exists p|].
  apply first_tagged_none_inv in Hfirst.
  apply Exists_exists in H as (e & Hin & Htag).
  rewrite Forall_forall in Hfirst. now apply Hfirst in Hin.
Qed.

(** X5.  A load that returns [true] appends: the slots in use are the
    old ones followed by the new entry.  So a lookup for a tag that was
    registered before the load, or that differs from the tag just
    loaded, gets from [FindTextureSlot] and from [FindTextureID] the
    answers it got before. *)
Theorem load_keeps_earlier_lookups
    (filename tag : string) (st st' : SceneManager) :
  registry_ok st ->
  CreateGLTexture filename tag st = Ok (true, st') ->
  loaded_entries st'
  = (loaded_entries st ++ [Tex.Make (glGenName (gl_names (gl st))) tag])%list /\
  forall tag' : string,
    tag' <> tag \/ Exists (fun e => Tex.tag e = tag') (loaded_entries st) ->
    exists slot id,
      FindTextureSlot tag' st = Ok (slot, st) /\
      FindTextureSlot tag' st' = Ok (slot, st') /\
      FindTextureID tag' st = Ok (id, st) /\
      FindTextureID tag' st' = Ok (id, st').
Proof.
  intros Hok Hrun.
  destruct (CreateGLTexture_state _ _ _ _ _ Hok Hrun)
    as [[? _]|[[? _]|(_ & Hlt & image & ->)]]; try discriminate.
  pose proof (registry_ok_registered image tag st Hok Hlt) as Hok'.
  pose proof (loaded_entries_registered image tag st Hok Hlt) as Hentries.
  split; [exact Hentries|]. intros tag' Hcase.
  rewrite !FindTextureSlot_scan, !FindTextureID_scan by assumption.
  rewrite Hentries.
  destruct (first_tagged tag' (loaded_entries st) 0) as [[i e]|] eqn:Hfirst.
  - rewrite (first_tagged_app_some _ _ _ _ _ Hfirst). now exists i, (int_of_GLuint (Tex.ID e)).
  - destruct Hcase as [Hne|Hex].
    + rewrite first_tagged_app by now apply first_tagged_none_inv with 0.
      cbn [first_tagged Tex.tag].
      destruct (String.eqb_spec tag tag') as [Heq|_]; [now subst|].
      now exists (-1), (-1).
    + apply (first_tagged_exists _ _ 0) in Hex as [p Hp]. congruence.
Qed.

(** X6.  With a driver that hands out unused names, a load keeps the
    identifiers of the slots in use pairwise distinct and in use in the
    context, whichever way it returns. *)
Theorem load_keeps_handles_distinct
    (filename tag : string) (b : bool) (st st' : SceneManager) :
  registry_ok st ->
  handles_ok st ->
  CreateGLTexture filename tag st = Ok (b, st') ->
  handles_ok st'.
Proof.
  intros Hok [Hdistinct Hin] Hrun.
  destruct (CreateGLTexture_state _ _ _ _ _ Hok Hrun)
    as [[_ ->]|[[_ ->]|(_ & Hlt & image & ->)]].
  - now split.
  - split; [exact Hdistinct|].
    eapply Forall_impl; [exact Hin|]. intros e He. now apply list_elem_of_further.
  - unfold handles_ok. rewrite loaded_entries_registered by assumption.
    rewrite map_app. cbn [map Tex.ID]. split.
    + apply NoDup_app. split; [exact Hdistinct|]. split; [|apply NoDup_singleton].
      intros name Hname Hnew. apply list_elem_of_singleton in Hnew as ->.
      apply list_elem_of_fmap in Hname as (e & Heq & He).
      rewrite Forall_forall in Hin. apply Hin in He. rewrite <- Heq in He.
      now apply glGenName_fresh in He.
    + apply Forall_app. split.
      * eapply Forall_impl; [exact Hin|]. intros e He. now apply list_elem_of_further.
      * constructor; [apply list_elem_of_here|constructor].
Qed.

(** X7.  A load that returns [true] leaves the selected texture unit
    where it was, with no texture bound to it, and leaves what is bound
    to every other unit: loading after [BindGLTextures] unbinds the unit
    that was selected last. *)
Theorem load_unbinds_the_selected_unit
    (filename tag : string) (st st' : SceneManager) :
  registry_ok st ->
  CreateGLTexture filename tag st = Ok (true, st') ->
  active_unit (gl_calls (gl st')) = active_unit (gl_calls (gl st)) /\
  bound_2D (gl_calls (gl st')) (active_unit (gl_calls (gl st))) = 0 /\
  forall unit : Z,
    unit <> active_unit (gl_calls (gl st)) ->
    bound_2D (gl_calls (gl st')) unit = bound_2D (gl_calls (gl st)) unit.
Proof.
  intros Hok Hrun.
  destruct (CreateGLTexture_state _ _ _ _ _ Hok Hrun)
    as [[? _]|[[? _]|(_ & Hlt & image & ->)]]; try discriminate.
  unfold registered, upload_calls.
  cbn [with_loaded with_textures with_gl gl gl_calls app active_unit bound_2D].
  rewrite !active_unit_setup, Z.eqb_refl. cbn [andb].
  split; [reflexivity|]. split; [now rewrite Z.eqb_refl|].
  intros unit Hunit.
  replace (active_unit (gl_calls (gl st)) =? unit) with false
    by (symmetry; apply Z.eqb_neq; congruence).
  rewrite bound_2D_setup.
  replace (active_unit (gl_calls (gl st)) =? unit) with false
    by (symmetry; apply Z.eqb_neq; congruence).
  reflexivity.
Qed.

(** ** After the release of the textures *)

Lemma destroy_round (i : Z) (e : TEXTURE_INFO) (s : SceneManager) :
  registry_ok s ->
  0 <= i < m_loadedTextures s ->
  m_textureIDs s !! Z.to_nat i = Some e ->
  (texture_at i ;;
   name <- glGenTextures1 ;;
   set_texture_at i (fun e => Tex.Make name (Tex.tag e)) ;;
   ret (i + 1)) s
  = Ok (i + 1,
        with_textures
          (<[Z.to_nat i := Tex.Make (glGenName (gl_names (gl s))) (Tex.tag e)]>
             (m_textureIDs s))
          (with_gl (MkGL (glGenName (gl_names (gl s)) :: gl_names (gl s))
                         (GenTextures (glGenName (gl_names (gl s))) :: gl_calls (gl s)))
                   s)).
Proof.
  intros Hok Hi He.
  destruct (texture_at_ok s i Hok Hi) as (e0 & He0 & Hat).
  assert (e0 = e) as -> by congruence.
  destruct Hok as [Hlen Hn]. unfold MAX_TEXTURES in *.
  rewrite (bind_ok _ _ _ _ _ Hat).
  rewrite (bind_ok glGenTextures1 _ s _ _ eq_refl).
  unfold bind at 1. rewrite set_texture_at_eval. cbn [with_gl m_textureIDs].
  unfold MAX_TEXTURES.
  replace ((0 <=? i) && (i <? 16)) with true
    by (symmetry; apply andb_true_iff; split; [apply Z.leb_le|apply Z.ltb_lt]; lia).
  now rewrite He.
Qed.

Lemma destroy_loop_handles (fuel : nat) :
  forall (i : Z) (s : SceneManager),
    registry_ok s ->
    0 <= i <= m_loadedTextures s ->
    (Z.to_nat (m_loadedTextures s - i) <= fuel)%nat ->
    NoDup (map Tex.ID (take (Z.to_nat i) (m_textureIDs s))) ->
    Forall (fun e => Tex.ID e ∈ gl_names (gl s)) (take (Z.to_nat i) (m_textureIDs s)) ->
    exists s',
      while fuel (fun i st => i <? m_loadedTextures st)
        (fun i =>
           texture_at i ;;
           name <- glGenTextures1 ;;
           set_texture_at i (fun e => Tex.Make name (Tex.tag e)) ;;
           ret (i + 1))
        i s = Ok (m_loadedTextures s, s') /\
      handles_ok s'.
Proof.
  induction fuel as [|fuel IH]; intros i s Hok Hi Hfuel Hdistinct Hin.
  - assert (i = m_loadedTextures s) as Heq by lia.
    exists s. cbn [while]. rewrite Heq at 1. rewrite Z.ltb_irrefl.
    split; [now rewrite Heq|]. subst i. now split.
  - destruct (Z.eq_dec i (m_loadedTextures s)) as [Heq|Hne].
    + exists s. cbn [while]. rewrite Heq at 1. rewrite Z.ltb_irrefl.
      split; [now rewrite Heq|]. subst i. now split.
    + destruct (texture_at_ok s i Hok) as (e & He & _); [lia|].
      pose proof (destroy_round i e s Hok ltac:(lia) He) as Hround.
      set (name := glGenName (gl_names (gl s))) in *.
      set (s1 := with_textures _ _) in Hround.
      pose proof Hok as [Hlen Hn]. unfold MAX_TEXTURES in *.
      assert (registry_ok s1) as Hok1.
      { unfold registry_ok, MAX_TEXTURES, s1. cbn. rewrite length_insert. lia. }
      assert (take (Z.to_nat (i + 1)) (m_textureIDs s1)
              = (take (Z.to_nat i) (m_textureIDs s) ++ [Tex.Make name (Tex.tag e)])%list)
        as Htake.
      { unfold s1. cbn [with_textures m_textureIDs].
        replace (Z.to_nat (i + 1)) with (S (Z.to_nat i)) by lia.
        rewrite (take_S_r _ _ (Tex.Make name (Tex.tag e)))
          by (apply list_lookup_insert_eq; lia).
        now rewrite take_insert_ge by lia. }
      destruct (IH (i + 1) s1 Hok1) as (s' & Hrun & Hhandles).
      * unfold s1. cbn. lia.
      * unfold s1. cbn. lia.
      * rewrite Htake, map_app. cbn [map Tex.ID].
        apply NoDup_app. split; [exact Hdistinct|]. split; [|apply NoDup_singleton].
        intros n Hn' Hnew. apply list_elem_of_singleton in Hnew as ->.
        apply list_elem_of_fmap in Hn' as (e0 & Heq & He0).
        rewrite Forall_forall in Hin. apply Hin in He0. rewrite <- Heq in He0.
        now apply glGenName_fresh in He0.
      * rewrite Htake. apply Forall_app. split.
        -- eapply Forall_impl; [exact Hin|]. intros e0 He0.
           unfold s1. cbn. now apply list_elem_of_further.
        -- constructor; [|constructor]. unfold s1. cbn. apply list_elem_of_here.
      * exists s'. split; [|exact Hhandles].
        cbn [while].
        replace (i <? m_loadedTextures s) with true by (symmetry; apply Z.ltb_lt; lia).
        rewrite Hround. exact Hrun.
Qed.

(** X8.  With a driver that hands out unused names, [DestroyGLTextures]
    on a well-formed registry returns with the identifiers of the slots
    in use pairwise distinct and in use in the context, whatever the
    slots held before. *)
Theorem release_leaves_distinct_handles (st : SceneManager) :
  registry_ok st ->
  exists st', DestroyGLTextures st = Ok (tt, st') /\ handles_ok st'.
Proof.
  intros Hok.
  destruct (destroy_loop_handles (Z.to_nat (m_loadedTextures st)) 0 st Hok)
    as (st' & Hrun & Hhandles).
  - destruct Hok. lia.
  - lia.
  - constructor.
  - constructor.
  - exists st'. split; [|exact Hhandles].
    unfold DestroyGLTextures, get. cbn [bind].
    now rewrite (bind_ok _ _ _ _ _ Hrun).
Qed.

Lemma first_tagged_by_tags (tag : string) (l1 : list TEXTURE_INFO) :
  forall (l2 : list TEXTURE_INFO) (base : Z),
    map Tex.tag l1 = map Tex.tag l2 ->
    match first_tagged tag l1 base, first_tagged tag l2 base with
    | Some (i1, _), Some (i2, _) => i1 = i2
    | None, None => True
    | _, _ => False
    end.
Proof.
  induction l1 as [|a l1 IH]; intros [|b l2] base Htags; try discriminate.
  - exact I.
  - cbn [map] in Htags. injection Htags as Hab Htags.
    cbn [first_tagged]. rewrite Hab.
    destruct (String.eqb (Tex.tag b) tag); [reflexivity|now apply IH].
Qed.

Lemma loaded_entries_tags (s s' : SceneManager) :
  m_loadedTextures s' = m_loadedTextures s ->
  map Tex.tag (m_textureIDs s') = map Tex.tag (m_textureIDs s) ->
  map Tex.tag (loaded_entries s') = map Tex.tag (loaded_entries s).
Proof.
  intros Hcount Htags. unfold loaded_entries. rewrite Hcount.
  generalize (Z.to_nat (m_loadedTextures s)) as n.
  revert Htags. generalize (m_textureIDs s') as l'. generalize (m_textureIDs s) as l.
  induction l as [|a l IH]; intros [|b l'] Htags n; try discriminate.
  - reflexivity.
  - destruct n as [|n]; [reflexivity|].
    cbn [map take] in *. injection Htags as Hab Htags.
    now rewrite Hab, (IH l' Htags n).
Qed.

(** X9.  [DestroyGLTextures] unregisters nothing: after it, on a
    well-formed registry and with a driver that hands out unused names,
    [FindTextureSlot] gives every tag the answer it gave before; and for
    a tag that is found, the slot still bears the tag and
    [FindTextureID] answers the identifier now stored in that slot,
    which was not a name in use before the call and is one after it. *)
Theorem release_keeps_every_slot (st : SceneManager) :
  registry_ok st ->
  exists st',
    DestroyGLTextures st = Ok (tt, st') /\
    forall tag : string,
      exists slot,
        FindTextureSlot tag st = Ok (slot, st) /\
        FindTextureSlot tag st' = Ok (slot, st') /\
        (slot <> -1 ->
         0 <= slot < m_loadedTextures st /\
         exists e',
           m_textureIDs st' !! Z.to_nat slot = Some e' /\
           Tex.tag e' = tag /\
           FindTextureID tag st' = Ok (int_of_GLuint (Tex.ID e'), st') /\
           (Tex.ID e' ∉ gl_names (gl st)) /\
           (Tex.ID e' ∈ gl_names (gl st'))).
Proof.
  intros Hok.
  destruct (destroy_loop (Z.to_nat (m_loadedTextures st)) 0 st Hok) as (st' & Hrun & Hreg);
    [destruct Hok; lia|lia|].
  exists st'. split.
  { unfold DestroyGLTextures, get. cbn [bind].
    now rewrite (bind_ok _ _ _ _ _ Hrun). }
  destruct Hreg as (Hcount & Htags & _ & _ & _ & _ & _ & Hnew & _).
  assert (registry_ok st') as Hok'.
  { destruct Hok as [Hlen Hn]. unfold registry_ok. rewrite Hcount.
    split; [|exact Hn].
    rewrite <- Hlen, <- (length_map Tex.tag (m_textureIDs st')), Htags.
    now rewrite length_map. }
  intros tag.
  rewrite !FindTextureSlot_scan, FindTextureID_scan by assumption.
  pose proof (first_tagged_by_tags tag (loaded_entries st) (loaded_entries st') 0
                (eq_sym (loaded_entries_tags st st' Hcount Htags))) as Hsame.
  destruct (first_tagged tag (loaded_entries st) 0) as [[i e]|] eqn:Hfirst;
    destruct (first_tagged tag (loaded_entries st') 0) as [[i' e']|] eqn:Hfirst';
    try contradiction.
  - subst i'. exists i. split; [reflexivity|]. split; [reflexivity|].
    intros _.
    apply first_tagged_some in Hfirst' as (Hrange & Hlookup & Htag).
    rewrite loaded_entries_length in Hrange by exact Hok'.
    rewrite Z.sub_0_r in Hlookup. unfold loaded_entries in Hlookup.
    rewrite lookup_take_lt in Hlookup by lia.
    split; [lia|].
    exists e'. split; [exact Hlookup|]. split; [exact Htag|]. split; [reflexivity|].
    apply (Hnew (Z.to_nat i) e'); [lia|exact Hlookup].
  - exists (-1). split; [reflexivity|]. split; [reflexivity|]. now intros.
Qed.

(** ** Binding the textures to the units *)

Lemma bind_textures_loop_units (fuel : nat) :
  forall (i : Z) (s : SceneManager),
    registry_ok s ->
    0 <= i <= m_loadedTextures s ->
    (Z.to_nat (m_loadedTextures s - i) <= fuel)%nat ->
    (forall (j : nat) (e : TEXTURE_INFO),
       (j < Z.to_nat i)%nat -> m_textureIDs s !! j = Some e ->
       bound_2D (gl_calls (gl s)) (GL_TEXTURE0 + Z.of_nat j) = Tex.ID e) ->
    exists g',
      while fuel (fun i st => i <? m_loadedTextures st)
        (fun i =>
           gl_call (ActiveTexture (GL_TEXTURE0 + i)) ;;
           e <- texture_at i ;;
           gl_call (BindTexture GL_TEXTURE_2D (Tex.ID e)) ;;
           ret (i + 1))
        i s = Ok (m_loadedTextures s, with_gl g' s) /\
      gl_names g' = gl_names (gl s) /\
      (forall (j : nat) (e : TEXTURE_INFO),
         (j < Z.to_nat (m_loadedTextures s))%nat -> m_textureIDs s !! j = Some e ->
         bound_2D (gl_calls g') (GL_TEXTURE0 + Z.of_nat j) = Tex.ID e).
Proof.
  assert (forall s, with_gl (gl s) s = s) as Hsame by now intros [].
  induction fuel as [|fuel IH]; intros i s Hok Hi Hfuel Hbound.
  - assert (i = m_loadedTextures s) as -> by lia.
    exists (gl s). cbn [while]. rewrite Z.ltb_irrefl, Hsame. now repeat split.
  - destruct (Z.eq_dec i (m_loadedTextures s)) as [->|Hne].
    + exists (gl s). cbn [while]. rewrite Z.ltb_irrefl, Hsame. now repeat split.
    + set (s1 := with_gl (gl_record (ActiveTexture (GL_TEXTURE0 + i)) (gl s)) s).
      assert (registry_ok s1) as Hok1 by exact Hok.
      destruct (texture_at_ok s1 i Hok1) as (e & He & Hat); [exact (ltac:(cbn; lia))|].
      set (s2 := with_gl (gl_record (BindTexture GL_TEXTURE_2D (Tex.ID e)) (gl s1)) s1).
      destruct (IH (i + 1) s2) as (g' & Hrun & Hnames & Hunits).
      * exact Hok.
      * cbn. lia.
      * cbn. lia.
      * intros j e' Hj He'. cbn in He'.
        cbn [s2 s1 with_gl gl gl_record gl_calls bound_2D active_unit].
        rewrite Z.eqb_refl. cbn [andb].
        destruct (Z.eqb_spec (GL_TEXTURE0 + i) (GL_TEXTURE0 + Z.of_nat j)) as [Heq|Hneq].
        -- assert (Z.to_nat i = j) as Hij by lia. cbn in He. congruence.
        -- apply Hbound; [lia|exact He'].
      * exists g'. split; [|split; [exact Hnames|exact Hunits]].
        cbn [while].
        replace (i <? m_loadedTextures s) with true by (symmetry; apply Z.ltb_lt; lia).
        unfold bind at 1. unfold gl_call at 1, modify at 1. cbv beta iota.
        fold s1. rewrite (bind_ok _ _ _ _ _ Hat).
        unfold bind at 1. unfold gl_call at 1, modify at 1. cbv beta iota.
        fold s2. unfold ret at 1. rewrite Hrun. now destruct s.
Qed.

Lemma BindGLTextures_units (st : SceneManager) :
  registry_ok st ->
  exists g',
    BindGLTextures st = Ok (tt, with_gl g' st) /\
    gl_names g' = gl_names (gl st) /\
    (forall (j : nat) (e : TEXTURE_INFO),
       (j < Z.to_nat (m_loadedTextures st))%nat -> m_textureIDs st !! j = Some e ->
       bound_2D (gl_calls g') (GL_TEXTURE0 + Z.of_nat j) = Tex.ID e).
Proof.
  intros Hok. unfold BindGLTextures, get. cbn [bind].
  destruct (bind_textures_loop_units (Z.to_nat (m_loadedTextures st)) 0 st Hok)
    as (g' & Hrun & Hnames & Hunits); [destruct Hok; lia|lia|intros j e Hj; lia|].
  exists g'. split; [now rewrite (bind_ok _ _ _ _ _ Hrun)|]. now split.
Qed.

(** X10.  On a well-formed registry [BindGLTextures] returns, changes
    neither the table, the count, the materials nor the names in use,
    and leaves the identifier of every slot [j] in use bound to texture
    unit [GL_TEXTURE0 + j]. *)
Theorem BindGLTextures_binds_slot_to_unit (st : SceneManager) :
  registry_ok st ->
  exists st',
    BindGLTextures st = Ok (tt, st') /\
    m_textureIDs st' = m_textureIDs st /\
    m_loadedTextures st' = m_loadedTextures st /\
    m_objectMaterials st' = m_objectMaterials st /\
    gl_names (gl st') = gl_names (gl st) /\
    (forall (j : nat) (e : TEXTURE_INFO),
       (j < Z.to_nat (m_loadedTextures st))%nat -> m_textureIDs st !! j = Some e ->
       bound_2D (gl_calls (gl st')) (GL_TEXTURE0 + Z.of_nat j) = Tex.ID e).
Proof.
  intros Hok. destruct (BindGLTextures_units st Hok) as (g' & Hrun & Hnames & Hunits).
  exists (with_gl g' st). now repeat split.
Qed.

(** X11.  After [BindGLTextures] on a well-formed registry, the slot
    [FindTextureSlot] answers for a tag it finds is the number of the
    texture unit that holds the very texture [FindTextureID] answers for
    that tag: the sampler index and the handle name the same texture. *)
Theorem slot_is_the_unit_of_the_handle
    (st st' st'' : SceneManager) (tag : string) (slot : Z) :
  registry_ok st ->
  BindGLTextures st = Ok (tt, st') ->
  FindTextureSlot tag st' = Ok (slot, st'') ->
  slot <> -1 ->
  FindTextureID tag st'
  = Ok (int_of_GLuint (bound_2D (gl_calls (gl st')) (GL_TEXTURE0 + slot)), st').
Proof.
  intros Hok Hbind.
  destruct (BindGLTextures_units st Hok) as (g' & Hrun & _ & Hunits).
  rewrite Hrun in Hbind. injection Hbind as <-.
  assert (registry_ok (with_gl g' st)) as Hok' by exact Hok.
  rewrite FindTextureSlot_scan, FindTextureID_scan by exact Hok'.
  destruct (first_tagged tag (loaded_entries (with_gl g' st)) 0) as [[i e]|] eqn:Hfirst.
  - intros [= <- <-] _.
    apply first_tagged_some in Hfirst as (Hrange & Hlookup & _).
    rewrite loaded_entries_length in Hrange by exact Hok'.
    rewrite Z.sub_0_r in Hlookup. unfold loaded_entries in Hlookup.
    rewrite lookup_take_lt in Hlookup by lia.
    cbn [with_gl gl m_loadedTextures m_textureIDs] in *.
    rewrite <- (Hunits (Z.to_nat i) e); [|lia|exact Hlookup].
    now replace (Z.of_nat (Z.to_nat i)) with i by lia.
  - intros [= <- <-] Hslot. contradiction.
Qed.

(** X12.  With a shader manager bound, [SetShaderTexture] writes to
    ["objectTexture"] the answer of [FindTextureSlot] for the tag: the
    slot of the first entry bearing it, and -1 when no slot in use bears
    it; the flag ["bUseTexture"] is raised in both cases. *)
Theorem SetShaderTexture_writes_the_slot
    (st : SceneManager) (sh : ShaderManager) (textureTag : string) :
  registry_ok st ->
  m_pShaderManager st = Some sh ->
  exists st' sh' slot,
    SetShaderTexture textureTag st = Ok (tt, st') /\
    FindTextureSlot textureTag st = Ok (slot, st) /\
    m_pShaderManager st' = Some sh' /\
    uniform "objectTexture" sh' = Some (USampler2D slot) /\
    uniform "bUseTexture" sh' = Some (UInt 1) /\
    (Forall (fun e => Tex.tag e <> textureTag) (loaded_entries st) -> slot = -1).
Proof.
  intros Hok Hsh.
  rewrite (SetShaderTexture_bound _ _ _ Hok Hsh), FindTextureSlot_scan by exact Hok.
  eexists _, _, _. split; [reflexivity|]. split; [reflexivity|].
  split; [reflexivity|]. split; [reflexivity|]. split; [reflexivity|].
  intros Hnone. now rewrite first_tagged_none.
Qed.

(** ** Materials that are registered *)

Lemma first_material_at (tag : string) (l : list OBJECT_MATERIAL) :
  forall (i : nat) (e : OBJECT_MATERIAL),
    l !! i = Some e -> Mat.tag e = tag ->
    (forall j e', (j < i)%nat -> l !! j = Some e' -> Mat.tag e' <> tag) ->
    first_material tag l = Some e.
Proof.
  induction l as [|a l IH]; intros i e Hi He Hbefore; [discriminate|].
  destruct i as [|i]; cbn in Hi.
  - injection Hi as ->. cbn [first_material]. now rewrite He, String.eqb_refl.
  - cbn [first_material]. destruct (String.eqb_spec (Mat.tag a) tag) as [Heq|_].
    + exfalso. apply (Hbefore 0%nat a); [lia|reflexivity|exact Heq].
    + apply (IH i e Hi He). intros j e' Hj Hl.
      apply (Hbefore (S j) e'); [lia|exact Hl].
Qed.

Lemma lookup_nonempty {A : Type} (l : list A) (i : nat) (x : A) :
  l !! i = Some x -> l <> [].
Proof. now destruct l. Qed.

(** X13.  When the vector holds the tag at index [i] and at no index
    before it, [FindMaterial] returns [true] and hands back the diffuse
    colour, specular colour and shininess of entry [i]; the tag of the
    material passed in is not overwritten. *)
Theorem FindMaterial_copies_first_match
    (st : SceneManager) (tag : string) (material e : OBJECT_MATERIAL) (i : nat) :
  m_objectMaterials st !! i = Some e ->
  Mat.tag e = tag ->
  (forall j e', (j < i)%nat -> m_objectMaterials st !! j = Some e' -> Mat.tag e' <> tag) ->
  FindMaterial tag material st
  = Ok ((true, Mat.Make (Mat.diffuseColor e) (Mat.specularColor e) (Mat.shininess e)
                        (Mat.tag material)), st).
Proof.
  intros Hi He Hbefore.
  rewrite FindMaterial_scan by exact (lookup_nonempty _ _ _ Hi).
  unfold resolved. now rewrite (first_material_at tag _ i e Hi He Hbefore).
Qed.

(** X14.  With a shader manager bound and the tag registered,
    [SetShaderMaterial] leaves the three material uniforms holding the
    values of the first entry bearing the tag; nothing of what its
    uninitialised local held reaches the shader. *)
Theorem SetShaderMaterial_writes_first_match
    (st : SceneManager) (sh : ShaderManager) (materialTag : string)
    (material e : OBJECT_MATERIAL) (i : nat) :
  m_pShaderManager st = Some sh ->
  m_objectMaterials st !! i = Some e ->
  Mat.tag e = materialTag ->
  (forall j e', (j < i)%nat -> m_objectMaterials st !! j = Some e' ->
                Mat.tag e' <> materialTag) ->
  exists st' sh',
    SetShaderMaterial materialTag material st = Ok (tt, st') /\
    st' = with_shader (Some sh') st /\
    sh' = (material_writes e ++ sh)%list /\
    uniform "material.diffuseColor" sh' = Some (UVec3 (Mat.diffuseColor e)) /\
    uniform "material.specularColor" sh' = Some (UVec3 (Mat.specularColor e)) /\
    uniform "material.shininess" sh' = Some (UFloat (Mat.shininess e)).
Proof.
  intros Hsh Hi He Hbefore.
  rewrite SetShaderMaterial_nonempty by exact (lookup_nonempty _ _ _ Hi).
  rewrite Hsh. unfold resolved. rewrite (first_material_at _ _ i e Hi He Hbefore).
  eexists _, _. split; [reflexivity|]. split; [reflexivity|].
  now repeat split.
Qed.

(** ** What the lookups and the shader bridge leave alone *)

Lemma while_same_state {L : Type} (cond : L -> SceneManager -> bool) (body : L -> M L) :
  (forall l s l' s', body l s = Ok (l', s') -> s' = s) ->
  forall (fuel : nat) (l l' : L) (s s' : SceneManager),
    while fuel cond body l s = Ok (l', s') -> s' = s.
Proof.
  intros Hbody. induction fuel as [|fuel IH]; intros l l' s s'; cbn [while];
    destruct (cond l s); try discriminate; try (now intros [= _ <-]).
  destruct (body l s) as [[l1 s1]|f] eqn:Hstep; [|discriminate].
  apply Hbody in Hstep as ->. apply IH.
Qed.

Lemma texture_at_same_state (i : Z) (s s' : SceneManager) (e : TEXTURE_INFO) :
  texture_at i s = Ok (e, s') -> s' = s.
Proof.
  unfold texture_at. destruct ((0 <=? i) && (i <? MAX_TEXTURES)); [|discriminate].
  destruct (m_textureIDs s !! Z.to_nat i); [|discriminate]. now intros [= _ <-].
Qed.

Lemma material_at_same_state (i : Z) (s s' : SceneManager) (e : OBJECT_MATERIAL) :
  material_at i s = Ok (e, s') -> s' = s.
Proof.
  unfold material_at. destruct (0 <=? i); [|discriminate].
  destruct (m_objectMaterials s !! Z.to_nat i); [|discriminate]. now intros [= _ <-].
Qed.

Lemma FindTextureSlot_same_state (tag : string) (s s' : SceneManager) (r : Z) :
  FindTextureSlot tag s = Ok (r, s') -> s' = s.
Proof.
  unfold FindTextureSlot, get. cbn [bind]. intros H.
  apply bind_inv in H as ([[a b] c] & s1 & Hloop & Hret).
  injection Hret as _ <-. revert Hloop. apply while_same_state.
  intros [[a0 b0] c0] s0 l' s0' Hbody.
  apply bind_inv in Hbody as (e & s2 & Hat & Hret).
  apply texture_at_same_state in Hat as ->.
  destruct (compare (Tex.tag e) tag =? 0); now injection Hret as _ <-.
Qed.

Lemma FindTextureID_same_state (tag : string) (s s' : SceneManager) (r : Z) :
  FindTextureID tag s = Ok (r, s') -> s' = s.
Proof.
  unfold FindTextureID, get. cbn [bind]. intros H.
  apply bind_inv in H as ([[a b] c] & s1 & Hloop & Hret).
  injection Hret as _ <-. revert Hloop. apply while_same_state.
  intros [[a0 b0] c0] s0 l' s0' Hbody.
  apply bind_inv in Hbody as (e & s2 & Hat & Hret).
  apply texture_at_same_state in Hat as ->.
  destruct (compare (Tex.tag e) tag =? 0); now injection Hret as _ <-.
Qed.

Lemma FindMaterial_same_state (tag : string) (material : OBJECT_MATERIAL)
    (s s' : SceneManager) (r : bool * OBJECT_MATERIAL) :
  FindMaterial tag material s = Ok (r, s') -> s' = s.
Proof.
  destruct (m_objectMaterials s) as [|a l] eqn:Hmats.
  - rewrite FindMaterial_empty by exact Hmats. now intros [= _ <-].
  - rewrite FindMaterial_scan by (rewrite Hmats; discriminate). now intros [= _ <-].
Qed.

Lemma only_draws_bind {A B : Type} (m1 m2 : list Mesh) (c : M A) (k : A -> M B) :
  only_draws m1 c -> (forall a, only_draws m2 (k a)) ->
  only_draws (m2 ++ m1) (bind c k).
Proof.
  intros Hc Hk st st2 b Hrun.
  apply bind_inv in Hrun as (a & st1 & Hrun1 & Hrun2).
  destruct (Hc _ _ _ Hrun1) as ((H1 & H2 & H3 & H4) & Hl1 & Hd1).
  destruct (Hk a _ _ _ Hrun2) as ((H5 & H6 & H7 & H8) & Hl2 & Hd2).
  split; [unfold same_registries; repeat split; congruence|].
  split; [congruence|]. rewrite Hd2, Hd1. now rewrite app_assoc.
Qed.

Lemma only_draws_shader_call (setter : ShaderManager -> ShaderManager) :
  only_draws [] (shader_call setter).
Proof.
  intros st st' [] Hrun. apply shader_call_inv in Hrun as (sh & _ & ->).
  now repeat split.
Qed.

Lemma only_draws_when (c : SceneManager -> bool) (body : M unit) :
  only_draws [] body -> only_draws [] (when c body).
Proof.
  intros Hbody st st' [] Hrun. unfold when in Hrun.
  destruct (c st); [now apply (Hbody _ _ tt)|].
  injection Hrun as <-. now repeat split.
Qed.

Lemma only_draws_SetTransformations (scaleXYZ : glm.vec3) (xr yr zr : float)
    (positionXYZ : glm.vec3) :
  only_draws [] (SetTransformations scaleXYZ xr yr zr positionXYZ).
Proof. apply only_draws_when, only_draws_shader_call. Qed.

Lemma only_draws_SetShaderColor (r g b a : float) : only_draws [] (SetShaderColor r g b a).
Proof.
  apply only_draws_when.
  apply (only_draws_bind [] []); [|intros _]; apply only_draws_shader_call.
Qed.

Lemma only_draws_SetShaderTexture (textureTag : string) :
  only_draws [] (SetShaderTexture textureTag).
Proof.
  apply only_draws_when.
  apply (only_draws_bind [] []); [apply only_draws_shader_call|intros _].
  apply (only_draws_bind [] []); [|intros slot; apply only_draws_shader_call].
  intros st st' slot Hrun. apply FindTextureSlot_same_state in Hrun as ->.
  now repeat split.
Qed.

Lemma only_draws_SetTextureUVScale (u v : float) : only_draws [] (SetTextureUVScale u v).
Proof. apply only_draws_when, only_draws_shader_call. Qed.

Lemma only_draws_SetShaderMaterial (materialTag : string) (material : OBJECT_MATERIAL) :
  only_draws [] (SetShaderMaterial materialTag material).
Proof.
  apply only_draws_when.
  apply (only_draws_bind [] []).
  - intros st st' r Hrun. apply FindMaterial_same_state in Hrun as ->.
    now repeat split.
  - intros [[|] m]; cbn [Bool.eqb].
    + apply (only_draws_bind [] []); [apply only_draws_shader_call|intros _].
      apply (only_draws_bind [] []); [|intros _]; apply only_draws_shader_call.
    + intros st st' [] [= <-]. now repeat split.
Qed.

Lemma only_draws_DrawMesh (m : Mesh) : only_draws [m] (DrawMesh m).
Proof. intros st st' [] [= <-]. now repeat split. Qed.

(** X15.  The three lookups change nothing when they return, on any
    state; and the five methods of the shader bridge, when they return,
    have changed neither the texture table, the count, the materials,
    the OpenGL context nor the meshes. *)
Theorem lookups_and_bridge_leave_registries (st st' : SceneManager) :
  (forall tag r, FindTextureID tag st = Ok (r, st') -> st' = st) /\
  (forall tag r, FindTextureSlot tag st = Ok (r, st') -> st' = st) /\
  (forall tag material r, FindMaterial tag material st = Ok (r, st') -> st' = st) /\
  (forall c : M unit,
     (exists scaleXYZ xr yr zr positionXYZ,
        c = SetTransformations scaleXYZ xr yr zr positionXYZ) \/
     (exists r g b a, c = SetShaderColor r g b a) \/
     (exists textureTag, c = SetShaderTexture textureTag) \/
     (exists u v, c = SetTextureUVScale u v) \/
     (exists materialTag material, c = SetShaderMaterial materialTag material) ->
     c st = Ok (tt, st') ->
     same_registries st st' /\ m_basicMeshes st' = m_basicMeshes st).
Proof.
  split; [intros tag r; apply FindTextureID_same_state|].
  split; [intros tag r; apply FindTextureSlot_same_state|].
  split; [intros tag material r; apply FindMaterial_same_state|].
  intros c Hc Hrun.
  assert (only_draws [] c) as Hframe.
  { destruct Hc as [(? & ? & ? & ? & ? & ->)|[(? & ? & ? & ? & ->)|
                   [(? & ->)|[(? & ? & ->)|(? & ? & ->)]]]].
    - apply only_draws_SetTransformations.
    - apply only_draws_SetShaderColor.
    - apply only_draws_SetShaderTexture.
    - apply only_draws_SetTextureUVScale.
    - apply only_draws_SetShaderMaterial. }
  destruct (Hframe _ _ _ Hrun) as (Hsame & Hloaded & Hdrawn).
  split; [exact Hsame|].
  destruct (m_basicMeshes st'), (m_basicMeshes st). cbn in *. congruence.
Qed.

Ltac draw_step :=
  first [ apply only_draws_SetTransformations
        | apply only_draws_SetShaderMaterial
        | apply only_draws_SetShaderTexture
        | apply only_draws_SetShaderColor
        | apply only_draws_SetTextureUVScale
        | apply only_draws_DrawMesh ].

Lemma only_draws_then {A : Type} (m1 m2 m : list Mesh) (c : M A) (k : M unit) :
  only_draws m1 c -> only_draws m2 k -> m = (m2 ++ m1)%list ->
  only_draws m (c ;; k).
Proof. intros Hc Hk ->. apply only_draws_bind; [exact Hc|intros _; exact Hk]. Qed.

Ltac draw_all :=
  first [ draw_step
        | eapply only_draws_then; [draw_step|draw_all|reflexivity] ].

Lemma RenderScene_draws (indeterminate : nat -> OBJECT_MATERIAL) :
  only_draws scene_draws (RenderScene indeterminate).
Proof. unfold RenderScene. draw_all. Qed.

(** X16.  Whenever [RenderScene] returns, whatever the shader manager
    and the registries, it has drawn its twelve meshes in the order of
    the script -- plane, cylinder, three boxes, torus, cylinder, five
    boxes -- has loaded none, and has changed neither the texture table,
    the count, the materials nor the OpenGL context. *)
Theorem RenderScene_only_draws
    (indeterminate : nat -> OBJECT_MATERIAL) (st st' : SceneManager) :
  RenderScene indeterminate st = Ok (tt, st') ->
  same_registries st st' /\
  loaded (m_basicMeshes st') = loaded (m_basicMeshes st) /\
  drawn (m_basicMeshes st') = (scene_draws ++ drawn (m_basicMeshes st))%list.
Proof.
  apply (RenderScene_draws indeterminate st st' tt).
Qed.

(** ** The script without a shader manager *)

(** X17.  Without a shader manager, [RenderScene] on an empty material
    registry returns having drawn its twelve meshes and done nothing
    else, while on a registry that holds a material it dereferences the
    null pointer in its first call of [SetShaderMaterial]. *)
Theorem RenderScene_without_shader
    (indeterminate : nat -> OBJECT_MATERIAL) (st : SceneManager) :
  m_pShaderManager st = None ->
  (m_objectMaterials st = [] ->
   RenderScene indeterminate st
   = Ok (tt, with_meshes (MkMeshes (loaded (m_basicMeshes st))
                                   (scene_draws ++ drawn (m_basicMeshes st))%list) st)) /\
  (m_objectMaterials st <> [] ->
   RenderScene indeterminate st = Crash NullDereference).
Proof.
  intros Hnull. split.
  - intros Hempty. destruct st as [sh ms n ts mats g]. cbn in Hnull, Hempty. subst.
    reflexivity.
  - intros Hne. unfold RenderScene.
    erewrite bind_ok by (unfold SetTransformations; apply when_shader_null; exact Hnull).
    unfold bind at 1. now rewrite SetShaderMaterial_nonempty, Hnull by exact Hne.
Qed.

(** ** Loading the textures of the scene *)

Lemma load_list (textures : list (string * string)) :
  forall st : SceneManager,
    registry_ok st ->
    m_loadedTextures st + Z.of_nat (length (List.filter registers textures))
    <= MAX_TEXTURES ->
    exists st1,
      registry_ok st1 /\
      map Tex.tag (loaded_entries st1)
      = (map Tex.tag (loaded_entries st) ++ map snd (List.filter registers textures))%list /\
      m_loadedTextures st1
      = m_loadedTextures st + Z.of_nat (length (List.filter registers textures)) /\
      m_pShaderManager st1 = m_pShaderManager st /\
      m_objectMaterials st1 = m_objectMaterials st /\
      m_basicMeshes st1 = m_basicMeshes st /\
      forall final : M unit,
        foldr (fun entry rest => CreateGLTexture (fst entry) (snd entry) ;; rest)
              final textures st
        = final st1.
Proof.
  induction textures as [|[filename tag] textures IH]; intros st Hok Hroom.
  - exists st. cbn. rewrite app_nil_r. split; [exact Hok|].
    split; [reflexivity|]. split; [lia|]. now repeat split.
  - cbn [List.filter foldr fst snd] in Hroom |- *.
    change (registers (filename, tag)) with (decodes filename) in *.
    pose proof (CreateGLTexture_eval filename tag st Hok) as Heval.
    assert (forall st2 : SceneManager,
              registry_ok st2 ->
              loaded_entries st2 = loaded_entries st ->
              m_loadedTextures st2 = m_loadedTextures st ->
              m_pShaderManager st2 = m_pShaderManager st ->
              m_objectMaterials st2 = m_objectMaterials st ->
              m_basicMeshes st2 = m_basicMeshes st ->
              decodes filename = false ->
              CreateGLTexture filename tag st = Ok (false, st2) ->
              exists st1,
                registry_ok st1 /\
                map Tex.tag (loaded_entries st1)
                = (map Tex.tag (loaded_entries st)
                   ++ map snd (List.filter registers textures))%list /\
                m_loadedTextures st1
                = m_loadedTextures st
                  + Z.of_nat (length (List.filter registers textures)) /\
                m_pShaderManager st1 = m_pShaderManager st /\
                m_objectMaterials st1 = m_objectMaterials st /\
                m_basicMeshes st1 = m_basicMeshes st /\
                forall final : M unit,
                  (CreateGLTexture filename tag ;;
                   foldr (fun entry rest =>
                            CreateGLTexture (fst entry) (snd entry) ;; rest)
                         final textures) st
                  = final st1) as Hskip.
    { intros st2 Hok2 Hentries2 Hcount2 Hsh2 Hmats2 Hms2 Hdec Hrun.
      rewrite Hdec in Hroom.
      destruct (IH st2 Hok2) as (st1 & Hok1 & Htags & Hcount & Hsh & Hmats & Hms & Hfinal);
        [lia|].
      exists st1. split; [exact Hok1|]. split; [congruence|]. split; [lia|].
      split; [congruence|]. split; [congruence|]. split; [congruence|].
      intros final. rewrite (bind_ok _ _ _ _ _ Hrun). apply Hfinal. }
    destruct (decodes filename) eqn:Hdec; unfold decodes in Hdec;
      destruct (stbi_load filename) as [image|]; try discriminate.
    + rewrite Hdec in Heval. cbn [length] in Hroom.
      assert (m_loadedTextures st < MAX_TEXTURES) as Hlt by lia.
      replace (m_loadedTextures st <? MAX_TEXTURES) with true in Heval
        by (symmetry; now apply Z.ltb_lt).
      destruct (IH (registered image tag st))
        as (st1 & Hok1 & Htags & Hcount & Hsh & Hmats & Hms & Hfinal).
      * now apply registry_ok_registered.
      * cbn [registered with_loaded m_loadedTextures]. lia.
      * exists st1. split; [exact Hok1|].
        rewrite loaded_entries_registered in Htags by assumption.
        rewrite map_app, <- app_assoc in Htags. split; [exact Htags|].
        split; [cbn [registered with_loaded m_loadedTextures length] in *; lia|].
        split; [exact Hsh|]. split; [exact Hmats|]. split; [exact Hms|].
        intros final. rewrite (bind_ok _ _ _ _ _ Heval). apply Hfinal.
    + rewrite Hdec in Heval. now apply (Hskip (rejected st)).
    + now apply (Hskip st).
Qed.

Lemma LoadSceneTextures_as_list :
  LoadSceneTextures
  = foldr (fun entry rest => CreateGLTexture (fst entry) (snd entry) ;; rest)
          BindGLTextures scene_textures.
Proof. reflexivity. Qed.

(** X18.  On a well-formed registry with room for the files that decode,
    [LoadSceneTextures] returns; it has appended one slot for each of
    its seven files that decodes to 3 or 4 channels, under the file's
    tag and in the order of the script, so a file that fails moves the
    later textures one slot down; and every slot in use is bound to the
    texture unit of its index. *)
Theorem LoadSceneTextures_registers_what_decodes (st : SceneManager) :
  registry_ok st ->
  m_loadedTextures st + Z.of_nat (length (List.filter registers scene_textures))
  <= MAX_TEXTURES ->
  exists st',
    LoadSceneTextures st = Ok (tt, st') /\
    registry_ok st' /\
    map Tex.tag (loaded_entries st')
    = (map Tex.tag (loaded_entries st)
       ++ map snd (List.filter registers scene_textures))%list /\
    m_loadedTextures st'
    = m_loadedTextures st + Z.of_nat (length (List.filter registers scene_textures)) /\
    (forall (j : nat) (e : TEXTURE_INFO),
       (j < Z.to_nat (m_loadedTextures st'))%nat -> m_textureIDs st' !! j = Some e ->
       bound_2D (gl_calls (gl st')) (GL_TEXTURE0 + Z.of_nat j) = Tex.ID e).
Proof.
  intros Hok Hroom.
  destruct (load_list scene_textures st Hok Hroom)
    as (st1 & Hok1 & Htags & Hcount & _ & _ & _ & Hfinal).
  destruct (BindGLTextures_units st1 Hok1) as (g' & Hbind & _ & Hunits).
  exists (with_gl g' st1). rewrite LoadSceneTextures_as_list, Hfinal.
  split; [exact Hbind|]. split; [exact Hok1|]. split; [exact Htags|].
  split; [exact Hcount|exact Hunits].
Qed.

(** ** Preparing the scene, with and without a shader manager *)

Lemma SetupSceneLights_bound (st : SceneManager) (sh : ShaderManager) :
  m_pShaderManager st = Some sh ->
  SetupSceneLights st = Ok (tt, with_shader (Some (light_writes ++ sh)%list) st).
Proof.
  intros Hsh. destruct st as [sh0 ms n ts mats g]. cbn in Hsh. subst sh0.
  reflexivity.
Qed.

Lemma SetupSceneLights_null (st : SceneManager) :
  m_pShaderManager st = None -> SetupSceneLights st = Crash NullDereference.
Proof.
  intros Hnull. unfold SetupSceneLights, bind, shader_call. now rewrite Hnull.
Qed.

Lemma PrepareScene_loads (st0 : SceneManager) :
  registry_ok st0 ->
  m_loadedTextures st0 + Z.of_nat (length (List.filter registers scene_textures))
  <= MAX_TEXTURES ->
  exists st1 g',
    registry_ok st1 /\
    map Tex.tag (loaded_entries st1)
    = (map Tex.tag (loaded_entries st0)
       ++ map snd (List.filter registers scene_textures))%list /\
    m_pShaderManager st1 = m_pShaderManager st0 /\
    m_objectMaterials st1 = (m_objectMaterials st0 ++ defined_materials)%list /\
    m_basicMeshes st1 = m_basicMeshes st0 /\
    (forall (j : nat) (e : TEXTURE_INFO),
       (j < Z.to_nat (m_loadedTextures st1))%nat -> m_textureIDs st1 !! j = Some e ->
       bound_2D (gl_calls g') (GL_TEXTURE0 + Z.of_nat j) = Tex.ID e) /\
    forall rest : M unit,
      (DefineObjectMaterials ;; LoadSceneTextures ;; rest) st0 = rest (with_gl g' st1).
Proof.
  intros Hok Hroom.
  destruct (load_list scene_textures
              (with_materials (m_objectMaterials st0 ++ defined_materials) st0) Hok Hroom)
    as (st1 & Hok1 & Htags & _ & Hsh & Hmats & Hms & Hfinal).
  destruct (BindGLTextures_units st1 Hok1) as (g' & Hbind & _ & Hunits).
  exists st1, g'. split; [exact Hok1|]. split; [exact Htags|]. split; [exact Hsh|].
  split; [exact Hmats|]. split; [exact Hms|]. split; [exact Hunits|].
  intros rest.
  rewrite (bind_ok _ _ _ _ _ (DefineObjectMaterials_appends st0)).
  rewrite LoadSceneTextures_as_list.
  unfold bind at 1. now rewrite Hfinal, Hbind.
Qed.

(** X19.  Without a shader manager [PrepareScene] does not return: once
    the materials are defined and the textures loaded, on a well-formed
    registry with room for them, [SetupSceneLights] dereferences the
    null pointer. *)
Theorem PrepareScene_without_shader (st0 : SceneManager) :
  registry_ok st0 ->
  m_loadedTextures st0 + Z.of_nat (length (List.filter registers scene_textures))
  <= MAX_TEXTURES ->
  m_pShaderManager st0 = None ->
  PrepareScene st0 = Crash NullDereference.
Proof.
  intros Hok Hroom Hnull.
  destruct (PrepareScene_loads st0 Hok Hroom)
    as (st1 & g' & _ & _ & Hsh & _ & _ & _ & Hrest).
  unfold PrepareScene. rewrite Hrest.
  unfold bind at 1. rewrite SetupSceneLights_null; [reflexivity|].
  cbn [with_gl m_pShaderManager]. congruence.
Qed.

(** X20.  With a shader manager bound, on a well-formed registry with
    room for the files that decode, [PrepareScene] returns.  It has
    appended its five materials to those already defined, appended one
    slot per file that decodes, bound every slot in use to the texture
    unit of its index, loaded the box, plane, cylinder and torus meshes
    in that order, drawn nothing, and written ["bUseLighting"] as
    [true] on top of the uniforms written before. *)
Theorem PrepareScene_establishes (st0 : SceneManager) (sh0 : ShaderManager) :
  registry_ok st0 ->
  m_loadedTextures st0 + Z.of_nat (length (List.filter registers scene_textures))
  <= MAX_TEXTURES ->
  m_pShaderManager st0 = Some sh0 ->
  exists st,
    PrepareScene st0 = Ok (tt, st) /\
    registry_ok st /\
    m_objectMaterials st = (m_objectMaterials st0 ++ defined_materials)%list /\
    map Tex.tag (loaded_entries st)
    = (map Tex.tag (loaded_entries st0)
       ++ map snd (List.filter registers scene_textures))%list /\
    (forall (j : nat) (e : TEXTURE_INFO),
       (j < Z.to_nat (m_loadedTextures st))%nat -> m_textureIDs st !! j = Some e ->
       bound_2D (gl_calls (gl st)) (GL_TEXTURE0 + Z.of_nat j) = Tex.ID e) /\
    loaded (m_basicMeshes st)
    = ([TorusMesh; CylinderMesh; PlaneMesh; BoxMesh] ++ loaded (m_basicMeshes st0))%list /\
    drawn (m_basicMeshes st) = drawn (m_basicMeshes st0) /\
    m_pShaderManager st = Some (light_writes ++ sh0)%list /\
    uniform "bUseLighting" (light_writes ++ sh0)%list = Some (UBool true).
Proof.
  intros Hok Hroom Hsh0.
  destruct (PrepareScene_loads st0 Hok Hroom)
    as (st1 & g' & Hok1 & Htags & Hsh & Hmats & Hms & Hunits & Hrest).
  unfold PrepareScene. rewrite Hrest.
  assert (m_pShaderManager (with_gl g' st1) = Some sh0) as Hsh1
    by (cbn [with_gl m_pShaderManager]; congruence).
  rewrite (bind_ok _ _ _ _ _ (SetupSceneLights_bound _ _ Hsh1)).
  eexists. split; [reflexivity|].
  cbn [with_meshes with_shader with_gl m_pShaderManager m_basicMeshes m_loadedTextures
       m_textureIDs m_objectMaterials gl loaded drawn app].
  split; [exact Hok1|]. split; [exact Hmats|]. split; [exact Htags|].
  split; [exact Hunits|]. rewrite Hms. repeat split.
Qed.

(** ** Flat colour and texture, one after the other *)

(** X21.  With a shader manager bound, the later of [SetShaderTexture]
    and [SetShaderColor] decides the flag ["bUseTexture"], and neither
    call takes back what the other wrote: after texture then colour the
    flag is 0 with the sampler still set, after colour then texture the
    flag is 1 with the colour still set. *)
Theorem later_call_decides_the_flag
    (st : SceneManager) (sh : ShaderManager) (textureTag : string) (r g b a : float) :
  registry_ok st ->
  m_pShaderManager st = Some sh ->
  exists slot,
    FindTextureSlot textureTag st = Ok (slot, st) /\
    (exists st' sh',
       (SetShaderTexture textureTag ;; SetShaderColor r g b a) st = Ok (tt, st') /\
       m_pShaderManager st' = Some sh' /\
       uniform "bUseTexture" sh' = Some (UInt 0) /\
       uniform "objectColor" sh' = Some (UVec4 (glm.Vec4 r g b a)) /\
       uniform "objectTexture" sh' = Some (USampler2D slot)) /\
    (exists st' sh',
       (SetShaderColor r g b a ;; SetShaderTexture textureTag) st = Ok (tt, st') /\
       m_pShaderManager st' = Some sh' /\
       uniform "bUseTexture" sh' = Some (UInt 1) /\
       uniform "objectColor" sh' = Some (UVec4 (glm.Vec4 r g b a)) /\
       uniform "objectTexture" sh' = Some (USampler2D slot)).
Proof.
  intros Hok Hsh. eexists. split; [now apply FindTextureSlot_scan|]. split.
  - rewrite (bind_ok _ _ _ _ _ (SetShaderTexture_bound _ _ _ Hok Hsh)).
    rewrite (SetShaderColor_bound _ _ _ _ (with_shader _ st) _ eq_refl).
    eexists _, _. split; [reflexivity|]. now repeat split.
  - rewrite (bind_ok _ _ _ _ _ (SetShaderColor_bound _ _ _ _ _ _ Hsh)).
    rewrite (SetShaderTexture_bound _ (with_shader _ st) _ Hok eq_refl).
    eexists _, _. split; [reflexivity|]. now repeat split.
Qed.

(** ** Defining the materials again *)

Lemma first_material_app_some (tag : string) (l1 l2 : list OBJECT_MATERIAL)
    (e : OBJECT_MATERIAL) :
  first_material tag l1 = Some e -> first_material tag (l1 ++ l2) = Some e.
Proof.
  induction l1 as [|a l1 IH]; intros H; [discriminate|].
  cbn [app first_material] in *.
  destruct (String.eqb (Mat.tag a) tag); [exact H|now apply IH].
Qed.

Lemma first_material_exists (tag : string) (l : list OBJECT_MATERIAL) :
  Exists (fun e => Mat.tag e = tag) l -> exists e, first_material tag l = Some e.
Proof.
  induction 1 as [a l Ha|a l _ [e IH]]; cbn [first_material].
  - exists a. now rewrite Ha, String.eqb_refl.
  - destruct (String.eqb (Mat.tag a) tag); [now exists a|now exists e].
Qed.

(** X22.  [DefineObjectMaterials] appends its five materials to whatever
    the vector holds, each time it is called, and never overrides: a tag
    the vector held before the call is still answered by [FindMaterial]
    with the values it was answered with before. *)
Theorem DefineObjectMaterials_never_overrides
    (st : SceneManager) (tag : string) (material : OBJECT_MATERIAL) :
  exists st',
    DefineObjectMaterials st = Ok (tt, st') /\
    m_objectMaterials st' = (m_objectMaterials st ++ defined_materials)%list /\
    length (m_objectMaterials st') = (length (m_objectMaterials st) + 5)%nat /\
    (Exists (fun e => Mat.tag e = tag) (m_objectMaterials st) ->
     exists found,
       FindMaterial tag material st = Ok ((true, found), st) /\
       FindMaterial tag material st' = Ok ((true, found), st')).
Proof.
  eexists. split; [apply DefineObjectMaterials_appends|].
  cbn [with_materials m_objectMaterials]. split; [reflexivity|].
  split; [now rewrite length_app|].
  intros Hex. pose proof Hex as Hex'.
  apply first_material_exists in Hex as [e He].
  rewrite !FindMaterial_scan.
  - cbn [with_materials m_objectMaterials]. unfold resolved.
    rewrite (first_material_app_some _ _ _ _ He), He. now eexists.
  - cbn [with_materials m_objectMaterials].
    destruct (m_objectMaterials st); [now apply Exists_nil in Hex'|discriminate].
  - destruct (m_objectMaterials st); [now apply Exists_nil in Hex'|discriminate].
Qed.

(** ** The registry stays well-formed *)

Lemma while_invariant {L : Type} (P : SceneManager -> Prop)
    (cond : L -> SceneManager -> bool) (body : L -> M L) :
  (forall l s l' s', P s -> body l s = Ok (l', s') -> P s') ->
  forall (fuel : nat) (l l' : L) (s s' : SceneManager),
    P s -> while fuel cond body l s = Ok (l', s') -> P s'.
Proof.
  intros Hbody. induction fuel as [|fuel IH]; intros l l' s s' HP; cbn [while];
    destruct (cond l s); try discriminate; try (now intros [= _ <-]).
  destruct (body l s) as [[l1 s1]|f] eqn:Hstep; [|discriminate].
  apply (IH l1 l' s1 s'). now apply (Hbody l s l1 s1).
Qed.

Lemma DestroyGLTextures_well_formed (st st' : SceneManager) :
  registry_ok st -> DestroyGLTextures st = Ok (tt, st') -> registry_ok st'.
Proof.
  intros Hok. unfold DestroyGLTextures, get. cbn [bind]. intros Hrun.
  apply bind_inv in Hrun as (i' & s1 & Hloop & Hret). injection Hret as <-.
  revert Hloop. apply while_invariant; [|exact Hok].
  intros i s i1 s1' Hs Hbody.
  apply bind_inv in Hbody as (e & s2 & Hat & Hbody).
  apply texture_at_same_state in Hat as ->.
  apply bind_inv in Hbody as (name & s3 & Hgen & Hbody).
  injection Hgen as <- <-.
  apply bind_inv in Hbody as ([] & s4 & Hset & Hret). injection Hret as _ <-.
  rewrite set_texture_at_eval in Hset.
  destruct ((0 <=? i) && (i <? MAX_TEXTURES)); [|discriminate].
  cbn [with_gl m_textureIDs] in Hset.
  destruct (m_textureIDs s !! Z.to_nat i); [|discriminate].
  injection Hset as <-. destruct Hs as [Hlen Hn]. unfold registry_ok.
  cbn [with_textures with_gl m_textureIDs m_loadedTextures].
  now rewrite length_insert.
Qed.

Lemma same_registries_well_formed (st st' : SceneManager) :
  same_registries st st' -> registry_ok st -> registry_ok st'.
Proof.
  intros (Hcount & Htable & _) Hok. unfold registry_ok. now rewrite Hcount, Htable.
Qed.

(** X23.  Being well-formed (a table of sixteen slots, a count between 0
    and 16) is kept by every method that changes the state: whenever
    [CreateGLTexture], [BindGLTextures], [DestroyGLTextures],
    [LoadSceneTextures], [PrepareScene] or [RenderScene] returns from a
    well-formed registry, the registry is well-formed; and the count of
    loaded textures never exceeds the sixteen slots. *)
Theorem registry_stays_well_formed (st st' : SceneManager) :
  registry_ok st ->
  (forall filename tag b, CreateGLTexture filename tag st = Ok (b, st') -> registry_ok st') /\
  (BindGLTextures st = Ok (tt, st') -> registry_ok st') /\
  (DestroyGLTextures st = Ok (tt, st') -> registry_ok st') /\
  (LoadSceneTextures st = Ok (tt, st') -> registry_ok st') /\
  (PrepareScene st = Ok (tt, st') -> registry_ok st') /\
  (forall indeterminate, RenderScene indeterminate st = Ok (tt, st') -> registry_ok st').
Proof.
  intros Hok.
  split; [intros f t b Hrun; now apply (CreateGLTexture_preserves f t st st' b)|].
  split; [intros Hrun; now apply (BindGLTextures_preserves st st' tt)|].
  split; [now apply DestroyGLTextures_well_formed|].
  split; [intros Hrun; now apply (LoadSceneTextures_preserves st st' tt)|].
  split; [intros Hrun; now apply (PrepareScene_state st st')|].
  intros indeterminate Hrun.
  destruct (RenderScene_draws indeterminate st st' tt Hrun) as (Hsame & _).
  now apply (same_registries_well_formed st).
Qed.

End Methods.

(** * The concrete environment *)

Lemma next_name_above (used : list GLuint) (name : GLuint) :
  name ∈ used -> name <= fold_right Z.max 0 used.
Proof.
  induction used as [|a used IH]; intros Hin.
  - now apply not_elem_of_nil in Hin.
  - apply elem_of_cons in Hin as [->|Hin]; cbn [fold_right]; [lia|].
    specialize (IH Hin). lia.
Qed.

Lemma next_name_fresh (used : list GLuint) : next_name used ∉ used.
Proof.
  intros Hin. apply next_name_above in Hin. unfold next_name in Hin. lia.
Qed.

Lemma cos_poly_zero : cos_poly F32.zero = F32.one.
Proof. vm_compute. reflexivity. Qed.

Lemma sin_poly_zero : sin_poly F32.zero = F32.zero.
Proof. vm_compute. reflexivity. Qed.

Lemma registry_ok_new_scene (sh : option ShaderManager) : registry_ok (new_scene sh).
Proof. unfold registry_ok, MAX_TEXTURES. cbn. lia. Qed.

Lemma registry_ok_twice_tagged : registry_ok twice_tagged.
Proof. unfold registry_ok, MAX_TEXTURES. cbn. lia. Qed.

(** ** The methods on small inputs *)

Example f32_lit_tenth : F32.lit 1 10 = S754_finite false 13421773 (-27).
Proof. vm_compute. reflexivity. Qed.

Example f32_lit_negative : F32.lit (-699) 1000 = S754_finite true 11727274 (-24).
Proof. vm_compute. reflexivity. Qed.

Example f32_double_lit : F32.of_double_lit 35 100 = S754_finite false 11744051 (-25).
Proof. vm_compute. reflexivity. Qed.

Example f32_one_bits : F32.one = S754_finite false 8388608 (-23).
Proof. vm_compute. reflexivity. Qed.

Example translate_by_integers :
  glm.col3 (glm.translate (glm.Vec3 (F32.of_Z 2) (F32.of_Z 3) (F32.of_Z 5)))
  = glm.Vec4 (F32.of_Z 2) (F32.of_Z 3) (F32.of_Z 5) F32.one.
Proof. vm_compute. reflexivity. Qed.

Example find_in_twice_tagged :
  FindTextureID "dash" twice_tagged = Ok (7, twice_tagged) /\
  FindTextureSlot "dash" twice_tagged = Ok (0, twice_tagged) /\
  FindTextureSlot "wheel" twice_tagged = Ok (-1, twice_tagged).
Proof. repeat split; vm_compute; reflexivity. Qed.

Example load_into_new_scene :
  exists st,
    CreateGLTexture next_name sample_files "textures/leather1.jpg" "dash" (new_scene None)
    = Ok (true, st) /\
    m_loadedTextures st = 1 /\
    m_textureIDs st !! 0%nat = Some (Tex.Make 1 "dash") /\
    gl_names (gl st) = [1].
Proof. eexists. split; [vm_compute; reflexivity|]. repeat split. Qed.

Example load_missing_file :
  CreateGLTexture next_name sample_files "textures/metalgrid.jpg" "ground" (new_scene None)
  = Ok (false, new_scene None).
Proof. vm_compute. reflexivity. Qed.

Example load_into_full_table :
  CreateGLTexture next_name sample_files "textures/leather1.jpg" "dash"
    (with_loaded 16 (new_scene None))
  = Crash OutOfBounds.
Proof. vm_compute. reflexivity. Qed.

Example destroy_twice_tagged :
  exists st,
    DestroyGLTextures next_name twice_tagged = Ok (tt, st) /\
    take 2 (m_textureIDs st) = [Tex.Make 10 "dash"; Tex.Make 11 "dash"] /\
    gl_names (gl st) = [11; 10; 9; 7].
Proof. eexists. split; [vm_compute; reflexivity|]. repeat split. Qed.

(** * The theorems at concrete inputs *)

Lemma FindMaterial_reports_found_witness :
  FindMaterial "metal"
    (Mat.Make (glm.Vec3 F32.one F32.one F32.one)
              (glm.Vec3 F32.zero F32.zero F32.zero) F32.one EmptyString)
    (with_materials [Mat.Make (glm.Vec3 F32.zero F32.zero F32.zero)
                              (glm.Vec3 F32.one F32.one F32.one) F32.zero "plastic"]
                    (new_scene None))
  = Ok ((true, Mat.Make (glm.Vec3 F32.one F32.one F32.one)
                        (glm.Vec3 F32.zero F32.zero F32.zero) F32.one EmptyString),
        with_materials [Mat.Make (glm.Vec3 F32.zero F32.zero F32.zero)
                                 (glm.Vec3 F32.one F32.one F32.one) F32.zero "plastic"]
                       (new_scene None)).
Proof.
  apply (proj2 (proj2 (FindMaterial_reports_found _ "metal" _))).
  - cbn. discriminate.
  - cbn. repeat constructor. cbn. discriminate.
Defined.

Lemma unsupported_channels_leave_registry_witness :
  exists st',
    CreateGLTexture next_name sample_files "textures/gray.png" "gray" (new_scene None)
    = Ok (false, st') /\
    m_textureIDs st' = m_textureIDs (new_scene None) /\
    m_loadedTextures st' = m_loadedTextures (new_scene None).
Proof.
  apply (unsupported_channels_leave_registry next_name sample_files
           "textures/gray.png" "gray" (MkImage 1 1 1 [128]) (new_scene None)).
  - reflexivity.
  - cbn. lia.
  - cbn. lia.
Defined.

Lemma SetTransformations_model_matrix_witness :
  SetTransformations cos_poly sin_poly (glm.Vec3 F32.one F32.one F32.one)
    F32.zero F32.zero F32.zero (glm.Vec3 F32.zero F32.zero F32.zero)
    (new_scene (Some []))
  = Ok (tt, with_shader (Some [("model", UMat4 glm.identity)]) (new_scene (Some []))).
Proof.
  apply (proj2 (SetTransformations_model_matrix cos_poly sin_poly
                  cos_poly_zero sin_poly_zero (new_scene (Some [])) [] eq_refl)).
Defined.

Lemma duplicate_tag_resolves_to_first_witness :
  FindTextureID "dash" twice_tagged = Ok (7, twice_tagged) /\
  FindTextureSlot "dash" twice_tagged = Ok (0, twice_tagged) /\
  (forall k e2, (0 < k)%nat -> m_textureIDs twice_tagged !! k = Some e2 ->
                Tex.tag e2 = "dash" ->
                FindTextureSlot "dash" twice_tagged <> Ok (Z.of_nat k, twice_tagged)).
Proof.
  apply (duplicate_tag_resolves_to_first twice_tagged "dash" 0%nat (Tex.Make 7 "dash")).
  - exact registry_ok_twice_tagged.
  - cbn. lia.
  - reflexivity.
  - reflexivity.
  - intros j e' Hj. lia.
Defined.

Lemma load_then_find_fresh_tag_witness :
  exists st',
    CreateGLTexture next_name sample_files "textures/tesla_screen.jpg" "screen" twice_tagged
    = Ok (true, st') /\
    FindTextureID "screen" st' = Ok (10, st') /\
    FindTextureSlot "screen" st' = Ok (2, st').
Proof.
  eexists. split; [vm_compute; reflexivity|].
  refine (proj2 (proj2 (load_then_find_fresh_tag next_name sample_files
                          "textures/tesla_screen.jpg" "screen" twice_tagged _
                          registry_ok_twice_tagged _ _))).
  - repeat constructor; cbn; discriminate.
  - vm_compute. reflexivity.
Defined.

Lemma use_texture_flag_after_call_witness :
  (forall r g b a : float,
     exists st' sh',
       SetShaderColor r g b a twice_tagged = Ok (tt, st') /\
       m_pShaderManager st' = Some sh' /\
       uniform "bUseTexture" sh' = Some (UInt 0)) /\
  (forall textureTag : string,
     exists st' sh',
       SetShaderTexture textureTag twice_tagged = Ok (tt, st') /\
       m_pShaderManager st' = Some sh' /\
       uniform "bUseTexture" sh' = Some (UInt 1)).
Proof.
  apply (use_texture_flag_after_call twice_tagged []).
  - exact registry_ok_twice_tagged.
  - reflexivity.
Defined.

Lemma DestroyGLTextures_regenerates_witness :
  exists st',
    DestroyGLTextures next_name twice_tagged = Ok (tt, st') /\
    gl_names (gl st')
    = (rev (map Tex.ID (loaded_entries st')) ++ gl_names (gl twice_tagged))%list /\
    gl_calls (gl st')
    = (rev (map (fun e => GenTextures (Tex.ID e)) (loaded_entries st'))
       ++ gl_calls (gl twice_tagged))%list /\
    (forall name, name ∈ gl_names (gl twice_tagged) -> name ∈ gl_names (gl st')) /\
    (exists calls, gl_calls (gl st') = (calls ++ gl_calls (gl twice_tagged))%list /\
                   Forall is_GenTextures calls) /\
    (forall (j : nat) (e : TEXTURE_INFO),
       (j < Z.to_nat (m_loadedTextures twice_tagged))%nat ->
       m_textureIDs twice_tagged !! j = Some e ->
       exists e', m_textureIDs st' !! j = Some e' /\
                  Tex.ID e'
                  = next_name (rev (map Tex.ID (take j (m_textureIDs st')))
                               ++ gl_names (gl twice_tagged))%list /\
                  (Tex.ID e' ∉ gl_names (gl twice_tagged)) /\
                  (Tex.ID e' ∈ gl_names (gl st')) /\
                  Tex.tag e' = Tex.tag e) /\
    (forall j : nat,
       (Z.to_nat (m_loadedTextures twice_tagged) <= j)%nat ->
       m_textureIDs st' !! j = m_textureIDs twice_tagged !! j) /\
    m_loadedTextures st' = m_loadedTextures twice_tagged /\
    map Tex.tag (m_textureIDs st') = map Tex.tag (m_textureIDs twice_tagged).
Proof.
  apply (DestroyGLTextures_regenerates next_name next_name_fresh twice_tagged).
  exact registry_ok_twice_tagged.
Defined.

Lemma SetShaderMaterial_empty_registry_witness :
  SetShaderMaterial "dashmat"
    (Mat.Make (glm.Vec3 F32.one F32.one F32.one)
              (glm.Vec3 F32.zero F32.zero F32.zero) F32.one EmptyString)
    (new_scene None)
  = Ok (tt, new_scene None).
Proof.
  apply (SetShaderMaterial_empty_registry (new_scene None) "dashmat" _).
  reflexivity.
Defined.

Lemma SetShaderMaterial_dereferences_null_witness :
  SetShaderMaterial "dashmat"
    (Mat.Make (glm.Vec3 F32.one F32.one F32.one)
              (glm.Vec3 F32.zero F32.zero F32.zero) F32.one EmptyString)
    (with_materials [Mat.Make (glm.Vec3 F32.one F32.one F32.one)
                              (glm.Vec3 F32.one F32.one F32.one) F32.one "plastic"]
                    (new_scene None))
  = Crash NullDereference.
Proof.
  refine (proj2 (proj2 (proj2 (proj2
            (SetShaderMaterial_dereferences_null cos_poly sin_poly _ "dashmat" _ _)))) _).
  - reflexivity.
  - cbn. discriminate.
Defined.

Lemma metal_is_never_defined_witness :
  exists st,
    PrepareScene next_name sample_files (new_scene (Some [])) = Ok (tt, st) /\
    map Mat.tag (m_objectMaterials st) = defined_tags /\
    forall material, FindMaterial "metal" material st = Ok ((true, material), st).
Proof.
  eexists. split; [vm_compute; reflexivity|].
  match goal with
  | |- context [FindMaterial _ _ ?st] =>
      pose proof (metal_is_never_defined cos_poly sin_poly next_name sample_files
                    (new_scene (Some [])) st
                    (registry_ok_new_scene (Some [])) eq_refl) as H
  end.
  destruct H as (Htags & _ & Hfind & _); [vm_compute; reflexivity|].
  split; [exact Htags|exact Hfind].
Defined.

(** * C5 as stated fails on a tag already in use *)

(** C5, as stated: after every load that returned [true], the lookups
    with the same tag answer the entry just created.  In [twice_tagged]
    the tag "dash" sits in slots 0 and 1; a third load under "dash"
    succeeds into slot 2 with identifier 10, and the lookups still answer
    slot 0 and identifier 7. *)
Lemma load_then_find_duplicate_tag :
  ~ (forall (glGenName : list GLuint -> GLuint) (stbi_load : string -> option Image)
            (filename tag : string) (st st' : SceneManager),
       registry_ok st ->
       CreateGLTexture glGenName stbi_load filename tag st = Ok (true, st') ->
       exists e,
         m_textureIDs st' !! Z.to_nat (m_loadedTextures st) = Some e /\
         FindTextureID tag st' = Ok (int_of_GLuint (Tex.ID e), st') /\
         FindTextureSlot tag st' = Ok (m_loadedTextures st, st')).
Proof.
  intros Hclaim.
  destruct (Hclaim next_name sample_files "textures/leather1.jpg" "dash" twice_tagged _
              registry_ok_twice_tagged eq_refl) as (e & _ & _ & Hslot).
  vm_compute in Hslot. discriminate.
Qed.

(** * The further properties at concrete inputs *)

Lemma handles_ok_twice_tagged : handles_ok twice_tagged.
Proof.
  split.
  - change (NoDup [7; 9]). apply NoDup_cons. split.
    + rewrite list_elem_of_singleton. lia.
    + apply NoDup_singleton.
  - change (Forall (fun e => Tex.ID e ∈ [9; 7]) [Tex.Make 7 "dash"; Tex.Make 9 "dash"]).
    repeat constructor; cbn; rewrite !elem_of_cons; auto.
Qed.

Lemma lookup_of_unregistered_tag_witness :
  FindTextureID "wheel" twice_tagged = Ok (-1, twice_tagged).
Proof.
  apply (proj1 (lookup_of_unregistered_tag twice_tagged "wheel" registry_ok_twice_tagged)).
  cbn. repeat constructor; cbn; discriminate.
Defined.

Lemma lookups_name_the_same_slot_witness :
  0 <= 0 < m_loadedTextures twice_tagged /\
  exists e,
    m_textureIDs twice_tagged !! Z.to_nat 0 = Some e /\
    Tex.tag e = "dash" /\
    FindTextureID "dash" twice_tagged = Ok (int_of_GLuint (Tex.ID e), twice_tagged).
Proof.
  apply (lookups_name_the_same_slot twice_tagged twice_tagged "dash" 0).
  - exact registry_ok_twice_tagged.
  - vm_compute. reflexivity.
  - lia.
Defined.

Lemma load_ends_in_three_ways_witness :
  match CreateGLTexture next_name sample_files "textures/leather1.jpg" "dash"
          (with_loaded 16 twice_tagged) with
  | Ok (true, _) =>
      decodes sample_files "textures/leather1.jpg" = true /\
      m_loadedTextures (with_loaded 16 twice_tagged) < MAX_TEXTURES
  | Ok (false, _) => decodes sample_files "textures/leather1.jpg" = false
  | Crash fault =>
      fault = OutOfBounds /\ decodes sample_files "textures/leather1.jpg" = true /\
      m_loadedTextures (with_loaded 16 twice_tagged) = MAX_TEXTURES
  end.
Proof.
  apply (load_ends_in_three_ways next_name sample_files "textures/leather1.jpg" "dash"
           (with_loaded 16 twice_tagged)).
  unfold registry_ok, MAX_TEXTURES. cbn. lia.
Defined.

Lemma rejected_image_leaves_a_name_bound_witness :
  exists st',
    CreateGLTexture next_name sample_files "textures/gray.png" "gray" twice_tagged
    = Ok (false, st') /\
    (next_name (gl_names (gl twice_tagged)) ∉ gl_names (gl twice_tagged)) /\
    gl_names (gl st') = next_name (gl_names (gl twice_tagged)) :: gl_names (gl twice_tagged) /\
    active_unit (gl_calls (gl st')) = active_unit (gl_calls (gl twice_tagged)) /\
    bound_2D (gl_calls (gl st')) (active_unit (gl_calls (gl st')))
    = next_name (gl_names (gl twice_tagged)) /\
    (handles_ok twice_tagged ->
     Forall (fun e => Tex.ID e <> next_name (gl_names (gl twice_tagged)))
            (loaded_entries st')).
Proof.
  apply (proj2 (rejected_image_leaves_a_name_bound next_name sample_files next_name_fresh
                  "textures/gray.png" "gray" twice_tagged) (MkImage 1 1 1 [128])).
  - reflexivity.
  - cbn. lia.
  - cbn. lia.
Defined.

Lemma load_keeps_earlier_lookups_witness :
  exists st',
    CreateGLTexture next_name sample_files "textures/tesla_screen.jpg" "screen" twice_tagged
    = Ok (true, st') /\
    loaded_entries st'
    = (loaded_entries twice_tagged ++ [Tex.Make 10 "screen"])%list.
Proof.
  eexists. split; [vm_compute; reflexivity|].
  refine (proj1 (load_keeps_earlier_lookups next_name sample_files
                   "textures/tesla_screen.jpg" "screen" twice_tagged _
                   registry_ok_twice_tagged _)).
  vm_compute. reflexivity.
Defined.

Lemma load_keeps_handles_distinct_witness :
  exists st',
    CreateGLTexture next_name sample_files "textures/tesla_screen.jpg" "screen" twice_tagged
    = Ok (true, st') /\
    handles_ok st'.
Proof.
  eexists. split; [vm_compute; reflexivity|].
  refine (load_keeps_handles_distinct next_name sample_files next_name_fresh
            "textures/tesla_screen.jpg" "screen" true twice_tagged _
            registry_ok_twice_tagged handles_ok_twice_tagged _).
  vm_compute. reflexivity.
Defined.

Lemma load_unbinds_the_selected_unit_witness :
  exists st',
    CreateGLTexture next_name sample_files "textures/tesla_screen.jpg" "screen" twice_tagged
    = Ok (true, st') /\
    bound_2D (gl_calls (gl st')) (active_unit (gl_calls (gl twice_tagged))) = 0.
Proof.
  eexists. split; [vm_compute; reflexivity|].
  refine (proj1 (proj2 (load_unbinds_the_selected_unit next_name sample_files
                          "textures/tesla_screen.jpg" "screen" twice_tagged _
                          registry_ok_twice_tagged _))).
  vm_compute. reflexivity.
Defined.

Lemma release_leaves_distinct_handles_witness :
  exists st', DestroyGLTextures next_name twice_tagged = Ok (tt, st') /\ handles_ok st'.
Proof.
  apply (release_leaves_distinct_handles next_name next_name_fresh twice_tagged).
  exact registry_ok_twice_tagged.
Defined.

Lemma release_keeps_every_slot_witness :
  exists st',
    DestroyGLTextures next_name twice_tagged = Ok (tt, st') /\
    forall tag : string,
      exists slot,
        FindTextureSlot tag twice_tagged = Ok (slot, twice_tagged) /\
        FindTextureSlot tag st' = Ok (slot, st') /\
        (slot <> -1 ->
         0 <= slot < m_loadedTextures twice_tagged /\
         exists e',
           m_textureIDs st' !! Z.to_nat slot = Some e' /\
           Tex.tag e' = tag /\
           FindTextureID tag st' = Ok (int_of_GLuint (Tex.ID e'), st') /\
           (Tex.ID e' ∉ gl_names (gl twice_tagged)) /\
           (Tex.ID e' ∈ gl_names (gl st'))).
Proof.
  apply (release_keeps_every_slot next_name next_name_fresh twice_tagged).
  exact registry_ok_twice_tagged.
Defined.

Lemma BindGLTextures_binds_slot_to_unit_witness :
  exists st',
    BindGLTextures twice_tagged = Ok (tt, st') /\
    m_textureIDs st' = m_textureIDs twice_tagged /\
    m_loadedTextures st' = m_loadedTextures twice_tagged /\
    m_objectMaterials st' = m_objectMaterials twice_tagged /\
    gl_names (gl st') = gl_names (gl twice_tagged) /\
    (forall (j : nat) (e : TEXTURE_INFO),
       (j < Z.to_nat (m_loadedTextures twice_tagged))%nat ->
       m_textureIDs twice_tagged !! j = Some e ->
       bound_2D (gl_calls (gl st')) (GL_TEXTURE0 + Z.of_nat j) = Tex.ID e).
Proof.
  apply (BindGLTextures_binds_slot_to_unit twice_tagged).
  exact registry_ok_twice_tagged.
Defined.

Lemma slot_is_the_unit_of_the_handle_witness :
  exists st',
    BindGLTextures twice_tagged = Ok (tt, st') /\
    FindTextureID "dash" st'
    = Ok (int_of_GLuint (bound_2D (gl_calls (gl st')) (GL_TEXTURE0 + 0)), st').
Proof.
  eexists. split; [vm_compute; reflexivity|].
  refine (slot_is_the_unit_of_the_handle twice_tagged _ _ "dash" 0
            registry_ok_twice_tagged _ _ _).
  - vm_compute. reflexivity.
  - vm_compute. reflexivity.
  - lia.
Defined.

Lemma SetShaderTexture_writes_the_slot_witness :
  exists st' sh' slot,
    SetShaderTexture "wheel" twice_tagged = Ok (tt, st') /\
    FindTextureSlot "wheel" twice_tagged = Ok (slot, twice_tagged) /\
    m_pShaderManager st' = Some sh' /\
    uniform "objectTexture" sh' = Some (USampler2D slot) /\
    uniform "bUseTexture" sh' = Some (UInt 1) /\
    (Forall (fun e => Tex.tag e <> "wheel") (loaded_entries twice_tagged) -> slot = -1).
Proof.
  apply (SetShaderTexture_writes_the_slot twice_tagged [] "wheel").
  - exact registry_ok_twice_tagged.
  - reflexivity.
Defined.

Lemma FindMaterial_copies_first_match_witness :
  FindMaterial "paint" stale (painted None)
  = Ok ((true, Mat.Make (Mat.diffuseColor paint) (Mat.specularColor paint)
                        (Mat.shininess paint) (Mat.tag stale)), painted None).
Proof.
  apply (FindMaterial_copies_first_match (painted None) "paint" stale paint 0%nat).
  - reflexivity.
  - reflexivity.
  - intros j e' Hj. lia.
Defined.

Lemma SetShaderMaterial_writes_first_match_witness :
  exists st' sh',
    SetShaderMaterial "paint" stale (painted (Some [])) = Ok (tt, st') /\
    st' = with_shader (Some sh') (painted (Some [])) /\
    sh' = (material_writes paint ++ [])%list /\
    uniform "material.diffuseColor" sh' = Some (UVec3 (Mat.diffuseColor paint)) /\
    uniform "material.specularColor" sh' = Some (UVec3 (Mat.specularColor paint)) /\
    uniform "material.shininess" sh' = Some (UFloat (Mat.shininess paint)).
Proof.
  apply (SetShaderMaterial_writes_first_match (painted (Some [])) [] "paint" stale paint
           0%nat).
  - reflexivity.
  - reflexivity.
  - reflexivity.
  - intros j e' Hj. lia.
Defined.

Lemma lookups_and_bridge_leave_registries_witness :
  same_registries twice_tagged
    (with_shader (Some [("UVscale", UVec2 (glm.Vec2 F32.one F32.one))]) twice_tagged) /\
  m_basicMeshes
    (with_shader (Some [("UVscale", UVec2 (glm.Vec2 F32.one F32.one))]) twice_tagged)
  = m_basicMeshes twice_tagged.
Proof.
  apply (proj2 (proj2 (proj2
           (lookups_and_bridge_leave_registries cos_poly sin_poly twice_tagged _)))
           (SetTextureUVScale F32.one F32.one)).
  - right. right. right. left. now exists F32.one, F32.one.
  - reflexivity.
Defined.

Lemma RenderScene_only_draws_witness :
  exists st',
    RenderScene cos_poly sin_poly (fun _ => stale) (new_scene None) = Ok (tt, st') /\
    drawn (m_basicMeshes st') = (scene_draws ++ drawn (m_basicMeshes (new_scene None)))%list.
Proof.
  eexists. split; [vm_compute; reflexivity|].
  refine (proj2 (proj2 (RenderScene_only_draws cos_poly sin_poly (fun _ => stale)
                          (new_scene None) _ _))).
  vm_compute. reflexivity.
Defined.

Lemma RenderScene_without_shader_witness :
  RenderScene cos_poly sin_poly (fun _ => stale) (painted None) = Crash NullDereference.
Proof.
  apply (proj2 (RenderScene_without_shader cos_poly sin_poly (fun _ => stale)
                  (painted None) eq_refl)).
  cbn. discriminate.
Defined.

Lemma LoadSceneTextures_registers_what_decodes_witness :
  exists st',
    LoadSceneTextures next_name sample_files (new_scene None) = Ok (tt, st') /\
    registry_ok st' /\
    map Tex.tag (loaded_entries st')
    = (map Tex.tag (loaded_entries (new_scene None))
       ++ map snd (List.filter (registers sample_files) scene_textures))%list /\
    m_loadedTextures st'
    = m_loadedTextures (new_scene None)
      + Z.of_nat (length (List.filter (registers sample_files) scene_textures)) /\
    (forall (j : nat) (e : TEXTURE_INFO),
       (j < Z.to_nat (m_loadedTextures st'))%nat -> m_textureIDs st' !! j = Some e ->
       bound_2D (gl_calls (gl st')) (GL_TEXTURE0 + Z.of_nat j) = Tex.ID e).
Proof.
  apply (LoadSceneTextures_registers_what_decodes next_name sample_files (new_scene None)).
  - exact (registry_ok_new_scene None).
  - vm_compute. discriminate.
Defined.

Lemma PrepareScene_without_shader_witness :
  PrepareScene next_name sample_files (new_scene None) = Crash NullDereference.
Proof.
  apply (PrepareScene_without_shader next_name sample_files (new_scene None)).
  - exact (registry_ok_new_scene None).
  - vm_compute. discriminate.
  - reflexivity.
Defined.

Lemma PrepareScene_establishes_witness :
  exists st,
    PrepareScene next_name sample_files (new_scene (Some [])) = Ok (tt, st) /\
    registry_ok st /\
    m_objectMaterials st = defined_materials /\
    map Tex.tag (loaded_entries st) = ["dash"; "screen"] /\
    m_pShaderManager st = Some light_writes.
Proof.
  destruct (PrepareScene_establishes next_name sample_files (new_scene (Some [])) [])
    as (st & Hrun & Hok & Hmats & Htags & _ & _ & _ & Hsh & _).
  - exact (registry_ok_new_scene (Some [])).
  - vm_compute. discriminate.
  - reflexivity.
  - exists st. split; [exact Hrun|]. split; [exact Hok|]. split; [exact Hmats|].
    split; [exact Htags|]. rewrite Hsh. now rewrite app_nil_r.
Defined.

Lemma later_call_decides_the_flag_witness :
  exists slot,
    FindTextureSlot "dash" twice_tagged = Ok (slot, twice_tagged) /\
    (exists st' sh',
       (SetShaderTexture "dash" ;; SetShaderColor F32.one F32.zero F32.zero F32.one)%method
         twice_tagged = Ok (tt, st') /\
       m_pShaderManager st' = Some sh' /\
       uniform "bUseTexture" sh' = Some (UInt 0) /\
       uniform "objectColor" sh'
       = Some (UVec4 (glm.Vec4 F32.one F32.zero F32.zero F32.one)) /\
       uniform "objectTexture" sh' = Some (USampler2D slot)) /\
    (exists st' sh',
       (SetShaderColor F32.one F32.zero F32.zero F32.one ;; SetShaderTexture "dash")%method
         twice_tagged = Ok (tt, st') /\
       m_pShaderManager st' = Some sh' /\
       uniform "bUseTexture" sh' = Some (UInt 1) /\
       uniform "objectColor" sh'
       = Some (UVec4 (glm.Vec4 F32.one F32.zero F32.zero F32.one)) /\
       uniform "objectTexture" sh' = Some (USampler2D slot)).
Proof.
  apply (later_call_decides_the_flag twice_tagged [] "dash"
           F32.one F32.zero F32.zero F32.one).
  - exact registry_ok_twice_tagged.
  - reflexivity.
Defined.

Lemma DefineObjectMaterials_never_overrides_witness :
  exists st',
    DefineObjectMaterials (painted None) = Ok (tt, st') /\
    length (m_objectMaterials st') = 6%nat /\
    exists found,
      FindMaterial "paint" stale (painted None) = Ok ((true, found), painted None) /\
      FindMaterial "paint" stale st' = Ok ((true, found), st').
Proof.
  destruct (DefineObjectMaterials_never_overrides (painted None) "paint" stale)
    as (st' & Hrun & _ & Hlen & Hfind).
  exists st'. split; [exact Hrun|]. split; [exact Hlen|].
  apply Hfind. cbn. apply Exists_cons_hd. reflexivity.
Defined.

Lemma registry_stays_well_formed_witness :
  exists st',
    DestroyGLTextures next_name twice_tagged = Ok (tt, st') /\ registry_ok st'.
Proof.
  eexists. split; [vm_compute; reflexivity|].
  refine (proj1 (proj2 (proj2 (registry_stays_well_formed cos_poly sin_poly next_name
                                 sample_files twice_tagged _ registry_ok_twice_tagged))) _).
  vm_compute. reflexivity.
Defined.
